(** * etl2pcapng: a shallow embedding of [src/main.c]

    The conversion engine of etl2pcapng reads an ETL trace twice.  Pass 1
    collects the network interfaces seen in the trace into a chained hash
    table; [WriteInterfaces] sorts them and numbers them; pass 2 reassembles
    packet fragments and hands every completed frame to the pcapng writer.

    The process-wide variables of [main.c] are gathered in the record
    [State]; every C function becomes a function on [State].  Calls made on
    the collaborators that are not part of [main.c] (the pcapng writer of
    [pcapng.h], [printf]) are recorded in the state, in call order. *)

From Stdlib Require Import ZArith String Ascii List Lia Permutation Sorted.
From stdpp Require Import base tactics option list sets sorting.

Open Scope Z_scope.

(** ** Machine integers *)

Module Word.

(** [unsigned long], [ULONG], [DWORD], [unsigned int]: 32 bits. *)
Definition u32 (z : Z) : Z := z mod 2 ^ 32.

(** [unsigned long long], [ULONGLONG], and [size_t] on the 64-bit build. *)
Definition u64 (z : Z) : Z := z mod 2 ^ 64.

(** [USHORT]. *)
Definition u16 (z : Z) : Z := z mod 2 ^ 16.

(** [UCHAR], and the bit pattern of a [char]. *)
Definition u8 (z : Z) : Z := z mod 2 ^ 8.

(** [long], [LONG], [int]: the two's complement reading of 32 bits. *)
Definition s32 (z : Z) : Z :=
  let w := u32 z in if w <? 2 ^ 31 then w else w - 2 ^ 32.

(** [LONGLONG]. *)
Definition s64 (z : Z) : Z :=
  let w := u64 z in if w <? 2 ^ 63 then w else w - 2 ^ 64.

Definition is_u8 (z : Z) : Prop := 0 <= z < 2 ^ 8.
Definition is_u16 (z : Z) : Prop := 0 <= z < 2 ^ 16.
Definition is_u32 (z : Z) : Prop := 0 <= z < 2 ^ 32.
Definition is_u64 (z : Z) : Prop := 0 <= z < 2 ^ 64.
Definition is_s32 (z : Z) : Prop := - 2 ^ 31 <= z < 2 ^ 31.
Definition is_s64 (z : Z) : Prop := - 2 ^ 63 <= z < 2 ^ 63.

End Word.

(** ** Constants of [main.c] *)

Definition MAX_PACKET_SIZE : Z := 65535.

Definition KW_MEDIA_WIRELESS_WAN : Z := 0x200.
Definition KW_MEDIA_NATIVE_802_11 : Z := 0x10000.
Definition KW_PACKET_START : Z := 0x40000000.
Definition KW_PACKET_END : Z := 0x80000000.
Definition KW_SEND : Z := 0x100000000.
Definition KW_RECEIVE : Z := 0x200000000.

Definition tidPacketFragment : Z := 1001.
Definition tidPacketMetadata : Z := 1002.
Definition tidVMSwitchPacketFragment : Z := 1003.

Definition IFACE_HT_SIZE : Z := 100.

Definition COMMENT_MAX_SIZE : Z := 16.

Definition NO_ERROR : Z := 0.
Definition ERROR_INSUFFICIENT_BUFFER : Z := 122.

(** [!!(Keyword & Flag)] *)
Definition has_keyword (Keyword Flag : Z) : bool :=
  negb (Z.land Keyword Flag =? 0).

(** The link types are declared in [pcapng.h]; [main.c] only stores and
    compares them, so they are kept as an enumeration. *)
Inductive LINKTYPE : Type :=
| PCAPNG_LINKTYPE_ETHERNET
| PCAPNG_LINKTYPE_IEEE802_11
| PCAPNG_LINKTYPE_RAW.

Definition LINKTYPE_eqb (a b : LINKTYPE) : bool :=
  match a, b with
  | PCAPNG_LINKTYPE_ETHERNET, PCAPNG_LINKTYPE_ETHERNET => true
  | PCAPNG_LINKTYPE_IEEE802_11, PCAPNG_LINKTYPE_IEEE802_11 => true
  | PCAPNG_LINKTYPE_RAW, PCAPNG_LINKTYPE_RAW => true
  | _, _ => false
  end.

(** ** Structures *)

(** [struct _NDIS_OBJECT_HEADER] *)
Record NDIS_OBJECT_HEADER : Type := {
  Type_ : Z;
  Revision : Z;
  Size : Z
}.

(** [struct DOT11_EXTSTA_RECV_CONTEXT] *)
Record DOT11_EXTSTA_RECV_CONTEXT : Type := {
  Header : NDIS_OBJECT_HEADER;
  uReceiveFlags : Z;
  uPhyId : Z;
  uChCenterFrequency : Z;
  usNumberOfMPDUsReceived : Z;
  lRSSI : Z;
  ucDataRate : Z;
  uSizeMediaSpecificInfo : Z;
  pvMediaSpecificInfo : Z;
  ullTimestamp : Z
}.

(** The structure after [memset (&PacketMetadata, 0, sizeof ...)], which is
    also its content at program start. *)
Definition zero_metadata : DOT11_EXTSTA_RECV_CONTEXT :=
  {| Header := {| Type_ := 0; Revision := 0; Size := 0 |};
     uReceiveFlags := 0; uPhyId := 0; uChCenterFrequency := 0;
     usNumberOfMPDUsReceived := 0; lRSSI := 0; ucDataRate := 0;
     uSizeMediaSpecificInfo := 0; pvMediaSpecificInfo := 0;
     ullTimestamp := 0 |}.

(** Field ranges of a metadata record as the C types give them. *)
Definition metadata_in_range (m : DOT11_EXTSTA_RECV_CONTEXT) : Prop :=
  Word.is_u32 (uReceiveFlags m) /\ Word.is_u32 (uPhyId m) /\
  Word.is_u32 (uChCenterFrequency m) /\
  Word.is_u16 (usNumberOfMPDUsReceived m) /\
  Word.is_s32 (lRSSI m) /\ Word.is_u8 (ucDataRate m).

(** [sizeof (DOT11_EXTSTA_RECV_CONTEXT)] under [#pragma pack(push,8)]: each
    member is aligned to the smaller of its size and 8, and the structure
    is padded to its largest member alignment.  The members are listed as
    (size, alignment); [ptr] is the size of [PVOID]. *)
Module Layout.

Definition align_up (off a : Z) : Z := ((off + a - 1) / a) * a.

Definition place (off : Z) (member : Z * Z) : Z :=
  align_up off (snd member) + fst member.

Definition struct_size (members : list (Z * Z)) : Z :=
  align_up (fold_left place members 0)
           (fold_right Z.max 1 (map snd members)).

Definition DOT11_EXTSTA_RECV_CONTEXT_members (ptr : Z) : list (Z * Z) :=
  [ (1, 1); (1, 1); (2, 2)   (* Header: Type, Revision, Size *)
  ; (4, 4)                   (* uReceiveFlags *)
  ; (4, 4)                   (* uPhyId *)
  ; (4, 4)                   (* uChCenterFrequency *)
  ; (2, 2)                   (* usNumberOfMPDUsReceived *)
  ; (4, 4)                   (* lRSSI *)
  ; (1, 1)                   (* ucDataRate *)
  ; (4, 4)                   (* uSizeMediaSpecificInfo *)
  ; (ptr, ptr)               (* pvMediaSpecificInfo *)
  ; (8, 8) ].                (* ullTimestamp *)

End Layout.

Definition sizeof_DOT11_EXTSTA_RECV_CONTEXT : Z :=
  Eval cbv in Layout.struct_size (Layout.DOT11_EXTSTA_RECV_CONTEXT_members 8).

(** [DOT11_PHY_TYPE_NAMES] *)
Definition DOT11_PHY_TYPE_NAMES : list string :=
  [ "Unknown"; "Fhss"; "Dsss"; "IrBaseband"; "802.11a"; "802.11b";
    "802.11g"; "802.11n"; "802.11ac"; "802.11ad"; "802.11ax" ]%string.

(** [struct INTERFACE].  The [Next] pointer is the tail of the chain the
    record sits in (see [InterfaceHashTable] below).  [AddInterface] leaves
    [PcapNgIfIndex] unset: [None] is the indeterminate value of the freshly
    allocated record. *)
Record INTERFACE : Type := {
  LowerIfIndex : Z;
  MiniportIfIndex : Z;
  PcapNgIfIndex : option Z;
  Type' : LINKTYPE
}.

(** A [struct INTERFACE*]: the bucket of the hash table and the position in
    that bucket's chain. *)
Definition IFACE_PTR : Type := nat * nat.

(** ** The trace event, as [EventCallback] reads it *)

(** Result of [TdhGetProperty] for one named property: an error code other
    than [NO_ERROR], or the property's data. *)
Inductive TDH (T : Type) : Type :=
| TdhError (Err : Z)
| TdhData (v : T).
Arguments TdhError {T} Err.
Arguments TdhData {T} v.

Record GUID : Type := {
  Data1 : Z; Data2 : Z; Data3 : Z; Data4 : list Z
}.

Definition NdisCapId : GUID :=
  {| Data1 := 0x2ed6006e; Data2 := 0x4729; Data3 := 0x4609;
     Data4 := [0xb4; 0x23; 0x3e; 0xe7; 0xbc; 0xd6; 0x78; 0xef] |}.

Definition IsEqualGUID (a b : GUID) : bool :=
  (Data1 a =? Data1 b) && (Data2 a =? Data2 b) && (Data3 a =? Data3 b)
  && bool_decide (Data4 a = Data4 b).

(** [EVENT_RECORD]: the header fields and the named properties that
    [EventCallback] queries. *)
Record EVENT_RECORD : Type := {
  ProviderId : GUID;
  Id : Z;                       (* EventHeader.EventDescriptor.Id *)
  Keyword : Z;                  (* EventHeader.EventDescriptor.Keyword *)
  TimeStamp : Z;                (* EventHeader.TimeStamp.QuadPart *)
  ProcessId : Z;                (* EventHeader.ProcessId *)
  prop_LowerIfIndex : TDH Z;
  prop_MiniportIfIndex : TDH Z;
  prop_MetadataSize : TDH Z;
  prop_Metadata : TDH DOT11_EXTSTA_RECV_CONTEXT;
  prop_FragmentSize : TDH Z;
  prop_Fragment : TDH (list Z)
}.

(** [TdhGetProperty] on a byte-array property with a caller buffer of
    [BufferSize] bytes: the data is copied when it fits. *)
Definition TdhGetProperty_bytes (p : TDH (list Z)) (BufferSize : Z)
  : TDH (list Z) :=
  match p with
  | TdhError Err => TdhError Err
  | TdhData bytes =>
      if BufferSize <? Z.of_nat (length bytes)
      then TdhError ERROR_INSUFFICIENT_BUFFER
      else TdhData bytes
  end.

(** ** Calls on the collaborators *)

(** Calls on the pcapng writer of [pcapng.h], with the arguments [main.c]
    passes.  [FragBuf] is the content of the buffer the pointer argument
    designates at the time of the call. *)
Inductive PCAPNG_CALL : Type :=
| PcapNgWriteInterfaceDesc (LinkType : LINKTYPE) (SnapLen : Z)
| PcapNgWriteEnhancedPacket
    (FragBuf : list Z) (FragLength : Z) (InterfaceId : Z) (IsSend : Z)
    (TimeStampHigh : Z) (TimeStampLow : Z)
    (Comment : option string) (CommentLength : Z).

(** Lines printed with [printf], one constructor per format string, with
    the values of its arguments. *)
Inductive PRINTF_LINE : Type :=
| MsgTdhGetPropertyFailed (PropertyName : string) (Err : Z)
| MsgInconsistentMediaType
| MsgUnrecognizedIfIndex
| MsgUnknownMetadataLength (Expected Got : Z)
| MsgPacketTooLarge (size : Z)
| MsgMetadataToStringFailed (Err : Z)
| MsgMetadataLengthFailed (Err : Z)
| MsgInterface (medium : LINKTYPE) (ID : Z) (IfIndex : Z)
               (LwfOver : option Z)
| MsgOutOfMemory.

(** ** Global state of [main.c] *)

Record State : Type := {
  OutFile : list PCAPNG_CALL;          (* calls made on [OutFile], oldest first *)
  Console : list PRINTF_LINE;          (* lines printed, oldest first *)
  NumFramesConverted : Z;
  Pass2 : bool;
  AuxFragBuf : list Z;                 (* MAX_PACKET_SIZE bytes *)
  AuxFragBufOffset : Z;
  PacketMetadata : DOT11_EXTSTA_RECV_CONTEXT;
  AddMetadata : bool;
  InterfaceHashTable : list (list INTERFACE);  (* IFACE_HT_SIZE chains *)
  NumInterfaces : Z
}.

Definition initial_state : State :=
  {| OutFile := [];
     Console := [];
     NumFramesConverted := 0;
     Pass2 := false;
     AuxFragBuf := replicate (Z.to_nat MAX_PACKET_SIZE) 0;
     AuxFragBufOffset := 0;
     PacketMetadata := zero_metadata;
     AddMetadata := false;
     InterfaceHashTable := replicate (Z.to_nat IFACE_HT_SIZE) [];
     NumInterfaces := 0 |}.

Definition set_OutFile (v : list PCAPNG_CALL) (st : State) : State :=
  {| OutFile := v; Console := Console st;
     NumFramesConverted := NumFramesConverted st; Pass2 := Pass2 st;
     AuxFragBuf := AuxFragBuf st; AuxFragBufOffset := AuxFragBufOffset st;
     PacketMetadata := PacketMetadata st; AddMetadata := AddMetadata st;
     InterfaceHashTable := InterfaceHashTable st;
     NumInterfaces := NumInterfaces st |}.

Definition set_Console (v : list PRINTF_LINE) (st : State) : State :=
  {| OutFile := OutFile st; Console := v;
     NumFramesConverted := NumFramesConverted st; Pass2 := Pass2 st;
     AuxFragBuf := AuxFragBuf st; AuxFragBufOffset := AuxFragBufOffset st;
     PacketMetadata := PacketMetadata st; AddMetadata := AddMetadata st;
     InterfaceHashTable := InterfaceHashTable st;
     NumInterfaces := NumInterfaces st |}.

Definition set_NumFramesConverted (v : Z) (st : State) : State :=
  {| OutFile := OutFile st; Console := Console st;
     NumFramesConverted := v; Pass2 := Pass2 st;
     AuxFragBuf := AuxFragBuf st; AuxFragBufOffset := AuxFragBufOffset st;
     PacketMetadata := PacketMetadata st; AddMetadata := AddMetadata st;
     InterfaceHashTable := InterfaceHashTable st;
     NumInterfaces := NumInterfaces st |}.

Definition set_Pass2 (v : bool) (st : State) : State :=
  {| OutFile := OutFile st; Console := Console st;
     NumFramesConverted := NumFramesConverted st; Pass2 := v;
     AuxFragBuf := AuxFragBuf st; AuxFragBufOffset := AuxFragBufOffset st;
     PacketMetadata := PacketMetadata st; AddMetadata := AddMetadata st;
     InterfaceHashTable := InterfaceHashTable st;
     NumInterfaces := NumInterfaces st |}.

Definition set_AuxFragBuf (v : list Z) (st : State) : State :=
  {| OutFile := OutFile st; Console := Console st;
     NumFramesConverted := NumFramesConverted st; Pass2 := Pass2 st;
     AuxFragBuf := v; AuxFragBufOffset := AuxFragBufOffset st;
     PacketMetadata := PacketMetadata st; AddMetadata := AddMetadata st;
     InterfaceHashTable := InterfaceHashTable st;
     NumInterfaces := NumInterfaces st |}.

Definition set_AuxFragBufOffset (v : Z) (st : State) : State :=
  {| OutFile := OutFile st; Console := Console st;
     NumFramesConverted := NumFramesConverted st; Pass2 := Pass2 st;
     AuxFragBuf := AuxFragBuf st; AuxFragBufOffset := v;
     PacketMetadata := PacketMetadata st; AddMetadata := AddMetadata st;
     InterfaceHashTable := InterfaceHashTable st;
     NumInterfaces := NumInterfaces st |}.

Definition set_PacketMetadata (v : DOT11_EXTSTA_RECV_CONTEXT) (st : State)
  : State :=
  {| OutFile := OutFile st; Console := Console st;
     NumFramesConverted := NumFramesConverted st; Pass2 := Pass2 st;
     AuxFragBuf := AuxFragBuf st; AuxFragBufOffset := AuxFragBufOffset st;
     PacketMetadata := v; AddMetadata := AddMetadata st;
     InterfaceHashTable := InterfaceHashTable st;
     NumInterfaces := NumInterfaces st |}.

Definition set_AddMetadata (v : bool) (st : State) : State :=
  {| OutFile := OutFile st; Console := Console st;
     NumFramesConverted := NumFramesConverted st; Pass2 := Pass2 st;
     AuxFragBuf := AuxFragBuf st; AuxFragBufOffset := AuxFragBufOffset st;
     PacketMetadata := PacketMetadata st; AddMetadata := v;
     InterfaceHashTable := InterfaceHashTable st;
     NumInterfaces := NumInterfaces st |}.

Definition set_InterfaceHashTable (v : list (list INTERFACE)) (st : State)
  : State :=
  {| OutFile := OutFile st; Console := Console st;
     NumFramesConverted := NumFramesConverted st; Pass2 := Pass2 st;
     AuxFragBuf := AuxFragBuf st; AuxFragBufOffset := AuxFragBufOffset st;
     PacketMetadata := PacketMetadata st; AddMetadata := AddMetadata st;
     InterfaceHashTable := v;
     NumInterfaces := NumInterfaces st |}.

Definition set_NumInterfaces (v : Z) (st : State) : State :=
  {| OutFile := OutFile st; Console := Console st;
     NumFramesConverted := NumFramesConverted st; Pass2 := Pass2 st;
     AuxFragBuf := AuxFragBuf st; AuxFragBufOffset := AuxFragBufOffset st;
     PacketMetadata := PacketMetadata st; AddMetadata := AddMetadata st;
     InterfaceHashTable := InterfaceHashTable st;
     NumInterfaces := v |}.

(** [printf] and the two writer calls append to the recorded traces. *)
Definition printf (line : PRINTF_LINE) (st : State) : State :=
  set_Console (Console st ++ [line]) st.

Definition pcapng (call : PCAPNG_CALL) (st : State) : State :=
  set_OutFile (OutFile st ++ [call]) st.

(** What a call of a function of [main.c] can end in: it returns, it
    terminates the process through [exit], or it performs an access the C
    language leaves undefined. *)
Inductive UNDEFINED : Type :=
| PhyTypeNameOutOfBounds (uPhyId : Z)
| IndeterminatePcapNgIfIndex (LowerIfIndex : Z).

Inductive Outcome : Type :=
| Returns (st : State)
| Exits (code : Z) (st : State)
| Undefined (why : UNDEFINED) (st : State).

(** ** The interface hash table *)

Definition bucket_of (LowerIfIndex : Z) : nat :=
  Z.to_nat (LowerIfIndex mod IFACE_HT_SIZE).

Definition chain_at (ht : list (list INTERFACE)) (b : nat) : list INTERFACE :=
  default [] (ht !! b).

(** [*p] for [p : struct INTERFACE*]. *)
Definition deref (ht : list (list INTERFACE)) (p : IFACE_PTR)
  : option INTERFACE :=
  chain_at ht (fst p) !! snd p.

(** The [while] loop of [GetInterface], walking one chain; [pos] is the
    position of the head of [chain] in the bucket. *)
Fixpoint chain_find (L : Z) (chain : list INTERFACE) (pos : nat)
  : option nat :=
  match chain with
  | [] => None
  | Iface :: Next =>
      if LowerIfIndex Iface =? L then Some pos
      else chain_find L Next (S pos)
  end.

Definition GetInterface (ht : list (list INTERFACE)) (L : Z)
  : option IFACE_PTR :=
  let b := bucket_of L in
  match chain_find L (chain_at ht b) 0 with
  | Some k => Some (b, k)
  | None => None
  end.

(** [AddInterface] from the statement after the test of [NewIface]
    on: the state the function leaves when [malloc] gave a block.  The
    whole function, with the answer of [malloc] as a parameter, is
    [AddInterface_malloc] below. *)
Definition AddInterface (L M : Z) (T : LINKTYPE) (st : State) : State :=
  let ht := InterfaceHashTable st in
  let b := bucket_of L in
  let NewIface :=
    {| LowerIfIndex := L; MiniportIfIndex := M;
       PcapNgIfIndex := None; Type' := T |} in
  set_NumInterfaces (Word.u32 (NumInterfaces st + 1))
    (set_InterfaceHashTable (<[b := NewIface :: chain_at ht b]> ht) st).

(** ** Sorting and numbering the interfaces *)

Definition InterfaceCompareFn (A B : INTERFACE) : Z :=
  let MA := MiniportIfIndex A in
  let MB := MiniportIfIndex B in
  let LA := LowerIfIndex A in
  let LB := LowerIfIndex B in
  if MA =? MB then
    if MA =? LA then -1
    else if MB =? LB then 1
    else if LA <? LB then -1
    else if LB <? LA then 1
    else 0
  else if MA <? MB then -1
  else 1.

(** The record a comparison reads through an array element.  Every pointer
    of the array designates a record of the table; the default is never
    used. *)
Definition load (ht : list (list INTERFACE)) (p : IFACE_PTR) : INTERFACE :=
  default {| LowerIfIndex := 0; MiniportIfIndex := 0;
             PcapNgIfIndex := None; Type' := PCAPNG_LINKTYPE_ETHERNET |}
          (deref ht p).

(** The two nested [for] loops of [WriteInterfaces] that fill
    [InterfaceArray]: buckets in index order, each chain from its head. *)
Definition chain_ptrs (b : nat) (chain : list INTERFACE) : list IFACE_PTR :=
  (fun k => (b, k)) <$> seq 0 (length chain).

Definition collect (ht : list (list INTERFACE)) : list IFACE_PTR :=
  seq 0 (Z.to_nat IFACE_HT_SIZE) ≫= (fun b => chain_ptrs b (chain_at ht b)).

(** [Interface->PcapNgIfIndex = i] *)
Definition store_PcapNgIfIndex (p : IFACE_PTR) (i : Z)
    (ht : list (list INTERFACE)) : list (list INTERFACE) :=
  alter (alter (fun I =>
                  {| LowerIfIndex := LowerIfIndex I;
                     MiniportIfIndex := MiniportIfIndex I;
                     PcapNgIfIndex := Some i;
                     Type' := Type' I |}) (snd p)) (fst p) ht.

(** The C library's [qsort] is a parameter of the model: a function from a
    comparison and an array to the sorted array. *)
Definition QSORT : Type :=
  (IFACE_PTR -> IFACE_PTR -> Z) -> list IFACE_PTR -> list IFACE_PTR.

(** [InterfaceArray] after the call of [qsort] on its first [NumInterfaces]
    elements. *)
Definition SortedInterfaceArray (qsort : QSORT) (st : State)
  : list IFACE_PTR :=
  let ht := InterfaceHashTable st in
  let InterfaceArray := collect ht in
  let n := Z.to_nat (NumInterfaces st) in
  qsort (fun A B => InterfaceCompareFn (load ht A) (load ht B))
        (take n InterfaceArray)
  ++ drop n InterfaceArray.

(** One iteration of the last loop of [WriteInterfaces]. *)
Definition WriteInterfaces_body (InterfaceArray : list IFACE_PTR)
    (st : State) (i : nat) : State :=
  match InterfaceArray !! i with
  | None => st
  | Some p =>
      let st1 :=
        set_InterfaceHashTable
          (store_PcapNgIfIndex p (Z.of_nat i) (InterfaceHashTable st)) st in
      let Interface := load (InterfaceHashTable st1) p in
      let st2 :=
        pcapng (PcapNgWriteInterfaceDesc (Type' Interface) MAX_PACKET_SIZE)
               st1 in
      printf (MsgInterface (Type' Interface) (Z.of_nat i)
                (LowerIfIndex Interface)
                (if LowerIfIndex Interface =? MiniportIfIndex Interface
                 then None else Some (MiniportIfIndex Interface)))
             st2
  end.

(** [WriteInterfaces] from the statement after the test of
    [InterfaceArray] on: the state the function leaves when [malloc] gave
    a block.  The whole function, with the answer of [malloc] as a
    parameter, is [WriteInterfaces_malloc] below. *)
Definition WriteInterfaces (qsort : QSORT) (st : State) : State :=
  let InterfaceArray := SortedInterfaceArray qsort st in
  fold_left (WriteInterfaces_body InterfaceArray)
            (seq 0 (Z.to_nat (NumInterfaces st))) st.

(** ** Formatting: the part of [printf]-style formatting [main.c] uses *)

Module Printf.

(** A variadic argument: a 32-bit word or a pointer to a string. *)
Inductive VA_ARG : Type :=
| VaWord (w : Z)
| VaStr (s : string).

Definition digit (d : Z) : ascii :=
  ascii_of_nat (Z.to_nat (if d <? 10 then 48 + d else 87 + d)).

(** The digits of [n] in [base], most significant first. *)
Fixpoint digits (base : Z) (fuel : nat) (n : Z) : string :=
  match fuel with
  | O => EmptyString
  | S fuel' =>
      if n <? base then String (digit n) EmptyString
      else (digits base fuel' (n / base)
            ++ String (digit (n mod base)) EmptyString)%string
  end.

(** [%u], [%x] and [%d] on a 32-bit argument. *)
Definition fmt_u (w : Z) : string := digits 10 32 (Word.u32 w).
Definition fmt_x (w : Z) : string := digits 16 32 (Word.u32 w).
Definition fmt_d (w : Z) : string :=
  let v := Word.s32 w in
  if v <? 0 then String "-" (digits 10 32 (- v)) else digits 10 32 v.

Definition conversion (c : ascii) (a : VA_ARG) : string :=
  match a with
  | VaWord w =>
      if Ascii.eqb c "u" then fmt_u w
      else if Ascii.eqb c "x" then fmt_x w
      else if Ascii.eqb c "d" then fmt_d w
      else EmptyString
  | VaStr s => if Ascii.eqb c "s" then s else EmptyString
  end.

Fixpoint sprintf (fmt : string) (args : list VA_ARG) : string :=
  match fmt with
  | EmptyString => EmptyString
  | String c fmt' =>
      if Ascii.eqb c "%" then
        match fmt' with
        | EmptyString => EmptyString
        | String k rest =>
            match args with
            | a :: args' => (conversion k a ++ sprintf rest args')%string
            | [] => sprintf rest []
            end
        end
      else String c (sprintf fmt' args)
  end.

Definition S_OK : Z := 0.
Definition STRSAFE_E_INVALID_PARAMETER : Z := 0x80070057 - 2 ^ 32.
Definition STRSAFE_E_INSUFFICIENT_BUFFER : Z := 0x8007007A - 2 ^ 32.
Definition FAILED (hr : Z) : bool := hr <? 0.
Definition SUCCEEDED (hr : Z) : bool := 0 <=? hr.

Definition strlen (s : string) : Z := Z.of_nat (String.length s).

(** [StringCchPrintfA (Dest, cchDest, fmt, ...)]: the result code and the
    string left in [Dest].  The formatted text is truncated to
    [cchDest - 1] characters when it does not fit. *)
Definition StringCchPrintfA (cchDest : Z) (fmt : string)
    (args : list VA_ARG) : Z * string :=
  let s := sprintf fmt args in
  if strlen s <? cchDest then (S_OK, s)
  else (STRSAFE_E_INSUFFICIENT_BUFFER,
        substring 0 (Z.to_nat (cchDest - 1)) s).

(** [StringCchLengthA (psz, cchMax, &len)]: the result code and [len]. *)
Definition StringCchLengthA (psz : string) (cchMax : Z) : Z * Z :=
  if strlen psz <? cchMax then (S_OK, strlen psz)
  else (STRSAFE_E_INVALID_PARAMETER, 0).

End Printf.

Arguments Printf.fmt_u : simpl never.
Arguments Printf.fmt_x : simpl never.
Arguments Printf.fmt_d : simpl never.
Arguments Printf.digits : simpl never.

(** ** Pass 2: emitting a packet *)

Definition metadata_comment_format : string :=
  "Packet Metadata: ReceiveFlags:0x%x, PhyType:%s, CenterCh:%u, NumMPDUsReceived:%u, RSSI:%d, DataRate:%u, PID=%d".

(** [CombineMetadataWithPacket].  The parameters of type [long] hold the
    values after conversion at the call. *)
Definition CombineMetadataWithPacket (FragBuf : list Z) (FragLength : Z)
    (InterfaceId IsSend TimeStampHigh TimeStampLow : Z)
    (Metadata : DOT11_EXTSTA_RECV_CONTEXT) (ProcessId : Z) (st : State)
  : Outcome :=
  match DOT11_PHY_TYPE_NAMES !! Z.to_nat (uPhyId Metadata) with
  | None => Undefined (PhyTypeNameOutOfBounds (uPhyId Metadata)) st
  | Some PhyTypeName =>
      let '(Err, Comment) :=
        Printf.StringCchPrintfA MAX_PACKET_SIZE metadata_comment_format
          [ Printf.VaWord (uReceiveFlags Metadata);
            Printf.VaStr PhyTypeName;
            Printf.VaWord (uChCenterFrequency Metadata);
            Printf.VaWord (usNumberOfMPDUsReceived Metadata);
            Printf.VaWord (lRSSI Metadata);
            Printf.VaWord (ucDataRate Metadata);
            Printf.VaWord ProcessId ] in
      let '(st1, commentlength, Comment1) :=
        if Printf.FAILED Err
        then (printf (MsgMetadataToStringFailed (Word.u32 Err)) st, 0, Comment)
        else
          let '(Err2, len) := Printf.StringCchLengthA Comment MAX_PACKET_SIZE in
          if Printf.FAILED Err2
          then (printf (MsgMetadataLengthFailed (Word.u32 Err2)) st, 0,
                EmptyString)
          else (st, len, Comment) in
      Returns
        (pcapng
           (PcapNgWriteEnhancedPacket
              FragBuf
              (Word.u64 (sizeof_DOT11_EXTSTA_RECV_CONTEXT + FragLength))
              InterfaceId IsSend TimeStampHigh TimeStampLow
              (if 0 <? commentlength then Some Comment1 else None)
              (Word.u16 commentlength))
           st1)
  end.

(** ** [EventCallback] *)

(** The media type an event's keywords announce (pass 1). *)
Definition media_type (Keyword : Z) : LINKTYPE :=
  if has_keyword Keyword KW_MEDIA_NATIVE_802_11 then PCAPNG_LINKTYPE_IEEE802_11
  else if has_keyword Keyword KW_MEDIA_WIRELESS_WAN then PCAPNG_LINKTYPE_RAW
  else PCAPNG_LINKTYPE_ETHERNET.

(** The body of [if (!Pass2) { ... return; }]. *)
Definition EventCallback_pass1 (ev : EVENT_RECORD) (LowerIfIndex : Z)
    (Iface : option IFACE_PTR) (st : State) : Outcome :=
  let Type0 := media_type (Keyword ev) in
  match Iface with
  | None =>
      match prop_MiniportIfIndex ev with
      | TdhError Err =>
          Returns (printf (MsgTdhGetPropertyFailed "MiniportIfIndex" Err) st)
      | TdhData MiniportIfIndex =>
          Returns (AddInterface LowerIfIndex MiniportIfIndex Type0 st)
      end
  | Some p =>
      if negb (LINKTYPE_eqb (Type' (load (InterfaceHashTable st) p)) Type0)
      then Returns (printf MsgInconsistentMediaType st)
      else Returns st
  end.

(** The body of [if (Id == tidPacketMetadata) { ... return; }]. *)
Definition EventCallback_metadata (ev : EVENT_RECORD) (st : State)
  : Outcome :=
  match prop_MetadataSize ev with
  | TdhError Err =>
      Returns (printf (MsgTdhGetPropertyFailed "MetadataSize" Err) st)
  | TdhData MetadataLength =>
      if negb (MetadataLength =? sizeof_DOT11_EXTSTA_RECV_CONTEXT)
      then Returns (printf (MsgUnknownMetadataLength
                              sizeof_DOT11_EXTSTA_RECV_CONTEXT MetadataLength)
                           st)
      else
        match prop_Metadata ev with
        | TdhError Err =>
            Returns (printf (MsgTdhGetPropertyFailed "Metadata" Err) st)
        | TdhData m =>
            Returns (set_AddMetadata true (set_PacketMetadata m st))
        end
  end.

(** Copy of [data] into [buf] from byte [off] on. *)
Definition write_at (buf : list Z) (off : Z) (data : list Z) : list Z :=
  take (Z.to_nat off) buf ++ data
  ++ drop (Z.to_nat off + length data) buf.

(** [if (AuxFragBuf[1] & 0x40) AuxFragBuf[1] = AuxFragBuf[1] & 0xBF;] *)
Definition clear_protected_flag (buf : list Z) : list Z :=
  match buf !! 1%nat with
  | Some b =>
      if negb (Z.land b 0x40 =? 0)
      then <[1%nat := Z.land b 0xBF]> buf
      else buf
  | None => buf
  end.

(** [TimeStamp.QuadPart = (ev->EventHeader.TimeStamp.QuadPart / 10)
                          - 11644473600000000ll;] *)
Definition TimeStamp_QuadPart (ev : EVENT_RECORD) : Z :=
  Word.u64 (Word.s64 (Z.quot (TimeStamp ev) 10 - 11644473600000000)).

Definition HighPart (QuadPart : Z) : Z := Z.shiftr QuadPart 32.
Definition LowPart (QuadPart : Z) : Z := Z.land QuadPart (2 ^ 32 - 1).

(** The body of [if (Keyword & KW_PACKET_END) { ... }], entered with the
    fragment already copied into [AuxFragBuf]. *)
Definition EventCallback_packet_end (ev : EVENT_RECORD) (Iface : IFACE_PTR)
    (FragLength : Z) (st : State) : Outcome :=
  let TimeStamp := TimeStamp_QuadPart ev in
  let st1 :=
    if has_keyword (Keyword ev) KW_MEDIA_NATIVE_802_11
    then set_AuxFragBuf (clear_protected_flag (AuxFragBuf st)) st
    else st in
  let IsSend := if has_keyword (Keyword ev) KW_SEND then 1 else 0 in
  let I := load (InterfaceHashTable st1) Iface in
  match PcapNgIfIndex I with
  | None => Undefined (IndeterminatePcapNgIfIndex (LowerIfIndex I)) st1
  | Some IfIndex =>
      let emitted :=
        if AddMetadata st1 then
          CombineMetadataWithPacket
            (AuxFragBuf st1)
            (Word.u32 (AuxFragBufOffset st1 + FragLength))
            (Word.s32 IfIndex) IsSend
            (Word.s32 (HighPart TimeStamp)) (Word.s32 (LowPart TimeStamp))
            (PacketMetadata st1) (ProcessId ev) st1
        else
          let '(Err, Comment) :=
            Printf.StringCchPrintfA COMMENT_MAX_SIZE "PID=%d"
              [Printf.VaWord (ProcessId ev)] in
          let CommentLength :=
            if Printf.SUCCEEDED Err then
              let '(Err2, len) :=
                Printf.StringCchLengthA Comment COMMENT_MAX_SIZE in
              if Printf.FAILED Err2 then 0 else len
            else 0 in
          Returns
            (pcapng
               (PcapNgWriteEnhancedPacket
                  (AuxFragBuf st1)
                  (Word.u32 (AuxFragBufOffset st1 + FragLength))
                  IfIndex IsSend
                  (HighPart TimeStamp) (LowPart TimeStamp)
                  (if 0 <? CommentLength then Some Comment else None)
                  (Word.u16 CommentLength))
               st1) in
      match emitted with
      | Returns st2 =>
          Returns
            (set_NumFramesConverted (Word.u64 (NumFramesConverted st2 + 1))
               (set_AuxFragBufOffset 0
                  (set_PacketMetadata zero_metadata
                     (set_AddMetadata false st2))))
      | stopped => stopped
      end
  end.

(** The part of [EventCallback] that handles a fragment event in pass 2. *)
Definition EventCallback_fragment (ev : EVENT_RECORD) (Iface : IFACE_PTR)
    (st : State) : Outcome :=
  match prop_FragmentSize ev with
  | TdhError Err =>
      Returns (printf (MsgTdhGetPropertyFailed "FragmentSize" Err) st)
  | TdhData FragLength =>
      if Word.u64 (MAX_PACKET_SIZE - AuxFragBufOffset st) <? FragLength
      then Returns (printf (MsgPacketTooLarge
                              (Word.u32 (AuxFragBufOffset st + FragLength)))
                           st)
      else
        match TdhGetProperty_bytes (prop_Fragment ev) FragLength with
        | TdhError Err =>
            Returns (printf (MsgTdhGetPropertyFailed "Fragment" Err) st)
        | TdhData bytes =>
            let st1 :=
              set_AuxFragBuf
                (write_at (AuxFragBuf st) (AuxFragBufOffset st) bytes) st in
            if has_keyword (Keyword ev) KW_PACKET_END
            then EventCallback_packet_end ev Iface FragLength st1
            else Returns (set_AuxFragBufOffset
                            (Word.u32 (AuxFragBufOffset st1 + FragLength))
                            st1)
        end
  end.

Definition EventCallback (ev : EVENT_RECORD) (st : State) : Outcome :=
  if negb (IsEqualGUID (ProviderId ev) NdisCapId)
     || (negb (Id ev =? tidPacketFragment)
         && negb (Id ev =? tidPacketMetadata)
         && negb (Id ev =? tidVMSwitchPacketFragment))
  then Returns st
  else
    match prop_LowerIfIndex ev with
    | TdhError Err =>
        Returns (printf (MsgTdhGetPropertyFailed "LowerIfIndex" Err) st)
    | TdhData LowerIfIndex =>
        let Iface := GetInterface (InterfaceHashTable st) LowerIfIndex in
        if negb (Pass2 st) then EventCallback_pass1 ev LowerIfIndex Iface st
        else
          match Iface with
          | None => Exits 1 (printf MsgUnrecognizedIfIndex st)
          | Some Iface =>
              if Id ev =? tidPacketMetadata
              then EventCallback_metadata ev st
              else if Id ev =? tidPacketMetadata
              then EventCallback_metadata ev st
              else EventCallback_fragment ev Iface st
          end
    end.

(** [ProcessTrace]: the callback runs on every event of the trace, in
    order, until the process terminates. *)
Fixpoint ProcessTrace (evs : list EVENT_RECORD) (st : State) : Outcome :=
  match evs with
  | [] => Returns st
  | ev :: evs' =>
      match EventCallback ev st with
      | Returns st' => ProcessTrace evs' st'
      | stopped => stopped
      end
  end.

(** The two passes of [wmain] over the same trace, with
    [WriteInterfaces] between them. *)
Definition convert (qsort : QSORT) (evs : list EVENT_RECORD) : Outcome :=
  match ProcessTrace evs initial_state with
  | Returns st1 =>
      ProcessTrace evs (set_Pass2 true (WriteInterfaces qsort st1))
  | stopped => stopped
  end.

(** ** [malloc]

    [AddInterface] and [WriteInterfaces] each call [malloc] once, and end
    the process with [exit (1)] when it answers [NULL].  What [malloc]
    answers is a parameter of the functions below: [true] for a block,
    [false] for [NULL]. *)

Definition AddInterface_malloc (NewIface : bool) (L M : Z) (T : LINKTYPE)
    (st : State) : Outcome :=
  if negb NewIface then Exits 1 (printf MsgOutOfMemory st)
  else Returns (AddInterface L M T st).

Definition WriteInterfaces_malloc (InterfaceArray : bool) (qsort : QSORT)
    (st : State) : Outcome :=
  if negb InterfaceArray then Exits 1 (printf MsgOutOfMemory st)
  else Returns (WriteInterfaces qsort st).

(** The body of [if (!Pass2) { ... return; }], and [EventCallback], with
    the answer [NewIface] of the [malloc] in [AddInterface]; a call of
    the callback reaches [AddInterface] at most once. *)
Definition EventCallback_pass1_malloc (NewIface : bool) (ev : EVENT_RECORD)
    (LowerIfIndex : Z) (Iface : option IFACE_PTR) (st : State) : Outcome :=
  let Type0 := media_type (Keyword ev) in
  match Iface with
  | None =>
      match prop_MiniportIfIndex ev with
      | TdhError Err =>
          Returns (printf (MsgTdhGetPropertyFailed "MiniportIfIndex" Err) st)
      | TdhData MiniportIfIndex =>
          AddInterface_malloc NewIface LowerIfIndex MiniportIfIndex Type0 st
      end
  | Some p =>
      if negb (LINKTYPE_eqb (Type' (load (InterfaceHashTable st) p)) Type0)
      then Returns (printf MsgInconsistentMediaType st)
      else Returns st
  end.

Definition EventCallback_malloc (NewIface : bool) (ev : EVENT_RECORD)
    (st : State) : Outcome :=
  if negb (IsEqualGUID (ProviderId ev) NdisCapId)
     || (negb (Id ev =? tidPacketFragment)
         && negb (Id ev =? tidPacketMetadata)
         && negb (Id ev =? tidVMSwitchPacketFragment))
  then Returns st
  else
    match prop_LowerIfIndex ev with
    | TdhError Err =>
        Returns (printf (MsgTdhGetPropertyFailed "LowerIfIndex" Err) st)
    | TdhData LowerIfIndex =>
        let Iface := GetInterface (InterfaceHashTable st) LowerIfIndex in
        if negb (Pass2 st)
        then EventCallback_pass1_malloc NewIface ev LowerIfIndex Iface st
        else
          match Iface with
          | None => Exits 1 (printf MsgUnrecognizedIfIndex st)
          | Some Iface =>
              if Id ev =? tidPacketMetadata
              then EventCallback_metadata ev st
              else if Id ev =? tidPacketMetadata
              then EventCallback_metadata ev st
              else EventCallback_fragment ev Iface st
          end
    end.

(** [ProcessTrace] with the answers of [malloc]: [malloc k] is what
    [malloc] answers if it is called during the callback for the event
    number [k] (counted from the first event the program is given, through
    both passes); [k] is the number of the first event of [evs]. *)
Fixpoint ProcessTrace_malloc (malloc : nat -> bool) (k : nat)
    (evs : list EVENT_RECORD) (st : State) : Outcome :=
  match evs with
  | [] => Returns st
  | ev :: evs' =>
      match EventCallback_malloc (malloc k) ev st with
      | Returns st' => ProcessTrace_malloc malloc (S k) evs' st'
      | stopped => stopped
      end
  end.

(** The two passes of [wmain] over the same trace, with [WriteInterfaces]
    between them, and the answers of [malloc]. *)
Definition convert_malloc (malloc : nat -> bool) (InterfaceArray : bool)
    (qsort : QSORT) (evs : list EVENT_RECORD) : Outcome :=
  match ProcessTrace_malloc malloc 0 evs initial_state with
  | Returns st1 =>
      match WriteInterfaces_malloc InterfaceArray qsort st1 with
      | Returns st2 =>
          ProcessTrace_malloc malloc (length evs) evs (set_Pass2 true st2)
      | stopped => stopped
      end
  | stopped => stopped
  end.

(** ** [wmain]

    What the operating system and the pcapng writer answer to the calls
    [wmain] makes is a parameter of the model. *)

Definition ERROR_SHARING_VIOLATION : Z := 32.
Definition ERROR_INVALID_PARAMETER : Z := 87.

Record WIN32 : Type := {
  (** [CreateFile]: [None] for a handle, [Some Err] for
      [INVALID_HANDLE_VALUE] with [GetLastError () = Err]. *)
  CreateFile_LastError : option Z;
  (** The value [PcapNgWriteSectionHeader] returns. *)
  PcapNgWriteSectionHeader_Err : Z;
  (** [OpenTrace]: [None] for a handle, [Some Err] for
      [INVALID_PROCESSTRACE_HANDLE] with [GetLastError () = Err]. *)
  OpenTrace_LastError : option Z;
  (** The events each of the two calls of [ProcessTrace] delivers to the
      callback, and the value the call returns. *)
  Pass1_Events : list EVENT_RECORD;
  Pass1_Err : Z;
  Pass2_Events : list EVENT_RECORD;
  Pass2_Err : Z;
  (** [malloc]: what it answers if [AddInterface] calls it during the
      callback for the event number [k] ([true] for a block), and what it
      answers to [WriteInterfaces]. *)
  malloc_NewIface : nat -> bool;
  malloc_InterfaceArray : bool
}.

(** The lines [wmain] itself prints. *)
Inductive WMAIN_LINE : Type :=
| MsgVersion
| MsgUsage
| MsgCreateFileFailed (OutFileName : string) (Err : Z)
| MsgFileOpenAlready
| MsgOpenTraceFailed (Err : Z)
| MsgProcessTraceFailed (Err : Z)
| MsgConvertedFrames (NumFramesConverted : Z).

(** How the process ends: [wmain] returns, the callback calls [exit], or
    the callback performs an undefined access. *)
Inductive WMAIN_END : Type :=
| MainReturns (Err : Z)
| ProcessExits (code : Z)
| MainUndefined (why : UNDEFINED).

(** A run of [wmain]: how it ends, the lines [wmain] printed, the
    variables of the program at the end (with the blocks handed to the
    writer after the section header, and the lines of the callback and of
    [WriteInterfaces]), and whether [CloseHandle] was called on the
    output file. *)
Record WMAIN_RUN : Type := {
  Ending : WMAIN_END;
  Lines : list WMAIN_LINE;
  Globals : State;
  HandleClosed : bool
}.

(** The label [Done] reached with the output file open or not. *)
Definition Done (Err : Z) (lines : list WMAIN_LINE) (st : State)
    (opened : bool) : WMAIN_RUN :=
  {| Ending := MainReturns Err; Lines := lines; Globals := st;
     HandleClosed := opened |}.

(** The process stopped by [exit] or by an undefined access, inside the
    callback or inside [WriteInterfaces]. *)
Definition process_stopped (o : Outcome) : WMAIN_RUN :=
  match o with
  | Returns st =>
      {| Ending := MainReturns NO_ERROR; Lines := []; Globals := st;
         HandleClosed := false |}
  | Exits code st =>
      {| Ending := ProcessExits code; Lines := []; Globals := st;
         HandleClosed := false |}
  | Undefined why st =>
      {| Ending := MainUndefined why; Lines := []; Globals := st;
         HandleClosed := false |}
  end.

Definition is_version_flag (a : string) : bool :=
  String.eqb a "-v" || String.eqb a "--version".

Definition wmain (qsort : QSORT) (argv : list string) (os : WIN32)
  : WMAIN_RUN :=
  let argc := Z.of_nat (length argv) in
  if (argc =? 2)
     && match argv !! 1%nat with
        | Some a => is_version_flag a
        | None => false
        end
  then {| Ending := MainReturns 0; Lines := [MsgVersion];
          Globals := initial_state; HandleClosed := false |}
  else if negb (argc =? 3)
  then {| Ending := MainReturns ERROR_INVALID_PARAMETER; Lines := [MsgUsage];
          Globals := initial_state; HandleClosed := false |}
  else
    let OutFileName := default EmptyString (argv !! 2%nat) in
    match CreateFile_LastError os with
    | Some LastError =>
        let Err := Word.s32 LastError in
        Done Err
          (MsgCreateFileFailed OutFileName (Word.u32 Err)
           :: if Err =? ERROR_SHARING_VIOLATION
              then [MsgFileOpenAlready] else [])
          initial_state false
    | None =>
        let Err := PcapNgWriteSectionHeader_Err os in
        if negb (Err =? NO_ERROR) then Done Err [] initial_state true
        else
          match OpenTrace_LastError os with
          | Some LastError =>
              let Err := Word.s32 LastError in
              Done Err [MsgOpenTraceFailed (Word.u32 Err)] initial_state true
          | None =>
              match ProcessTrace_malloc (malloc_NewIface os) 0
                      (Pass1_Events os) initial_state with
              | Returns st1 =>
                  let Err := Word.s32 (Pass1_Err os) in
                  if negb (Err =? NO_ERROR)
                  then Done Err [MsgProcessTraceFailed (Word.u32 Err)]
                            st1 true
                  else
                    match WriteInterfaces_malloc (malloc_InterfaceArray os)
                            qsort st1 with
                    | Returns st1' =>
                        let st2 := set_Pass2 true st1' in
                        match ProcessTrace_malloc (malloc_NewIface os)
                                (length (Pass1_Events os))
                                (Pass2_Events os) st2 with
                        | Returns st3 =>
                            let Err := Word.s32 (Pass2_Err os) in
                            if negb (Err =? NO_ERROR)
                            then Done Err
                                   [MsgProcessTraceFailed (Word.u32 Err)]
                                   st3 true
                            else Done Err
                                   [MsgConvertedFrames
                                      (NumFramesConverted st3)]
                                   st3 true
                        | stopped => process_stopped stopped
                        end
                    | stopped => process_stopped stopped
                    end
              | stopped => process_stopped stopped
              end
          end
    end.

(** ** A reference [qsort]

    Insertion sort driven by the comparison function: an element is placed
    before the first element of the sorted part it does not compare greater
    than.  It is one function that meets the contract of [qsort] below, and
    is used to run [WriteInterfaces] on examples. *)

Fixpoint insert_sorted (cmp : IFACE_PTR -> IFACE_PTR -> Z) (x : IFACE_PTR)
    (l : list IFACE_PTR) : list IFACE_PTR :=
  match l with
  | [] => [x]
  | y :: l' =>
      if cmp x y <=? 0 then x :: y :: l'
      else y :: insert_sorted cmp x l'
  end.

Definition insertion_qsort : QSORT :=
  fun cmp l => fold_right (insert_sorted cmp) [] l.

(** ** Specification vocabulary *)

(** The contract of the C library's [qsort], for an array of distinct
    elements and a comparison function that orders them consistently:
    the result holds the same elements, and no element compares greater
    than a later one. *)
Definition consistent_on (cmp : IFACE_PTR -> IFACE_PTR -> Z)
    (l : list IFACE_PTR) : Prop :=
  (forall x y, x ∈ l -> y ∈ l -> x <> y ->
     (cmp x y < 0 <-> 0 < cmp y x) /\ (cmp x y = 0 <-> cmp y x = 0))
  /\ (forall x y z, x ∈ l -> y ∈ l -> z ∈ l ->
        cmp x y <= 0 -> cmp y z <= 0 -> cmp x z <= 0).

Definition qsort_contract (qsort : QSORT) : Prop :=
  forall cmp l, NoDup l -> consistent_on cmp l ->
    qsort cmp l ≡ₚ l /\
    StronglySorted (fun A B => cmp A B <= 0) (qsort cmp l).

(** The registry as pass 1 leaves it: [IFACE_HT_SIZE] chains, every record
    in the chain its [LowerIfIndex] hashes to, no [LowerIfIndex] twice, and
    [NumInterfaces] the number of records. *)
Definition registered (st : State) : list INTERFACE :=
  mjoin (InterfaceHashTable st).

Record registry_wf (st : State) : Prop := {
  wf_buckets : length (InterfaceHashTable st) = Z.to_nat IFACE_HT_SIZE;
  wf_hash : forall b I, I ∈ chain_at (InterfaceHashTable st) b ->
                        bucket_of (LowerIfIndex I) = b;
  wf_unique : NoDup (LowerIfIndex <$> registered st);
  wf_count : NumInterfaces st = Z.of_nat (length (registered st))
}.

(** The canonical order in the words of the specification: ascending
    [MiniportIfIndex]; within one [MiniportIfIndex], the record whose
    [LowerIfIndex] equals it comes before all others, and the others are
    in ascending [LowerIfIndex] order. *)
Definition canonical_order (order : list INTERFACE) : Prop :=
  forall i j A B, (i < j)%nat -> order !! i = Some A -> order !! j = Some B ->
    MiniportIfIndex A <= MiniportIfIndex B /\
    (MiniportIfIndex A = MiniportIfIndex B ->
       LowerIfIndex B <> MiniportIfIndex B /\
       (LowerIfIndex A <> MiniportIfIndex A ->
          LowerIfIndex A < LowerIfIndex B)).

(** The record [I] once [WriteInterfaces] has numbered it. *)
Definition numbered (i : nat) (I : INTERFACE) : INTERFACE :=
  {| LowerIfIndex := LowerIfIndex I;
     MiniportIfIndex := MiniportIfIndex I;
     PcapNgIfIndex := Some (Z.of_nat i);
     Type' := Type' I |}.

(** The interfaces in the order of [InterfaceArray] after [qsort]. *)
Definition finalized_order (qsort : QSORT) (st : State) : list INTERFACE :=
  load (InterfaceHashTable st) <$> SortedInterfaceArray qsort st.

(** Two tables whose chains carry the same [LowerIfIndex] values. *)
Definition same_lowers (ht ht' : list (list INTERFACE)) : Prop :=
  forall b, LowerIfIndex <$> chain_at ht' b = LowerIfIndex <$> chain_at ht b.

(** What the numbering loop does for the record [I] at position [i]: the
    writer call and the printed line. *)
Definition interface_desc (I : INTERFACE) : PCAPNG_CALL :=
  PcapNgWriteInterfaceDesc (Type' I) MAX_PACKET_SIZE.

Definition interface_line (i : nat) (I : INTERFACE) : PRINTF_LINE :=
  MsgInterface (Type' I) (Z.of_nat i) (LowerIfIndex I)
    (if LowerIfIndex I =? MiniportIfIndex I then None
     else Some (MiniportIfIndex I)).

(** The state after the first [k] iterations of the numbering loop over
    the array [arr]. *)
Record numbered_upto (arr : list IFACE_PTR) (st : State) (k : nat)
    (st' : State) : Prop := {
  nu_done : forall i p, (i < k)%nat -> arr !! i = Some p ->
    deref (InterfaceHashTable st') p
    = numbered i <$> deref (InterfaceHashTable st) p;
  nu_rest : forall q, q ∉ take k arr ->
    deref (InterfaceHashTable st') q = deref (InterfaceHashTable st) q;
  nu_lowers : same_lowers (InterfaceHashTable st) (InterfaceHashTable st');
  nu_length : length (InterfaceHashTable st')
              = length (InterfaceHashTable st);
  nu_OutFile : OutFile st' = OutFile st ++
    (interface_desc <$> take k (load (InterfaceHashTable st) <$> arr));
  nu_Console : Console st' = Console st ++
    imap interface_line (take k (load (InterfaceHashTable st) <$> arr));
  nu_frame : NumFramesConverted st' = NumFramesConverted st /\
             Pass2 st' = Pass2 st /\ AuxFragBuf st' = AuxFragBuf st /\
             AuxFragBufOffset st' = AuxFragBufOffset st /\
             PacketMetadata st' = PacketMetadata st /\
             AddMetadata st' = AddMetadata st /\
             NumInterfaces st' = NumInterfaces st
}.

(** What pass 1 maintains: a well-formed registry of at most [k] records,
    and [Pass2] unset. *)
Definition pass1_inv (k : nat) (st : State) : Prop :=
  registry_wf st /\ Pass2 st = false /\ (length (registered st) <= k)%nat.

(** ** Example traces *)

(** A fragment event of the capture provider, with all its properties
    readable. *)
Definition fragment_event (L M Keyword Ticks Pid : Z) (bytes : list Z)
  : EVENT_RECORD :=
  {| ProviderId := NdisCapId; Id := tidPacketFragment;
     Keyword := Keyword; TimeStamp := Ticks; ProcessId := Pid;
     prop_LowerIfIndex := TdhData L;
     prop_MiniportIfIndex := TdhData M;
     prop_MetadataSize := TdhError 1168;
     prop_Metadata := TdhError 1168;
     prop_FragmentSize := TdhData (Z.of_nat (length bytes));
     prop_Fragment := TdhData bytes |}.

(** A metadata event of the capture provider carrying the record [m]. *)
Definition metadata_event (L M Keyword Ticks Pid : Z)
    (m : DOT11_EXTSTA_RECV_CONTEXT) : EVENT_RECORD :=
  {| ProviderId := NdisCapId; Id := tidPacketMetadata;
     Keyword := Keyword; TimeStamp := Ticks; ProcessId := Pid;
     prop_LowerIfIndex := TdhData L;
     prop_MiniportIfIndex := TdhData M;
     prop_MetadataSize := TdhData sizeof_DOT11_EXTSTA_RECV_CONTEXT;
     prop_Metadata := TdhData m;
     prop_FragmentSize := TdhError 1168;
     prop_Fragment := TdhError 1168 |}.

(** The scenario of the specification: a filter interface 7 over miniport
    5, the miniport 5 itself, and the miniport 3, first seen in that
    order. *)
Definition scenario_events : list EVENT_RECORD :=
  [ fragment_event 7 5 (Z.lor KW_PACKET_START KW_PACKET_END)
      116444736000000000 4 [1; 2; 3];
    fragment_event 5 5 (Z.lor KW_PACKET_START KW_PACKET_END)
      116444736000000010 4 [4; 5];
    fragment_event 3 3 (Z.lor KW_PACKET_START KW_PACKET_END)
      116444736000000020 4 [6] ].

Definition scenario_registry : State :=
  AddInterface 3 3 PCAPNG_LINKTYPE_ETHERNET
    (AddInterface 5 5 PCAPNG_LINKTYPE_ETHERNET
       (AddInterface 7 5 PCAPNG_LINKTYPE_ETHERNET initial_state)).

(** The state in which pass 2 starts on the scenario. *)
Definition scenario_pass2 : State :=
  set_Pass2 true (WriteInterfaces insertion_qsort scenario_registry).

(** [LowerIfIndex] and [MiniportIfIndex] of a record. *)
Definition indices (I : INTERFACE) : Z * Z :=
  (LowerIfIndex I, MiniportIfIndex I).

(** ** The comments attached to packets *)

(** The comment of a packet that has no metadata: the process id printed
    with [%d]. *)
Definition pid_comment (Pid : Z) : string :=
  ("PID=" ++ Printf.fmt_d Pid)%string.

(** The comment of a packet with the metadata record [m], whose phy type
    has the name [name]. *)
Definition metadata_comment (m : DOT11_EXTSTA_RECV_CONTEXT) (name : string)
    (Pid : Z) : string :=
  ("Packet Metadata: ReceiveFlags:0x" ++ Printf.fmt_x (uReceiveFlags m)
   ++ ", PhyType:" ++ name
   ++ ", CenterCh:" ++ Printf.fmt_u (uChCenterFrequency m)
   ++ ", NumMPDUsReceived:" ++ Printf.fmt_u (usNumberOfMPDUsReceived m)
   ++ ", RSSI:" ++ Printf.fmt_d (lRSSI m)
   ++ ", DataRate:" ++ Printf.fmt_u (ucDataRate m)
   ++ ", PID=" ++ Printf.fmt_d Pid)%string.

(** ** Packets handed to the writer *)

(** The arguments of a [PcapNgWriteEnhancedPacket] call. *)
Definition packet_FragBuf (c : PCAPNG_CALL) : list Z :=
  match c with
  | PcapNgWriteEnhancedPacket FragBuf _ _ _ _ _ _ _ => FragBuf
  | _ => []
  end.

Definition packet_FragLength (c : PCAPNG_CALL) : Z :=
  match c with
  | PcapNgWriteEnhancedPacket _ FragLength _ _ _ _ _ _ => FragLength
  | _ => 0
  end.

Definition packet_InterfaceId (c : PCAPNG_CALL) : Z :=
  match c with
  | PcapNgWriteEnhancedPacket _ _ InterfaceId _ _ _ _ _ => InterfaceId
  | _ => 0
  end.

Definition packet_IsSend (c : PCAPNG_CALL) : Z :=
  match c with
  | PcapNgWriteEnhancedPacket _ _ _ IsSend _ _ _ _ => IsSend
  | _ => 0
  end.

Definition packet_TimeStampHigh (c : PCAPNG_CALL) : Z :=
  match c with
  | PcapNgWriteEnhancedPacket _ _ _ _ TimeStampHigh _ _ _ => TimeStampHigh
  | _ => 0
  end.

Definition packet_TimeStampLow (c : PCAPNG_CALL) : Z :=
  match c with
  | PcapNgWriteEnhancedPacket _ _ _ _ _ TimeStampLow _ _ => TimeStampLow
  | _ => 0
  end.

Definition packet_Comment (c : PCAPNG_CALL) : option string :=
  match c with
  | PcapNgWriteEnhancedPacket _ _ _ _ _ _ Comment _ => Comment
  | _ => None
  end.

Definition packet_CommentLength (c : PCAPNG_CALL) : Z :=
  match c with
  | PcapNgWriteEnhancedPacket _ _ _ _ _ _ _ CommentLength => CommentLength
  | _ => 0
  end.

(** The bytes the writer is told to take from the buffer: the first
    [FragLength] bytes at [FragBuf]. *)
Definition packet_payload (c : PCAPNG_CALL) : list Z :=
  take (Z.to_nat (packet_FragLength c)) (packet_FragBuf c).

(** The buffer handed to the writer at the end of a frame, [st1] being the
    state with the last fragment copied in. *)
Definition frame_buffer (ev : EVENT_RECORD) (st1 : State) : list Z :=
  if has_keyword (Keyword ev) KW_MEDIA_NATIVE_802_11
  then clear_protected_flag (AuxFragBuf st1)
  else AuxFragBuf st1.

Definition IsSend_of (ev : EVENT_RECORD) : Z :=
  if has_keyword (Keyword ev) KW_SEND then 1 else 0.

(** The call made for a frame with no pending metadata, and the call made
    for a frame with the pending metadata [PacketMetadata st1], whose phy
    type has the name [name]. *)
Definition plain_packet (ev : EVENT_RECORD) (st1 : State) (n IfIndex : Z)
  : PCAPNG_CALL :=
  PcapNgWriteEnhancedPacket
    (frame_buffer ev st1) (Word.u32 (AuxFragBufOffset st1 + n))
    IfIndex (IsSend_of ev)
    (HighPart (TimeStamp_QuadPart ev)) (LowPart (TimeStamp_QuadPart ev))
    (Some (pid_comment (ProcessId ev)))
    (Word.u16 (Printf.strlen (pid_comment (ProcessId ev)))).

Definition metadata_packet (ev : EVENT_RECORD) (st1 : State) (n IfIndex : Z)
    (name : string) : PCAPNG_CALL :=
  PcapNgWriteEnhancedPacket
    (frame_buffer ev st1)
    (Word.u64 (sizeof_DOT11_EXTSTA_RECV_CONTEXT
               + Word.u32 (AuxFragBufOffset st1 + n)))
    (Word.s32 IfIndex) (IsSend_of ev)
    (Word.s32 (HighPart (TimeStamp_QuadPart ev)))
    (Word.s32 (LowPart (TimeStamp_QuadPart ev)))
    (Some (metadata_comment (PacketMetadata st1) name (ProcessId ev)))
    (Word.u16 (Printf.strlen
                 (metadata_comment (PacketMetadata st1) name (ProcessId ev)))).

(** The state after a frame has been handed to the writer with [call]:
    metadata slot and fragment buffer empty, one more frame counted. *)
Definition after_packet (call : PCAPNG_CALL) (ev : EVENT_RECORD)
    (st1 : State) : State :=
  set_NumFramesConverted (Word.u64 (NumFramesConverted st1 + 1))
    (set_AuxFragBufOffset 0
       (set_PacketMetadata zero_metadata
          (set_AddMetadata false
             (pcapng call
                (set_AuxFragBuf (frame_buffer ev st1) st1))))).

(** The state with the fragment [bytes] copied behind the pending ones. *)
Definition with_fragment (bytes : list Z) (st : State) : State :=
  set_AuxFragBuf (write_at (AuxFragBuf st) (AuxFragBufOffset st) bytes) st.

(** The pending metadata record, if any. *)
Definition pending_metadata (st : State) : option DOT11_EXTSTA_RECV_CONTEXT :=
  if AddMetadata st then Some (PacketMetadata st) else None.

(** ** Events of pass 2 *)

(** [ev] comes from the capture provider and names an interface that pass 1
    registered, at [p]. *)
Record relevant_event (st : State) (ev : EVENT_RECORD) (L : Z)
    (p : IFACE_PTR) : Prop := {
  re_pass2 : Pass2 st = true;
  re_provider : ProviderId ev = NdisCapId;
  re_lower : prop_LowerIfIndex ev = TdhData L;
  re_iface : GetInterface (InterfaceHashTable st) L = Some p
}.

(** [ev] is a fragment event that carries [bytes]. *)
Record fragment_of (ev : EVENT_RECORD) (bytes : list Z) : Prop := {
  fo_id : Id ev = tidPacketFragment \/ Id ev = tidVMSwitchPacketFragment;
  fo_size : prop_FragmentSize ev = TdhData (Z.of_nat (length bytes));
  fo_bytes : prop_Fragment ev = TdhData bytes
}.

(** [ev] is a metadata event of the expected size that carries [m]. *)
Record metadata_of (ev : EVENT_RECORD) (m : DOT11_EXTSTA_RECV_CONTEXT)
  : Prop := {
  mo_id : Id ev = tidPacketMetadata;
  mo_size : prop_MetadataSize ev = TdhData sizeof_DOT11_EXTSTA_RECV_CONTEXT;
  mo_data : prop_Metadata ev = TdhData m
}.

(** The fragment buffer has its [MAX_PACKET_SIZE] bytes and the fill
    offset lies inside it. *)
Record buffer_ok (st : State) : Prop := {
  bo_length : length (AuxFragBuf st) = Z.to_nat MAX_PACKET_SIZE;
  bo_offset : 0 <= AuxFragBufOffset st <= MAX_PACKET_SIZE
}.

(** The byte [b] after [if (b & 0x40) b = b & 0xBF]. *)
Definition cleared (b : Z) : Z :=
  if negb (Z.land b 0x40 =? 0) then Z.land b 0xBF else b.

(** ** Example events of pass 2, on the scenario *)

(** An 802.11 frame in one fragment, received on interface 5, 2.5 seconds
    after the start of 1970; its byte 1 has the protected flag set. *)
Definition wifi_frame : EVENT_RECORD :=
  fragment_event 5 5
    (Z.lor KW_MEDIA_NATIVE_802_11
       (Z.lor KW_PACKET_START (Z.lor KW_PACKET_END KW_RECEIVE)))
    116444736025000000 1234 [0x08; 0xC0; 0x01; 0x02].

(** An Ethernet frame with the same bytes, sent on interface 7. *)
Definition ethernet_frame : EVENT_RECORD :=
  fragment_event 7 5
    (Z.lor KW_PACKET_START (Z.lor KW_PACKET_END KW_SEND))
    116444736025000000 1234 [0x08; 0xC0; 0x01; 0x02].

Definition example_metadata (PhyId : Z) : DOT11_EXTSTA_RECV_CONTEXT :=
  {| Header := {| Type_ := 0x80; Revision := 1; Size := 48 |};
     uReceiveFlags := 0; uPhyId := PhyId; uChCenterFrequency := 5180;
     usNumberOfMPDUsReceived := 1; lRSSI := -60; ucDataRate := 0;
     uSizeMediaSpecificInfo := 0; pvMediaSpecificInfo := 0;
     ullTimestamp := 0 |}.

(** The scenario in pass 2 with a metadata record pending. *)
Definition scenario_pending (PhyId : Z) : State :=
  set_AddMetadata true
    (set_PacketMetadata (example_metadata PhyId) scenario_pass2).

(** [ev] is a fragment event of the capture provider on the interface
    [L] that carries [bytes]. *)
Record fragment_on (L : Z) (ev : EVENT_RECORD) (bytes : list Z) : Prop := {
  fon_provider : ProviderId ev = NdisCapId;
  fon_lower : prop_LowerIfIndex ev = TdhData L;
  fon_fragment : fragment_of ev bytes
}.

(** The fragment buffer holds [acc], the bytes of the fragments seen so
    far for the current frame, and the interface [L] is registered at [p]
    with the number [IfIndex]. *)
Record accumulating (L : Z) (p : IFACE_PTR) (IfIndex : Z) (acc : list Z)
    (st : State) : Prop := {
  ac_pass2 : Pass2 st = true;
  ac_iface : GetInterface (InterfaceHashTable st) L = Some p;
  ac_index : PcapNgIfIndex (load (InterfaceHashTable st) p) = Some IfIndex;
  ac_length : length (AuxFragBuf st) = Z.to_nat MAX_PACKET_SIZE;
  ac_offset : AuxFragBufOffset st = Z.of_nat (length acc);
  ac_bytes : take (length acc) (AuxFragBuf st) = acc
}.

(** A frame of interface 5 in two fragments, and a frame of interface 5 in
    one fragment, both Ethernet. *)
Definition first_fragment : EVENT_RECORD :=
  fragment_event 5 5 KW_PACKET_START 116444736025000000 1234 [0x08; 0x00].

Definition last_fragment : EVENT_RECORD :=
  fragment_event 5 5 (Z.lor KW_PACKET_END KW_SEND) 116444736025000000 1234
    [0x01; 0x02].

Definition small_frame : EVENT_RECORD :=
  fragment_event 5 5 (Z.lor KW_PACKET_START (Z.lor KW_PACKET_END KW_SEND))
    116444736030000000 1234 [0x08; 0xC0; 0x01; 0x02].

(** A first fragment of 65000 bytes, and a last fragment of 1000 bytes
    that no longer fits behind it. *)
Definition big_fragment : EVENT_RECORD :=
  fragment_event 5 5 KW_PACKET_START 116444736025000000 1234
    (replicate (Z.to_nat 65000) 0xAA).

Definition overflowing_fragment : EVENT_RECORD :=
  fragment_event 5 5 KW_PACKET_END 116444736025000000 1234
    (replicate (Z.to_nat 1000) 0xBB).

(** Metadata events on interface 5. *)
Definition metadata_frame (PhyId : Z) : EVENT_RECORD :=
  metadata_event 5 5 KW_MEDIA_NATIVE_802_11 116444736025000000 1234
    (example_metadata PhyId).

(** The events [EventCallback] looks at: those of the capture provider
    with one of the three event ids. *)
Definition is_capture_event (ev : EVENT_RECORD) : bool :=
  IsEqualGUID (ProviderId ev) NdisCapId
  && ((Id ev =? tidPacketFragment) || (Id ev =? tidPacketMetadata)
      || (Id ev =? tidVMSwitchPacketFragment)).

(** ** The callback as a step relation

    What a call of [EventCallback] that returns can have done to the
    state, one constructor per way through the function. *)
Inductive callback_step (ev : EVENT_RECORD) (st : State) : State -> Prop :=
| step_unchanged :
    (* an event of another provider or kind, or an interface seen before
       with the same media type *)
    callback_step ev st st
| step_printed (line : PRINTF_LINE) :
    (* a property that cannot be read, a metadata record of another size,
       a fragment that does not fit, a media type that differs *)
    callback_step ev st (printf line st)
| step_registered (L M : Z) :
    is_capture_event ev = true ->
    Pass2 st = false ->
    prop_LowerIfIndex ev = TdhData L ->
    prop_MiniportIfIndex ev = TdhData M ->
    GetInterface (InterfaceHashTable st) L = None ->
    callback_step ev st (AddInterface L M (media_type (Keyword ev)) st)
| step_metadata (m : DOT11_EXTSTA_RECV_CONTEXT) :
    is_capture_event ev = true ->
    Pass2 st = true ->
    metadata_of ev m ->
    callback_step ev st (set_AddMetadata true (set_PacketMetadata m st))
| step_fragment (n : Z) (bytes : list Z) :
    is_capture_event ev = true ->
    Id ev <> tidPacketMetadata ->
    Pass2 st = true ->
    prop_FragmentSize ev = TdhData n ->
    prop_Fragment ev = TdhData bytes ->
    Z.of_nat (length bytes) <= n ->
    n <= Word.u64 (MAX_PACKET_SIZE - AuxFragBufOffset st) ->
    has_keyword (Keyword ev) KW_PACKET_END = false ->
    callback_step ev st
      (set_AuxFragBufOffset (Word.u32 (AuxFragBufOffset st + n))
         (with_fragment bytes st))
| step_packet (L : Z) (p : IFACE_PTR) (IfIndex n : Z) (bytes : list Z)
    (call : PCAPNG_CALL) :
    is_capture_event ev = true ->
    Id ev <> tidPacketMetadata ->
    Pass2 st = true ->
    prop_LowerIfIndex ev = TdhData L ->
    GetInterface (InterfaceHashTable st) L = Some p ->
    PcapNgIfIndex (load (InterfaceHashTable st) p) = Some IfIndex ->
    prop_FragmentSize ev = TdhData n ->
    prop_Fragment ev = TdhData bytes ->
    Z.of_nat (length bytes) <= n ->
    n <= Word.u64 (MAX_PACKET_SIZE - AuxFragBufOffset st) ->
    has_keyword (Keyword ev) KW_PACKET_END = true ->
    match pending_metadata st with
    | None => call = plain_packet ev (with_fragment bytes st) n IfIndex
    | Some m =>
        exists name,
          DOT11_PHY_TYPE_NAMES !! Z.to_nat (uPhyId m) = Some name /\
          call = metadata_packet ev (with_fragment bytes st) n IfIndex name
    end ->
    callback_step ev st (after_packet call ev (with_fragment bytes st)).

(** A call of the writer that hands over a packet. *)
Definition is_packet (c : PCAPNG_CALL) : Prop :=
  match c with
  | PcapNgWriteEnhancedPacket _ _ _ _ _ _ _ _ => True
  | PcapNgWriteInterfaceDesc _ _ => False
  end.

(** The record registered for [L], if any. *)
Definition lookup_interface (st : State) (L : Z) : option INTERFACE :=
  GetInterface (InterfaceHashTable st) L ≫= deref (InterfaceHashTable st).

(** What pass 1 leaves alone: with [st] the state before and [st'] the
    state after, [Pass2] is still unset, nothing was handed to the writer,
    and the frame counter, the fragment buffer, the metadata slot and the
    number of chains are those of [st]. *)
Definition pass1_untouched (st st' : State) : Prop :=
  Pass2 st' = false /\ OutFile st' = OutFile st /\
  NumFramesConverted st' = NumFramesConverted st /\
  AuxFragBuf st' = AuxFragBuf st /\
  AuxFragBufOffset st' = AuxFragBufOffset st /\
  PacketMetadata st' = PacketMetadata st /\
  AddMetadata st' = AddMetadata st /\
  length (InterfaceHashTable st') = length (InterfaceHashTable st).

(** An event the conversion gets through: if it is one the callback looks
    at, its [MiniportIfIndex] can be read whenever its [LowerIfIndex] can,
    and the phy type of the metadata it carries, if any, has a name. *)
Definition convertible (ev : EVENT_RECORD) : Prop :=
  is_capture_event ev = true ->
  (forall L, prop_LowerIfIndex ev = TdhData L ->
             exists M, prop_MiniportIfIndex ev = TdhData M)
  /\ (forall m, prop_Metadata ev = TdhData m -> 0 <= uPhyId m <= 10).

(** The state of pass 2 on the trace [evs] when nothing can stop it: every
    interface an event of [evs] names has been registered and numbered,
    and the phy type in the metadata slot has a name. *)
Definition pass2_ready (evs : list EVENT_RECORD) (st : State) : Prop :=
  Pass2 st = true /\
  (forall ev L, ev ∈ evs -> is_capture_event ev = true ->
     prop_LowerIfIndex ev = TdhData L ->
     exists p i, GetInterface (InterfaceHashTable st) L = Some p /\
                 PcapNgIfIndex (load (InterfaceHashTable st) p) = Some i) /\
  0 <= uPhyId (PacketMetadata st) <= 10.

(** A capture event whose [LowerIfIndex] can be read and whose
    [MiniportIfIndex] cannot. *)
Definition orphan_event (L Err : Z) : EVENT_RECORD :=
  {| ProviderId := NdisCapId; Id := tidPacketFragment;
     Keyword := Z.lor KW_PACKET_START KW_PACKET_END;
     TimeStamp := 116444736000000000; ProcessId := 4;
     prop_LowerIfIndex := TdhData L;
     prop_MiniportIfIndex := TdhError Err;
     prop_MetadataSize := TdhError 1168;
     prop_Metadata := TdhError 1168;
     prop_FragmentSize := TdhData 1;
     prop_Fragment := TdhData [0] |}.

(** The record [I] is the one the event [ev] makes pass 1 add. *)
Definition registers (ev : EVENT_RECORD) (I : INTERFACE) : Prop :=
  is_capture_event ev = true /\
  prop_LowerIfIndex ev = TdhData (LowerIfIndex I) /\
  prop_MiniportIfIndex ev = TdhData (MiniportIfIndex I) /\
  Type' I = media_type (Keyword ev) /\ PcapNgIfIndex I = None.

(** A frame traced as a single event: a fragment event of the capture
    provider with the [KW_PACKET_END] keyword, whose two interface indices
    can be read and whose bytes fit the fragment buffer. *)
Definition single_event_frame (ev : EVENT_RECORD) : Prop :=
  exists L M bytes,
    fragment_on L ev bytes /\ prop_MiniportIfIndex ev = TdhData M /\
    has_keyword (Keyword ev) KW_PACKET_END = true /\
    Z.of_nat (length bytes) <= MAX_PACKET_SIZE.

(** The packet [call] carries the frame of the single-event frame [ev], on
    the interface at position [i] of [order]. *)
Definition packet_of_frame (order : list INTERFACE) (ev : EVENT_RECORD)
    (call : PCAPNG_CALL) : Prop :=
  exists L bytes i I,
    fragment_on L ev bytes /\ order !! i = Some I /\ LowerIfIndex I = L /\
    packet_InterfaceId call = Z.of_nat i /\
    packet_FragLength call = Z.of_nat (length bytes) /\
    packet_payload call
    = (if has_keyword (Keyword ev) KW_MEDIA_NATIVE_802_11
       then clear_protected_flag bytes else bytes) /\
    packet_IsSend call = IsSend_of ev /\
    packet_Comment call = Some (pid_comment (ProcessId ev)).

(** Pass 2 between two frames, after [WriteInterfaces] ran on [st1] with
    [qsort]: the table is the numbered one, the fragment buffer is empty
    and no metadata is pending. *)
Definition between_frames (qsort : QSORT) (st1 st : State) : Prop :=
  Pass2 st = true /\
  InterfaceHashTable st = InterfaceHashTable (WriteInterfaces qsort st1) /\
  buffer_ok st /\ AuxFragBufOffset st = 0 /\ AddMetadata st = false.

(** ** Further examples *)

(** A capture event none of whose properties can be read. *)
Definition unreadable_event : EVENT_RECORD :=
  {| ProviderId := NdisCapId; Id := tidPacketFragment;
     Keyword := Z.lor KW_PACKET_START KW_PACKET_END;
     TimeStamp := 116444736000000000; ProcessId := 4;
     prop_LowerIfIndex := TdhError 1168;
     prop_MiniportIfIndex := TdhError 1168;
     prop_MetadataSize := TdhError 1168;
     prop_Metadata := TdhError 1168;
     prop_FragmentSize := TdhError 1168;
     prop_Fragment := TdhError 1168 |}.

(** An interface, 9, whose first event carries the native 802.11 keyword
    and whose next event does not: the two events, the registry after
    pass 1 and the state in which pass 2 starts. *)
Definition tagged_frame : EVENT_RECORD :=
  fragment_event 9 9
    (Z.lor KW_MEDIA_NATIVE_802_11
       (Z.lor KW_PACKET_START (Z.lor KW_PACKET_END KW_RECEIVE)))
    116444736025000000 1234 [0x08; 0xC0; 0x01; 0x02].

Definition untagged_frame : EVENT_RECORD :=
  fragment_event 9 9
    (Z.lor KW_PACKET_START (Z.lor KW_PACKET_END KW_RECEIVE))
    116444736026000000 1234 [0x08; 0xC0; 0x01; 0x02].

Definition wifi_registry : State :=
  AddInterface 9 9 PCAPNG_LINKTYPE_IEEE802_11 initial_state.

Definition wifi_pass2 : State :=
  set_Pass2 true (WriteInterfaces insertion_qsort wifi_registry).

(** A system on which every call succeeds and both passes deliver the
    trace [evs]. *)
Definition obliging_system (evs : list EVENT_RECORD) : WIN32 :=
  {| CreateFile_LastError := None;
     PcapNgWriteSectionHeader_Err := NO_ERROR;
     OpenTrace_LastError := None;
     Pass1_Events := evs; Pass1_Err := NO_ERROR;
     Pass2_Events := evs; Pass2_Err := NO_ERROR;
     malloc_NewIface := fun _ => true;
     malloc_InterfaceArray := true |}.

(* ================================================================== *)
(** * Properties *)

(** ** The comparison function *)

Section InterfaceCompareFn_facts.

Implicit Types A B C : INTERFACE.

Ltac cmp_cases :=
  unfold InterfaceCompareFn; cbv zeta;
  repeat match goal with
         | |- context [?x =? ?y] => destruct (Z.eqb_spec x y)
         | |- context [?x <? ?y] => destruct (Z.ltb_spec x y)
         | H : context [?x =? ?y] |- _ => destruct (Z.eqb_spec x y)
         | H : context [?x <? ?y] |- _ => destruct (Z.ltb_spec x y)
         end.

Lemma InterfaceCompareFn_values A B :
  InterfaceCompareFn A B = -1 \/ InterfaceCompareFn A B = 0 \/
  InterfaceCompareFn A B = 1.
Proof. cmp_cases; lia. Qed.

(** When [A] does not compare greater than [B]. *)
Lemma InterfaceCompareFn_le A B :
  InterfaceCompareFn A B <= 0 <->
  MiniportIfIndex A < MiniportIfIndex B \/
  (MiniportIfIndex A = MiniportIfIndex B /\
   (LowerIfIndex A = MiniportIfIndex A \/
    (LowerIfIndex B <> MiniportIfIndex B /\
     LowerIfIndex A <= LowerIfIndex B))).
Proof. cmp_cases; lia. Qed.

Lemma InterfaceCompareFn_antisym A B :
  LowerIfIndex A <> LowerIfIndex B ->
  InterfaceCompareFn A B <> 0 /\
  (InterfaceCompareFn A B < 0 <-> 0 < InterfaceCompareFn B A).
Proof. intros Hne. cmp_cases; lia. Qed.

Lemma InterfaceCompareFn_trans A B C :
  InterfaceCompareFn A B <= 0 -> InterfaceCompareFn B C <= 0 ->
  InterfaceCompareFn A C <= 0.
Proof. rewrite !InterfaceCompareFn_le. lia. Qed.

(** The miniport's own record compares less than itself: the function
    is not reflexive. *)
Lemma InterfaceCompareFn_miniport_self A :
  LowerIfIndex A = MiniportIfIndex A -> InterfaceCompareFn A A = -1.
Proof. intros Heq. cmp_cases; lia. Qed.

End InterfaceCompareFn_facts.

(** ** The reference sort meets the contract of [qsort] *)

Section insertion_qsort_facts.

Variable cmp : IFACE_PTR -> IFACE_PTR -> Z.

Lemma insert_sorted_perm x l : insert_sorted cmp x l ≡ₚ x :: l.
Proof.
  induction l as [|y l IH]; simpl; [done|].
  destruct (cmp x y <=? 0); [done|].
  rewrite IH. apply Permutation_swap.
Qed.

Lemma insertion_qsort_perm l : insertion_qsort cmp l ≡ₚ l.
Proof.
  induction l as [|x l IH]; simpl; [done|].
  unfold insertion_qsort in *. simpl.
  by rewrite insert_sorted_perm, IH.
Qed.

Lemma insert_sorted_sorted x l :
  x ∉ l -> consistent_on cmp (x :: l) ->
  StronglySorted (fun A B => cmp A B <= 0) l ->
  StronglySorted (fun A B => cmp A B <= 0) (insert_sorted cmp x l).
Proof.
  intros Hx [Hanti Htrans] Hs.
  induction Hs as [|y l Hs IH Hy]; simpl.
  - repeat constructor.
  - destruct (Z.leb_spec (cmp x y) 0) as [Hle|Hgt].
    + constructor; [by constructor|].
      constructor; [done|].
      rewrite Forall_forall in Hy |- *. intros z Hz.
      apply (Htrans x y z); try done; set_solver.
    + constructor.
      * apply IH.
        -- set_solver.
        -- intros a b Ha Hb. apply Hanti; set_solver.
        -- intros a b c Ha Hb Hc. apply Htrans; set_solver.
      * rewrite Forall_forall. intros z Hz.
        rewrite insert_sorted_perm in Hz.
        apply elem_of_cons in Hz as [->|Hz].
        -- assert (y <> x) as Hne by set_solver.
           destruct (Hanti y x) as [H1 _]; [set_solver..|].
           apply Z.lt_le_incl, H1. lia.
        -- rewrite Forall_forall in Hy. by apply Hy.
Qed.

Lemma insertion_qsort_sorted l :
  NoDup l -> consistent_on cmp l ->
  StronglySorted (fun A B => cmp A B <= 0) (insertion_qsort cmp l).
Proof.
  induction 1 as [|x l Hx Hnd IH]; intros Hc; [constructor|].
  change (insertion_qsort cmp (x :: l))
    with (insert_sorted cmp x (insertion_qsort cmp l)).
  assert (consistent_on cmp l) as Hc'.
  { destruct Hc as [Hanti Htrans]. split.
    - intros a b Ha Hb. apply Hanti; set_solver.
    - intros a b c Ha Hb Hc. apply Htrans; set_solver. }
  apply insert_sorted_sorted.
  - by rewrite insertion_qsort_perm.
  - destruct Hc as [Hanti Htrans]. split.
    + intros a b Ha Hb. rewrite insertion_qsort_perm in Ha, Hb.
      by apply Hanti.
    + intros a b c Ha Hb Hc. rewrite insertion_qsort_perm in Ha, Hb, Hc.
      by apply Htrans.
  - by apply IH.
Qed.

End insertion_qsort_facts.

Lemma insertion_qsort_contract : qsort_contract insertion_qsort.
Proof.
  intros cmp l Hnd Hc. split.
  - apply insertion_qsort_perm.
  - by apply insertion_qsort_sorted.
Qed.

(** ** The hash table *)

Section hash_table_facts.

Implicit Types (ht : list (list INTERFACE)) (p q : IFACE_PTR).
Implicit Types (chain : list INTERFACE) (I : INTERFACE).

Lemma chain_at_lookup ht b chain :
  ht !! b = Some chain -> chain_at ht b = chain.
Proof. unfold chain_at. by intros ->. Qed.

Lemma chain_at_ge ht b : (length ht <= b)%nat -> chain_at ht b = [].
Proof. intros Hb. unfold chain_at. by rewrite lookup_ge_None_2. Qed.

Lemma chain_at_elem_of ht b I : I ∈ chain_at ht b -> I ∈ mjoin ht.
Proof.
  unfold chain_at. intros HI.
  destruct (ht !! b) as [chain|] eqn:Hb; simpl in HI; [|by inv HI].
  apply list_elem_of_join. exists chain. split; [done|].
  by eapply list_elem_of_lookup_2.
Qed.

Lemma deref_load ht p I : deref ht p = Some I -> load ht p = I.
Proof. unfold load. by intros ->. Qed.

Lemma deref_elem_of ht p I : deref ht p = Some I -> I ∈ chain_at ht (fst p).
Proof. unfold deref. apply list_elem_of_lookup_2. Qed.

Lemma load_chain_ptrs ht b :
  load ht <$> chain_ptrs b (chain_at ht b) = chain_at ht b.
Proof.
  unfold chain_ptrs. apply list_eq. intros k.
  rewrite <- list_fmap_compose, list_lookup_fmap.
  destruct (decide (k < length (chain_at ht b))%nat) as [Hk|Hk].
  - rewrite lookup_seq_lt by done. simpl.
    destruct (lookup_lt_is_Some_2 _ _ Hk) as [I HI].
    rewrite HI. f_equal. by apply deref_load.
  - rewrite lookup_seq_ge by lia. simpl.
    by rewrite lookup_ge_None_2 by lia.
Qed.

Lemma collect_prefix_load ht n :
  (n <= length ht)%nat ->
  load ht <$> (seq 0 n ≫= (fun b => chain_ptrs b (chain_at ht b)))
  = mjoin (take n ht).
Proof.
  induction n as [|n IH]; intros Hn; [done|].
  rewrite seq_S, bind_app, fmap_app, IH by lia. simpl.
  destruct (lookup_lt_is_Some_2 ht n) as [chain Hc]; [lia|].
  rewrite (take_S_r _ _ _ Hc), join_app. f_equal.
  rewrite app_nil_r, load_chain_ptrs. simpl.
  by rewrite app_nil_r, (chain_at_lookup _ _ _ Hc).
Qed.

Lemma collect_load ht :
  length ht = Z.to_nat IFACE_HT_SIZE -> load ht <$> collect ht = mjoin ht.
Proof.
  intros Hlen. unfold collect.
  rewrite collect_prefix_load by lia.
  by rewrite <- Hlen, firstn_all.
Qed.

Lemma length_collect ht :
  length ht = Z.to_nat IFACE_HT_SIZE ->
  length (collect ht) = length (mjoin ht).
Proof. intros Hlen. by rewrite <- (collect_load ht), length_fmap. Qed.

Lemma elem_of_chain_ptrs b chain p :
  p ∈ chain_ptrs b chain <-> fst p = b /\ (snd p < length chain)%nat.
Proof.
  unfold chain_ptrs. rewrite list_elem_of_fmap. split.
  - intros (k & -> & Hk). apply elem_of_seq in Hk. simpl. lia.
  - intros [<- Hk]. exists (snd p). split; [by destruct p|].
    apply elem_of_seq. lia.
Qed.

Lemma elem_of_collect ht p :
  p ∈ collect ht <->
  (fst p < Z.to_nat IFACE_HT_SIZE)%nat /\ is_Some (deref ht p).
Proof.
  unfold collect. rewrite list_elem_of_bind. split.
  - intros (b & Hp & Hb). apply elem_of_chain_ptrs in Hp as [<- Hk].
    apply elem_of_seq in Hb. split; [lia|].
    by apply lookup_lt_is_Some_2.
  - intros [Hb Hd]. exists (fst p). split.
    + apply elem_of_chain_ptrs. split; [done|].
      by apply lookup_lt_is_Some_1.
    + apply elem_of_seq. lia.
Qed.

Lemma collect_NoDup ht : NoDup (collect ht).
Proof.
  unfold collect. apply NoDup_bind.
  - intros b1 b2 p _ _ H1 H2.
    apply elem_of_chain_ptrs in H1 as [<- _].
    by apply elem_of_chain_ptrs in H2 as [<- _].
  - intros b _. unfold chain_ptrs. apply NoDup_fmap_2; [|apply NoDup_seq].
    by intros k1 k2 [=].
  - apply NoDup_seq.
Qed.

(** The [while] loop of [GetInterface] returns the first record of the
    chain with the wanted index. *)
Lemma chain_find_Some L chain pos r :
  chain_find L chain pos = Some r <->
  exists k I, r = (pos + k)%nat /\ chain !! k = Some I /\
              LowerIfIndex I = L /\
              forall j J, (j < k)%nat -> chain !! j = Some J ->
                          LowerIfIndex J <> L.
Proof.
  revert pos. induction chain as [|I0 chain IH]; intros pos; simpl.
  - split; [done|]. by intros (k & I & _ & Hk & _).
  - destruct (Z.eqb_spec (LowerIfIndex I0) L) as [Heq|Hne].
    + split.
      * intros [= <-]. exists 0%nat, I0. repeat split; [lia|done|lia].
      * intros (k & I & -> & Hk & HL & Hfirst).
        destruct k as [|k]; [f_equal; lia|].
        by destruct (Hfirst 0%nat I0); [lia|..].
    + rewrite IH. split.
      * intros (k & I & -> & Hk & HL & Hfirst).
        exists (S k), I. repeat split; [lia|done..|].
        intros [|j] J Hj HJ; simpl in HJ; [by simplify_eq|].
        apply (Hfirst j); [lia|done].
      * intros (k & I & -> & Hk & HL & Hfirst).
        destruct k as [|k]; simpl in Hk; [by simplify_eq|].
        exists k, I. repeat split; [lia|done..|].
        intros j J Hj HJ. apply (Hfirst (S j)); [lia|done].
Qed.

Lemma chain_find_None L chain pos :
  chain_find L chain pos = None <->
  forall I, I ∈ chain -> LowerIfIndex I <> L.
Proof.
  revert pos. induction chain as [|I0 chain IH]; intros pos; simpl.
  - split; [|done]. intros _ I HI. by inv HI.
  - destruct (Z.eqb_spec (LowerIfIndex I0) L) as [Heq|Hne].
    + split; [done|]. intros H. destruct (H I0); [left|done].
    + rewrite IH. split.
      * intros H I HI. apply elem_of_cons in HI as [->|HI]; auto.
      * intros H I HI. apply H. by right.
Qed.

(** A chain finds by [LowerIfIndex] only. *)
Lemma chain_find_ext L chain chain' pos :
  LowerIfIndex <$> chain = LowerIfIndex <$> chain' ->
  chain_find L chain pos = chain_find L chain' pos.
Proof.
  revert chain' pos. induction chain as [|I chain IH];
    intros [|I' chain'] pos [=]; simpl; [done|].
  rewrite <- H0. destruct (LowerIfIndex I =? L); [done|]. by apply IH.
Qed.

Lemma NoDup_fmap_inj_on {A B} (f : A -> B) (l : list A) x y :
  NoDup (f <$> l) -> x ∈ l -> y ∈ l -> f x = f y -> x = y.
Proof.
  intros Hnd Hx Hy Hf.
  apply list_elem_of_lookup in Hx as [i Hi].
  apply list_elem_of_lookup in Hy as [j Hj].
  assert (i = j) as ->.
  { eapply (NoDup_lookup _ _ _ _ Hnd).
    - by rewrite list_lookup_fmap, Hi.
    - by rewrite list_lookup_fmap, Hj, Hf. }
  congruence.
Qed.

End hash_table_facts.

(** ** The registry after pass 1 *)

Section registry_facts.

Variable st : State.
Hypothesis Hwf : registry_wf st.

Let ht := InterfaceHashTable st.

Lemma wf_collect_load : load ht <$> collect ht = registered st.
Proof. apply collect_load, Hwf. Qed.

Lemma wf_length_collect :
  length (collect ht) = Z.to_nat (NumInterfaces st).
Proof.
  rewrite (wf_count st Hwf), Nat2Z.id.
  apply length_collect, Hwf.
Qed.

Lemma wf_lower_inj p q :
  p ∈ collect ht -> q ∈ collect ht ->
  LowerIfIndex (load ht p) = LowerIfIndex (load ht q) -> p = q.
Proof.
  intros Hp Hq Heq.
  apply (NoDup_fmap_inj_on (fun r => LowerIfIndex (load ht r)) (collect ht));
    try done.
  change (NoDup ((LowerIfIndex ∘ load ht) <$> collect ht)).
  rewrite list_fmap_compose, wf_collect_load. apply Hwf.
Qed.

Lemma wf_consistent :
  consistent_on
    (fun A B => InterfaceCompareFn (load ht A) (load ht B)) (collect ht).
Proof.
  split.
  - intros p q Hp Hq Hne.
    assert (LowerIfIndex (load ht p) <> LowerIfIndex (load ht q)) as HL
      by (intros Heq; by apply Hne, wf_lower_inj).
    destruct (InterfaceCompareFn_antisym _ _ HL) as [H0 Hlt].
    destruct (InterfaceCompareFn_antisym (load ht q) (load ht p)) as [H0' _];
      [congruence|].
    split; [done|]. split; intros; by exfalso.
  - intros p q r _ _ _. apply InterfaceCompareFn_trans.
Qed.

Lemma wf_chain_NoDup b : NoDup (LowerIfIndex <$> chain_at ht b).
Proof.
  unfold chain_at. destruct (ht !! b) as [chain|] eqn:Hb; simpl;
    [|constructor].
  pose proof (wf_unique st Hwf) as Hnd. unfold registered in Hnd.
  fold ht in Hnd.
  rewrite <- (take_drop_middle _ _ _ Hb), join_app in Hnd. simpl in Hnd.
  rewrite !fmap_app in Hnd.
  apply NoDup_app in Hnd as (_ & _ & Hnd).
  by apply NoDup_app in Hnd as (Hnd & _ & _).
Qed.

Lemma wf_GetInterface p :
  p ∈ collect ht -> GetInterface ht (LowerIfIndex (load ht p)) = Some p.
Proof.
  intros Hp. apply elem_of_collect in Hp as [Hb [I HI]].
  rewrite (deref_load _ _ _ HI). unfold GetInterface.
  rewrite (wf_hash st Hwf (fst p) I) by (by apply deref_elem_of).
  destruct p as [b k]; simpl in *.
  assert (chain_find (LowerIfIndex I) (chain_at ht b) 0 = Some k) as ->;
    [|done].
  apply chain_find_Some. exists k, I. repeat split; [done|].
  intros j J Hj HJ Heq.
  assert (j = k); [|lia].
  eapply (NoDup_lookup _ _ _ _ (wf_chain_NoDup b)).
  - by rewrite list_lookup_fmap, HJ.
  - unfold deref in HI; simpl in HI.
    by rewrite list_lookup_fmap, HI, Heq.
Qed.

(** A miss of [GetInterface] means the index is not registered. *)
Lemma wf_GetInterface_None L :
  GetInterface ht L = None -> L ∉ LowerIfIndex <$> registered st.
Proof.
  unfold GetInterface.
  destruct (chain_find L (chain_at ht (bucket_of L)) 0) eqn:Hfind; [done|].
  intros _ Hin. apply list_elem_of_fmap in Hin as (I & -> & HI).
  rewrite <- wf_collect_load in HI.
  apply list_elem_of_fmap in HI as (p & -> & Hp).
  apply elem_of_collect in Hp as [Hb [I HI]].
  rewrite (deref_load _ _ _ HI) in Hfind.
  pose proof (deref_elem_of _ _ _ HI) as Hel.
  rewrite <- (wf_hash st Hwf _ _ Hel) in Hel.
  by eapply chain_find_None in Hfind.
Qed.

End registry_facts.

(** ** Numbering the interfaces *)

Section numbering.

Implicit Types (ht : list (list INTERFACE)) (p q : IFACE_PTR).

Lemma deref_store p i ht q :
  deref (store_PcapNgIfIndex p (Z.of_nat i) ht) q =
  if decide (p = q) then numbered i <$> deref ht q else deref ht q.
Proof.
  destruct p as [b k], q as [b' k'].
  unfold deref, store_PcapNgIfIndex, chain_at; simpl.
  rewrite list_lookup_alter.
  destruct (decide (b = b')) as [<-|Hb].
  - destruct (ht !! b) as [chain|]; simpl.
    + rewrite list_lookup_alter.
      destruct (decide (k = k')) as [<-|Hk].
      * by rewrite decide_True.
      * rewrite decide_False; [done|congruence].
    + by destruct (decide _).
  - rewrite decide_False; [done|congruence].
Qed.

Lemma store_lowers p i ht b :
  LowerIfIndex <$> chain_at (store_PcapNgIfIndex p i ht) b
  = LowerIfIndex <$> chain_at ht b.
Proof.
  destruct p as [b0 k]. unfold store_PcapNgIfIndex, chain_at; simpl.
  rewrite list_lookup_alter.
  destruct (decide (b0 = b)) as [<-|Hb]; [|done].
  destruct (ht !! b0) as [chain|]; simpl; [|done].
  rewrite (list_fmap_alter _ _ id).
  - by apply list_alter_id.
  - by apply Forall_true.
Qed.

Lemma length_store p i ht :
  length (store_PcapNgIfIndex p i ht) = length ht.
Proof. apply length_alter. Qed.

Lemma same_lowers_GetInterface ht ht' L :
  same_lowers ht ht' -> GetInterface ht' L = GetInterface ht L.
Proof.
  intros Hs. unfold GetInterface.
  by rewrite (chain_find_ext L _ (chain_at ht (bucket_of L))).
Qed.

Lemma numbering_loop arr st k :
  NoDup arr -> (forall p, p ∈ arr -> is_Some (deref (InterfaceHashTable st) p)) ->
  (k <= length arr)%nat ->
  numbered_upto arr st k
    (fold_left (WriteInterfaces_body arr) (seq 0 k) st).
Proof.
  intros Hnd Hvalid. induction k as [|k IH]; intros Hk.
  - simpl. split; try done.
    all: try (by rewrite app_nil_r).
    intros i p Hi. lia.
  - specialize (IH ltac:(lia)).
    rewrite seq_S, fold_left_app. simpl.
    set (stk := fold_left (WriteInterfaces_body arr) (seq 0 k) st) in *.
    destruct (lookup_lt_is_Some_2 arr k) as [p Hp]; [lia|].
    unfold WriteInterfaces_body. rewrite Hp.
    destruct (Hvalid p) as [I HI]; [by eapply list_elem_of_lookup_2|].
    assert (p ∉ take k arr) as Hfresh.
    { rewrite elem_of_take. intros (i & Hi & Hlt).
      assert (i = k) by (by eapply NoDup_lookup). lia. }
    assert (load (store_PcapNgIfIndex p (Z.of_nat k) (InterfaceHashTable stk)) p
            = numbered k I) as Hload.
    { apply deref_load. rewrite deref_store, decide_True by done.
      by rewrite (nu_rest _ _ _ _ IH p Hfresh), HI. }
    assert (take (S k) (load (InterfaceHashTable st) <$> arr)
            = take k (load (InterfaceHashTable st) <$> arr) ++ [I]) as Htake.
    { apply take_S_r. rewrite list_lookup_fmap, Hp. simpl.
      by rewrite (deref_load _ _ _ HI). }
    split; simpl.
    + intros i q Hi Hq. rewrite deref_store.
      destruct (decide (p = q)) as [<-|Hne].
      * assert (i = k) as -> by (by eapply NoDup_lookup).
        by rewrite (nu_rest _ _ _ _ IH p Hfresh).
      * apply (nu_done _ _ _ _ IH); [|done].
        destruct (decide (i = k)) as [->|]; [congruence|lia].
    + intros q Hq. rewrite (take_S_r _ _ _ Hp) in Hq.
      rewrite deref_store, decide_False.
      * apply (nu_rest _ _ _ _ IH). set_solver.
      * set_solver.
    + intros b. rewrite store_lowers. apply (nu_lowers _ _ _ _ IH).
    + rewrite length_store. apply (nu_length _ _ _ _ IH).
    + rewrite Hload, (nu_OutFile _ _ _ _ IH), Htake, fmap_app.
      by rewrite <- app_assoc.
    + rewrite Hload, (nu_Console _ _ _ _ IH), Htake, imap_app.
      rewrite <- app_assoc. simpl. do 3 f_equal.
      rewrite length_take, length_fmap.
      unfold interface_line. simpl. f_equal. lia.
    + apply (nu_frame _ _ _ _ IH).
Qed.

End numbering.

(** ** The finalized order *)

Lemma StronglySorted_lookup {A} (R : A -> A -> Prop) (l : list A) i j x y :
  StronglySorted R l -> (i < j)%nat ->
  l !! i = Some x -> l !! j = Some y -> R x y.
Proof.
  intros Hs. revert i j. induction Hs as [|z l Hs IH Hz]; intros i j Hij Hi Hj.
  - done.
  - destruct j as [|j]; [lia|]. simpl in Hj. destruct i as [|i]; simpl in Hi.
    + simplify_eq. rewrite Forall_forall in Hz.
      by eapply Hz, list_elem_of_lookup_2.
    + apply (IH i j); [lia|done..].
Qed.

Section finalize.

Variable qsort : QSORT.
Hypothesis Hqsort : qsort_contract qsort.
Variable st : State.
Hypothesis Hwf : registry_wf st.

Local Abbreviation ht := (InterfaceHashTable st).
Local Abbreviation cmp :=
  (fun A B : IFACE_PTR => InterfaceCompareFn (load ht A) (load ht B)).

Lemma SortedInterfaceArray_qsort :
  SortedInterfaceArray qsort st = qsort cmp (collect ht).
Proof.
  unfold SortedInterfaceArray.
  rewrite <- (wf_length_collect st Hwf).
  by rewrite firstn_all, drop_all, app_nil_r.
Qed.

Lemma sorted_array_perm : SortedInterfaceArray qsort st ≡ₚ collect ht.
Proof.
  rewrite SortedInterfaceArray_qsort.
  apply Hqsort; [apply collect_NoDup|apply (wf_consistent st Hwf)].
Qed.

Lemma sorted_array_sorted :
  StronglySorted (fun A B => cmp A B <= 0) (SortedInterfaceArray qsort st).
Proof.
  rewrite SortedInterfaceArray_qsort.
  apply Hqsort; [apply collect_NoDup|apply (wf_consistent st Hwf)].
Qed.

Lemma sorted_array_NoDup : NoDup (SortedInterfaceArray qsort st).
Proof. rewrite sorted_array_perm. apply collect_NoDup. Qed.

Lemma sorted_array_length :
  length (SortedInterfaceArray qsort st) = Z.to_nat (NumInterfaces st).
Proof. by rewrite sorted_array_perm, (wf_length_collect st Hwf). Qed.

Lemma finalized_order_perm : finalized_order qsort st ≡ₚ registered st.
Proof.
  unfold finalized_order. rewrite sorted_array_perm.
  by rewrite (wf_collect_load st Hwf).
Qed.

Lemma finalized_order_canonical :
  canonical_order (finalized_order qsort st).
Proof.
  intros i j A B Hij HA HB. unfold finalized_order in HA, HB.
  rewrite list_lookup_fmap in HA, HB.
  destruct (SortedInterfaceArray qsort st !! i) as [p|] eqn:Hp; [|done].
  destruct (SortedInterfaceArray qsort st !! j) as [q|] eqn:Hq; [|done].
  simpl in HA, HB. simplify_eq.
  pose proof (StronglySorted_lookup _ _ _ _ _ _ sorted_array_sorted Hij Hp Hq)
    as Hle.
  simpl in Hle. apply InterfaceCompareFn_le in Hle.
  assert (LowerIfIndex (load ht p) <> LowerIfIndex (load ht q)) as Hne.
  { intros Heq. apply (wf_lower_inj st Hwf) in Heq.
    - subst q. assert (i = j); [|lia].
      by eapply NoDup_lookup; [apply sorted_array_NoDup|..].
    - rewrite <- sorted_array_perm. by eapply list_elem_of_lookup_2.
    - rewrite <- sorted_array_perm. by eapply list_elem_of_lookup_2. }
  lia.
Qed.

Lemma WriteInterfaces_numbered :
  numbered_upto (SortedInterfaceArray qsort st) st
    (Z.to_nat (NumInterfaces st)) (WriteInterfaces qsort st).
Proof.
  unfold WriteInterfaces. apply numbering_loop.
  - apply sorted_array_NoDup.
  - intros p Hp. rewrite sorted_array_perm in Hp.
    by apply elem_of_collect in Hp as [_ ?].
  - by rewrite sorted_array_length.
Qed.

Lemma WriteInterfaces_lookup i I :
  finalized_order qsort st !! i = Some I ->
  exists p,
    GetInterface (InterfaceHashTable (WriteInterfaces qsort st))
                 (LowerIfIndex I) = Some p /\
    deref (InterfaceHashTable (WriteInterfaces qsort st)) p
    = Some (numbered i I).
Proof.
  intros HI. unfold finalized_order in HI. rewrite list_lookup_fmap in HI.
  destruct (SortedInterfaceArray qsort st !! i) as [p|] eqn:Hp; [|done].
  simpl in HI. simplify_eq. exists p.
  assert (p ∈ collect ht) as Hin
    by (rewrite <- sorted_array_perm; by eapply list_elem_of_lookup_2).
  pose proof WriteInterfaces_numbered as Hnu. split.
  - rewrite (same_lowers_GetInterface ht) by apply Hnu.
    by apply (wf_GetInterface st Hwf).
  - rewrite (nu_done _ _ _ _ Hnu i p); [|
      rewrite <- sorted_array_length; by eapply lookup_lt_Some|done].
    apply elem_of_collect in Hin as [_ [I HI]].
    by rewrite HI, (deref_load _ _ _ HI).
Qed.

Lemma WriteInterfaces_OutFile :
  OutFile (WriteInterfaces qsort st)
  = OutFile st ++ (interface_desc <$> finalized_order qsort st).
Proof.
  rewrite (nu_OutFile _ _ _ _ WriteInterfaces_numbered).
  rewrite <- sorted_array_length, <- (length_fmap (load ht)), firstn_all.
  done.
Qed.

Lemma WriteInterfaces_Console :
  Console (WriteInterfaces qsort st)
  = Console st ++ imap interface_line (finalized_order qsort st).
Proof.
  rewrite (nu_Console _ _ _ _ WriteInterfaces_numbered).
  rewrite <- sorted_array_length, <- (length_fmap (load ht)), firstn_all.
  done.
Qed.

End finalize.

(** C1.  For every registry with pairwise distinct [LowerIfIndex] values and
    every [qsort] that meets its contract, the order in which
    [WriteInterfaces] emits the interface descriptions holds every
    registered interface once and is the canonical one: ascending
    [MiniportIfIndex]; within one [MiniportIfIndex] the record with
    [LowerIfIndex = MiniportIfIndex] before all others, and the others in
    ascending [LowerIfIndex] order.  The record at position [i] of that
    order gets [PcapNgIfIndex = i], and position [i] of the emitted
    interface descriptions and of the printed lines belongs to it. *)
Theorem C1_finalized_order_canonical (qsort : QSORT) (st : State) :
  qsort_contract qsort -> registry_wf st ->
  finalized_order qsort st ≡ₚ registered st /\
  canonical_order (finalized_order qsort st) /\
  (forall i I, finalized_order qsort st !! i = Some I ->
     exists p,
       GetInterface (InterfaceHashTable (WriteInterfaces qsort st))
                    (LowerIfIndex I) = Some p /\
       deref (InterfaceHashTable (WriteInterfaces qsort st)) p
       = Some (numbered i I)) /\
  OutFile (WriteInterfaces qsort st)
  = OutFile st ++ (interface_desc <$> finalized_order qsort st) /\
  Console (WriteInterfaces qsort st)
  = Console st ++ imap interface_line (finalized_order qsort st).
Proof.
  intros Hq Hwf. repeat split.
  - by apply finalized_order_perm.
  - by eapply finalized_order_canonical.
  - by eapply finalized_order_canonical.
  - by eapply finalized_order_canonical.
  - by apply WriteInterfaces_lookup.
  - by apply WriteInterfaces_OutFile.
  - by apply WriteInterfaces_Console.
Qed.

(** ** Pass 1 builds a well-formed registry *)

Section pass1.

Implicit Types (st : State) (ev : EVENT_RECORD).

Lemma bucket_of_lt L : (bucket_of L < Z.to_nat IFACE_HT_SIZE)%nat.
Proof.
  unfold bucket_of, IFACE_HT_SIZE.
  pose proof (Z.mod_pos_bound L 100). lia.
Qed.

Lemma mjoin_insert_cons (ht : list (list INTERFACE)) b I :
  (b < length ht)%nat ->
  mjoin (<[b := I :: chain_at ht b]> ht) ≡ₚ I :: mjoin ht.
Proof.
  intros Hb. destruct (lookup_lt_is_Some_2 ht b Hb) as [chain Hc].
  rewrite (chain_at_lookup _ _ _ Hc), insert_take_drop by done.
  rewrite <- (take_drop_middle _ _ _ Hc) at 3.
  rewrite !join_app. simpl.
  by rewrite <- Permutation_middle.
Qed.

Lemma registry_wf_ext st st' :
  InterfaceHashTable st' = InterfaceHashTable st ->
  NumInterfaces st' = NumInterfaces st ->
  registry_wf st -> registry_wf st'.
Proof.
  intros Hht Hn [H1 H2 H3 H4].
  split; unfold registered in *; rewrite ?Hht, ?Hn; done.
Qed.

Lemma AddInterface_wf L M T st :
  registry_wf st ->
  GetInterface (InterfaceHashTable st) L = None ->
  Z.of_nat (length (registered st)) + 1 < 2 ^ 32 ->
  registry_wf (AddInterface L M T st).
Proof.
  intros Hwf Hmiss Hroom.
  pose proof (bucket_of_lt L) as Hb.
  pose proof (wf_buckets st Hwf) as Hlen.
  set (New := {| LowerIfIndex := L; MiniportIfIndex := M;
                 PcapNgIfIndex := None; Type' := T |}).
  assert (registered (AddInterface L M T st) ≡ₚ New :: registered st)
    as Hperm.
  { unfold registered, AddInterface. simpl.
    apply mjoin_insert_cons. lia. }
  split.
  - unfold AddInterface. simpl. by rewrite length_insert.
  - unfold AddInterface. simpl. intros b I HI.
    unfold chain_at in HI.
    destruct (decide (b = bucket_of L)) as [->|Hne].
    + rewrite list_lookup_insert_eq in HI by lia. simpl in HI.
      apply elem_of_cons in HI as [->|HI]; [done|].
      by apply (wf_hash st Hwf).
    + rewrite list_lookup_insert_ne in HI by done.
      by apply (wf_hash st Hwf).
  - rewrite Hperm, fmap_cons. apply NoDup_cons. split.
    + by apply wf_GetInterface_None.
    + apply Hwf.
  - rewrite Hperm. unfold AddInterface. simpl.
    rewrite (wf_count st Hwf). unfold Word.u32.
    rewrite Z.mod_small; lia.
Qed.

Lemma AddInterface_registered L M T st :
  registry_wf st ->
  length (registered (AddInterface L M T st)) = S (length (registered st)).
Proof.
  intros Hwf. unfold registered, AddInterface. simpl.
  rewrite mjoin_insert_cons; [done|].
  pose proof (bucket_of_lt L). rewrite (wf_buckets st Hwf). lia.
Qed.

Lemma EventCallback_pass1_inv k ev st st' :
  pass1_inv k st -> Z.of_nat k + 1 < 2 ^ 32 ->
  EventCallback ev st = Returns st' -> pass1_inv (S k) st'.
Proof.
  intros (Hwf & Hp & Hk) Hroom. unfold EventCallback.
  assert (pass1_inv (S k) st) as Hsame by (split; [done|split; [done|lia]]).
  assert (forall line, pass1_inv (S k) (printf line st)) as Hprintf.
  { intros line. split; [by apply (registry_wf_ext st)|].
    split; [done|]. unfold registered in *. simpl. lia. }
  destruct (_ || _); [by intros [= <-]|].
  destruct (prop_LowerIfIndex ev) as [Err|L]; [by intros [= <-]|].
  rewrite Hp. simpl. unfold EventCallback_pass1.
  destruct (GetInterface (InterfaceHashTable st) L) as [p|] eqn:Hget.
  - destruct (negb _); by intros [= <-].
  - destruct (prop_MiniportIfIndex ev) as [Err|M]; [by intros [= <-]|].
    intros [= <-]. split; [|split].
    + apply AddInterface_wf; [done..|lia].
    + done.
    + rewrite AddInterface_registered by done. lia.
Qed.

Lemma ProcessTrace_pass1_inv evs k st st' :
  pass1_inv k st -> Z.of_nat (k + length evs) < 2 ^ 32 ->
  ProcessTrace evs st = Returns st' -> pass1_inv (k + length evs) st'.
Proof.
  revert k st. induction evs as [|ev evs IH]; intros k st Hinv Hroom; simpl.
  - intros [= <-]. by rewrite Nat.add_0_r.
  - destruct (EventCallback ev st) as [st1| |] eqn:Hev; [|done..].
    intros Hrest. simpl in Hroom.
    replace (k + S (length evs))%nat with (S k + length evs)%nat by lia.
    apply (IH (S k) st1); [|lia|done].
    eapply EventCallback_pass1_inv; [done| |done]. lia.
Qed.

Lemma registered_initial : registered initial_state = [].
Proof.
  unfold registered.
  change (InterfaceHashTable initial_state)
    with (replicate (Z.to_nat IFACE_HT_SIZE) (@nil INTERFACE)).
  apply join_nil_2, Forall_replicate. done.
Qed.

Lemma initial_state_wf : registry_wf initial_state.
Proof.
  split.
  - apply length_replicate.
  - intros b I HI. unfold chain_at in HI.
    change (InterfaceHashTable initial_state)
      with (replicate (Z.to_nat IFACE_HT_SIZE) (@nil INTERFACE)) in HI.
    destruct (replicate _ _ !! b) as [chain|] eqn:Hb; simpl in HI;
      [|by inv HI].
    apply lookup_replicate in Hb as [-> _]. by inv HI.
  - rewrite registered_initial. constructor.
  - by rewrite registered_initial.
Qed.

(** The registry at the end of pass 1 is well formed. *)
Theorem pass1_registry_wf evs st :
  Z.of_nat (length evs) < 2 ^ 32 ->
  ProcessTrace evs initial_state = Returns st ->
  registry_wf st /\ Pass2 st = false.
Proof.
  intros Hroom Hrun.
  destruct (ProcessTrace_pass1_inv evs 0 initial_state st) as (Hwf & Hp & _);
    try done.
  split; [apply initial_state_wf|split; [done|]].
  by rewrite registered_initial.
Qed.

End pass1.

(** ** The scenario of the specification *)

Lemma scenario_pass1 :
  ProcessTrace scenario_events initial_state = Returns scenario_registry.
Proof. reflexivity. Qed.

Lemma scenario_registry_wf : registry_wf scenario_registry.
Proof.
  apply (pass1_registry_wf scenario_events); [done|apply scenario_pass1].
Qed.

Lemma C1_finalized_order_canonical_witness :
  qsort_contract insertion_qsort /\ registry_wf scenario_registry /\
  finalized_order insertion_qsort scenario_registry
    ≡ₚ registered scenario_registry /\
  canonical_order (finalized_order insertion_qsort scenario_registry) /\
  (forall i I,
     finalized_order insertion_qsort scenario_registry !! i = Some I ->
     exists p,
       GetInterface
         (InterfaceHashTable (WriteInterfaces insertion_qsort scenario_registry))
         (LowerIfIndex I) = Some p /\
       deref
         (InterfaceHashTable (WriteInterfaces insertion_qsort scenario_registry))
         p = Some (numbered i I)) /\
  OutFile (WriteInterfaces insertion_qsort scenario_registry)
  = OutFile scenario_registry
    ++ (interface_desc <$> finalized_order insertion_qsort scenario_registry) /\
  Console (WriteInterfaces insertion_qsort scenario_registry)
  = Console scenario_registry
    ++ imap interface_line (finalized_order insertion_qsort scenario_registry).
Proof.
  split; [exact insertion_qsort_contract|].
  split; [exact scenario_registry_wf|].
  exact (C1_finalized_order_canonical insertion_qsort scenario_registry
           insertion_qsort_contract scenario_registry_wf).
Defined.

(** The three records of the scenario come out as 3, 5, 7 whatever the
    order of discovery. *)
Lemma canonical_scenario (order : list INTERFACE) :
  canonical_order order ->
  indices <$> order ≡ₚ [(7, 5); (5, 5); (3, 3)] ->
  LowerIfIndex <$> order = [3; 5; 7].
Proof.
  intros Hcan Hperm.
  apply symmetry, permutations_Permutation in Hperm.
  assert (permutations [(7, 5); (5, 5); (3, 3)]
          = [ [(7, 5); (5, 5); (3, 3)]; [(5, 5); (7, 5); (3, 3)];
              [(5, 5); (3, 3); (7, 5)]; [(7, 5); (3, 3); (5, 5)];
              [(3, 3); (7, 5); (5, 5)]; [(3, 3); (5, 5); (7, 5)] ]) as Hps
    by reflexivity.
  rewrite Hps in Hperm. clear Hps.
  destruct order as [|A [|B [|C [|D order]]]];
    try (repeat (apply elem_of_cons in Hperm as [Hperm|Hperm]; [done|]);
         by apply elem_of_nil in Hperm).
  pose proof (Hcan 0%nat 1%nat A B ltac:(lia) eq_refl eq_refl) as HAB.
  pose proof (Hcan 1%nat 2%nat B C ltac:(lia) eq_refl eq_refl) as HBC.
  pose proof (Hcan 0%nat 2%nat A C ltac:(lia) eq_refl eq_refl) as HAC.
  unfold indices in Hperm. simpl in Hperm.
  repeat (apply elem_of_cons in Hperm as [Hperm|Hperm];
    [injection Hperm as HA1 HA2 HB1 HB2 HC1 HC2;
     rewrite ?HA1, ?HA2, ?HB1, ?HB2, ?HC1, ?HC2 in *;
     first [lia | by simpl; rewrite HA1, HB1, HC1]|]).
  by apply elem_of_nil in Hperm.
Qed.

Lemma scenario_order_any_qsort (qsort : QSORT) (st : State) :
  qsort_contract qsort -> registry_wf st ->
  indices <$> registered st ≡ₚ [(7, 5); (5, 5); (3, 3)] ->
  LowerIfIndex <$> finalized_order qsort st = [3; 5; 7].
Proof.
  intros Hq Hwf Hreg. apply canonical_scenario.
  - by apply finalized_order_canonical.
  - by rewrite (finalized_order_perm qsort Hq st Hwf).
Qed.

(** C4 (as amended).  When the interfaces (LowerIfIndex 7, MiniportIfIndex
    5), (5, 5) and (3, 3) are registered, in whatever order pass 1 saw
    them, the finalized order is LowerIfIndex 3, then 5, then 7: the group
    of miniport 3 comes before the group of miniport 5, and inside the
    latter the miniport itself comes first. *)
Theorem C4_scenario_order (qsort : QSORT) (st : State) :
  qsort_contract qsort -> registry_wf st ->
  indices <$> registered st ≡ₚ [(7, 5); (5, 5); (3, 3)] ->
  LowerIfIndex <$> finalized_order qsort st = [3; 5; 7].
Proof.
  apply scenario_order_any_qsort.
Qed.

Lemma scenario_registered :
  indices <$> registered scenario_registry = [(3, 3); (5, 5); (7, 5)].
Proof. reflexivity. Qed.

Lemma C4_scenario_order_witness :
  qsort_contract insertion_qsort /\ registry_wf scenario_registry /\
  indices <$> registered scenario_registry ≡ₚ [(7, 5); (5, 5); (3, 3)] /\
  LowerIfIndex <$> finalized_order insertion_qsort scenario_registry
  = [3; 5; 7].
Proof.
  assert (indices <$> registered scenario_registry
          ≡ₚ [(7, 5); (5, 5); (3, 3)]) as Hperm.
  { rewrite scenario_registered.
    change ([(3, 3); (5, 5); (7, 5)]) with (reverse [(7, 5); (5, 5); (3, 3)]).
    apply reverse_Permutation. }
  split; [exact insertion_qsort_contract|].
  split; [exact scenario_registry_wf|].
  split; [exact Hperm|].
  exact (C4_scenario_order insertion_qsort scenario_registry
           insertion_qsort_contract scenario_registry_wf Hperm).
Defined.

(** C4 (as stated) fails on the scenario of the specification: discovered
    in the order 7, 5, 3, the interfaces are finalized in the order 3, 5, 7
    and not 5, 7, 3, with the reference sort and with every other sort that
    meets the contract of [qsort]. *)
Lemma C4_counterexample :
  ProcessTrace scenario_events initial_state = Returns scenario_registry /\
  LowerIfIndex <$> finalized_order insertion_qsort scenario_registry
  = [3; 5; 7] /\
  (forall qsort, qsort_contract qsort ->
     LowerIfIndex <$> finalized_order qsort scenario_registry <> [5; 7; 3]).
Proof.
  split; [exact scenario_pass1|]. split; [reflexivity|].
  intros qsort Hq.
  rewrite (scenario_order_any_qsort qsort scenario_registry Hq
             scenario_registry_wf); [discriminate|].
  rewrite scenario_registered.
  change ([(3, 3); (5, 5); (7, 5)]) with (reverse [(7, 5); (5, 5); (3, 3)]).
  apply reverse_Permutation.
Qed.

(** ** Formatting *)

Module PrintfFacts.

Import Printf.

Lemma length_append (s1 s2 : string) :
  String.length (s1 ++ s2) = (String.length s1 + String.length s2)%nat.
Proof. induction s1 as [|c s1 IH]; simpl; [done|]. by rewrite IH. Qed.

Lemma strlen_append (s1 s2 : string) :
  strlen (s1 ++ s2) = strlen s1 + strlen s2.
Proof. unfold strlen. rewrite length_append. lia. Qed.

Lemma append_nil_r (s : string) : (s ++ "")%string = s.
Proof. induction s as [|c s IH]; simpl; [done|]. by rewrite IH. Qed.

Lemma strlen_nonneg s : 0 <= strlen s.
Proof. unfold strlen. lia. Qed.

Lemma digits_S base fuel n :
  digits base (S fuel) n =
  if n <? base then String (digit n) EmptyString
  else (digits base fuel (n / base)
        ++ String (digit (n mod base)) EmptyString)%string.
Proof. reflexivity. Qed.

(** A number below [base ^ k] prints with at most [k] digits. *)
Lemma digits_length base fuel n (k : nat) :
  1 < base -> 0 <= n < base ^ Z.of_nat k -> (1 <= k)%nat ->
  (String.length (digits base fuel n) <= k)%nat.
Proof.
  intros Hbase. revert n k.
  induction fuel as [|fuel IH]; intros n k Hn Hk;
    [change (digits base 0 n) with EmptyString; simpl; lia|].
  rewrite digits_S.
  destruct (Z.ltb_spec n base) as [Hlt|Hge]; [simpl; lia|].
  rewrite length_append.
  change (String.length (String (digit (n mod base)) EmptyString))
    with 1%nat.
  destruct k as [|[|k]]; [lia| |].
  - change (Z.of_nat 1) with 1 in Hn. rewrite Z.pow_1_r in Hn. lia.
  - assert (String.length (digits base fuel (n / base)) <= S k)%nat;
      [|lia].
    apply IH; [|lia]. split; [apply Z.div_pos; lia|].
    apply Z.div_lt_upper_bound; [lia|].
    rewrite Nat2Z.inj_succ, Z.pow_succ_r in Hn by lia. lia.
Qed.

Lemma u32_range z : 0 <= Word.u32 z < 2 ^ 32.
Proof. unfold Word.u32. apply Z.mod_pos_bound. lia. Qed.

Lemma s32_range z : - 2 ^ 31 <= Word.s32 z < 2 ^ 31.
Proof.
  unfold Word.s32. pose proof (u32_range z).
  destruct (Z.ltb_spec (Word.u32 z) (2 ^ 31)); lia.
Qed.

Lemma strlen_fmt_u w : strlen (fmt_u w) <= 10.
Proof.
  unfold strlen, fmt_u. pose proof (u32_range w).
  pose proof (digits_length 10 32 (Word.u32 w) 10 ltac:(lia)) as Hd.
  change (Z.of_nat 10) with 10 in Hd.
  specialize (Hd ltac:(lia) ltac:(lia)). lia.
Qed.

Lemma strlen_fmt_x w : strlen (fmt_x w) <= 8.
Proof.
  unfold strlen, fmt_x. pose proof (u32_range w).
  pose proof (digits_length 16 32 (Word.u32 w) 8 ltac:(lia)) as Hd.
  change (Z.of_nat 8) with 8 in Hd.
  specialize (Hd ltac:(lia) ltac:(lia)). lia.
Qed.

Lemma strlen_fmt_d w : strlen (fmt_d w) <= 11.
Proof.
  unfold strlen, fmt_d. pose proof (s32_range w).
  destruct (Z.ltb_spec (Word.s32 w) 0).
  - change (String.length (String "-" ?s)) with (S (String.length s)).
    pose proof (digits_length 10 32 (- Word.s32 w) 10 ltac:(lia)) as Hd.
    change (Z.of_nat 10) with 10 in Hd.
    specialize (Hd ltac:(lia) ltac:(lia)).
    change (String.length (String "-" (digits 10 32 (- Word.s32 w))))
      with (S (String.length (digits 10 32 (- Word.s32 w)))). lia.
  - pose proof (digits_length 10 32 (Word.s32 w) 10 ltac:(lia)) as Hd.
    change (Z.of_nat 10) with 10 in Hd.
    specialize (Hd ltac:(lia) ltac:(lia)). lia.
Qed.

Lemma sprintf_pid Pid : sprintf "PID=%d" [VaWord Pid] = pid_comment Pid.
Proof.
  unfold pid_comment. simpl. by rewrite append_nil_r.
Qed.

Lemma strlen_pid_comment Pid :
  4 < strlen (pid_comment Pid) < COMMENT_MAX_SIZE.
Proof.
  unfold pid_comment. rewrite strlen_append.
  change (strlen "PID=") with 4.
  pose proof (strlen_fmt_d Pid). unfold COMMENT_MAX_SIZE.
  assert (0 < strlen (fmt_d Pid)); [|lia].
  unfold fmt_d, strlen. destruct (_ <? 0).
  - change (String.length (String "-" ?s)) with (S (String.length s)).
    change (String.length (String "-" (digits 10 32 (- Word.s32 Pid))))
      with (S (String.length (digits 10 32 (- Word.s32 Pid)))). lia.
  - change 32%nat with (S 31). rewrite digits_S.
    destruct (_ <? 10); [simpl; lia|].
    rewrite length_append. simpl. lia.
Qed.

Lemma sprintf_metadata m name Pid :
  sprintf metadata_comment_format
    [ VaWord (uReceiveFlags m); VaStr name;
      VaWord (uChCenterFrequency m);
      VaWord (usNumberOfMPDUsReceived m);
      VaWord (lRSSI m); VaWord (ucDataRate m); VaWord Pid ]
  = metadata_comment m name Pid.
Proof.
  unfold metadata_comment. simpl. by rewrite append_nil_r.
Qed.

Lemma phy_type_name_length i name :
  DOT11_PHY_TYPE_NAMES !! i = Some name -> strlen name <= 10.
Proof.
  unfold DOT11_PHY_TYPE_NAMES. intros H.
  do 11 (destruct i as [|i]; [injection H as <-; vm_compute; discriminate|]).
  done.
Qed.

Lemma strlen_metadata_comment m i name Pid :
  DOT11_PHY_TYPE_NAMES !! i = Some name ->
  96 <= strlen (metadata_comment m name Pid) <= 166.
Proof.
  intros Hname. apply phy_type_name_length in Hname.
  unfold metadata_comment. rewrite !strlen_append.
  pose proof (strlen_fmt_x (uReceiveFlags m)).
  pose proof (strlen_fmt_u (uChCenterFrequency m)).
  pose proof (strlen_fmt_u (usNumberOfMPDUsReceived m)).
  pose proof (strlen_fmt_d (lRSSI m)).
  pose proof (strlen_fmt_u (ucDataRate m)).
  pose proof (strlen_fmt_d Pid).
  pose proof (strlen_nonneg (fmt_x (uReceiveFlags m))).
  pose proof (strlen_nonneg (fmt_u (uChCenterFrequency m))).
  pose proof (strlen_nonneg (fmt_u (usNumberOfMPDUsReceived m))).
  pose proof (strlen_nonneg (fmt_d (lRSSI m))).
  pose proof (strlen_nonneg (fmt_u (ucDataRate m))).
  pose proof (strlen_nonneg (fmt_d Pid)).
  pose proof (strlen_nonneg name).
  change (strlen "Packet Metadata: ReceiveFlags:0x") with 32.
  change (strlen ", PhyType:") with 10.
  change (strlen ", CenterCh:") with 11.
  change (strlen ", NumMPDUsReceived:") with 19.
  change (strlen ", RSSI:") with 7.
  change (strlen ", DataRate:") with 11.
  change (strlen ", PID=") with 6.
  lia.
Qed.

(** Neither call of [StringCchPrintfA] in [main.c] can fail, and the
    length taken afterwards is the length of the comment. *)
Lemma StringCchPrintfA_pid Pid :
  StringCchPrintfA COMMENT_MAX_SIZE "PID=%d" [VaWord Pid]
  = (S_OK, pid_comment Pid).
Proof.
  unfold StringCchPrintfA. rewrite sprintf_pid.
  pose proof (strlen_pid_comment Pid).
  destruct (Z.ltb_spec (strlen (pid_comment Pid)) COMMENT_MAX_SIZE);
    [done|lia].
Qed.

Lemma StringCchLengthA_pid Pid :
  StringCchLengthA (pid_comment Pid) COMMENT_MAX_SIZE
  = (S_OK, strlen (pid_comment Pid)).
Proof.
  unfold StringCchLengthA. pose proof (strlen_pid_comment Pid).
  destruct (Z.ltb_spec (strlen (pid_comment Pid)) COMMENT_MAX_SIZE);
    [done|lia].
Qed.

Lemma StringCchPrintfA_metadata m i name Pid :
  DOT11_PHY_TYPE_NAMES !! i = Some name ->
  StringCchPrintfA MAX_PACKET_SIZE metadata_comment_format
    [ VaWord (uReceiveFlags m); VaStr name;
      VaWord (uChCenterFrequency m);
      VaWord (usNumberOfMPDUsReceived m);
      VaWord (lRSSI m); VaWord (ucDataRate m); VaWord Pid ]
  = (S_OK, metadata_comment m name Pid).
Proof.
  intros Hname. unfold StringCchPrintfA. rewrite sprintf_metadata.
  pose proof (strlen_metadata_comment m i name Pid Hname).
  unfold MAX_PACKET_SIZE.
  destruct (Z.ltb_spec (strlen (metadata_comment m name Pid)) 65535);
    [done|lia].
Qed.

Lemma StringCchLengthA_metadata m i name Pid :
  DOT11_PHY_TYPE_NAMES !! i = Some name ->
  StringCchLengthA (metadata_comment m name Pid) MAX_PACKET_SIZE
  = (S_OK, strlen (metadata_comment m name Pid)).
Proof.
  intros Hname. unfold StringCchLengthA.
  pose proof (strlen_metadata_comment m i name Pid Hname).
  unfold MAX_PACKET_SIZE.
  destruct (Z.ltb_spec (strlen (metadata_comment m name Pid)) 65535);
    [done|lia].
Qed.

End PrintfFacts.

(** ** One event in pass 2 *)

Section pass2_step.

Implicit Types (st : State) (ev : EVENT_RECORD) (p : IFACE_PTR).

Lemma set_AuxFragBuf_same st : set_AuxFragBuf (AuxFragBuf st) st = st.
Proof. by destruct st. Qed.

(** The end of a frame: the call made on the writer and the state left
    behind, first without and then with pending metadata. *)
Lemma packet_end_plain ev p n st1 IfIndex :
  PcapNgIfIndex (load (InterfaceHashTable st1) p) = Some IfIndex ->
  AddMetadata st1 = false ->
  EventCallback_packet_end ev p n st1
  = Returns (after_packet (plain_packet ev st1 n IfIndex) ev st1).
Proof.
  intros Hidx Hmeta. unfold EventCallback_packet_end, after_packet,
    plain_packet, frame_buffer, IsSend_of.
  rewrite PrintfFacts.StringCchPrintfA_pid.
  change (Printf.SUCCEEDED Printf.S_OK) with true. cbv iota.
  rewrite PrintfFacts.StringCchLengthA_pid.
  change (Printf.FAILED Printf.S_OK) with false. cbv iota.
  pose proof (PrintfFacts.strlen_pid_comment (ProcessId ev)) as Hlen.
  destruct (Z.ltb_spec 0 (Printf.strlen (pid_comment (ProcessId ev))));
    [|lia].
  destruct (has_keyword (Keyword ev) KW_MEDIA_NATIVE_802_11); simpl.
  - by rewrite Hidx, Hmeta.
  - rewrite Hidx, Hmeta. by rewrite set_AuxFragBuf_same.
Qed.

Lemma packet_end_metadata ev p n st1 IfIndex name :
  PcapNgIfIndex (load (InterfaceHashTable st1) p) = Some IfIndex ->
  AddMetadata st1 = true ->
  DOT11_PHY_TYPE_NAMES !! Z.to_nat (uPhyId (PacketMetadata st1))
  = Some name ->
  EventCallback_packet_end ev p n st1
  = Returns (after_packet (metadata_packet ev st1 n IfIndex name) ev st1).
Proof.
  intros Hidx Hmeta Hname.
  pose proof (PrintfFacts.strlen_metadata_comment (PacketMetadata st1) _
                name (ProcessId ev) Hname) as Hlen.
  assert (forall st2,
    PacketMetadata st2 = PacketMetadata st1 ->
    CombineMetadataWithPacket (AuxFragBuf st2)
      (Word.u32 (AuxFragBufOffset st2 + n)) (Word.s32 IfIndex)
      (IsSend_of ev)
      (Word.s32 (HighPart (TimeStamp_QuadPart ev)))
      (Word.s32 (LowPart (TimeStamp_QuadPart ev)))
      (PacketMetadata st2) (ProcessId ev) st2
    = Returns (pcapng
        (PcapNgWriteEnhancedPacket (AuxFragBuf st2)
           (Word.u64 (sizeof_DOT11_EXTSTA_RECV_CONTEXT
                      + Word.u32 (AuxFragBufOffset st2 + n)))
           (Word.s32 IfIndex) (IsSend_of ev)
           (Word.s32 (HighPart (TimeStamp_QuadPart ev)))
           (Word.s32 (LowPart (TimeStamp_QuadPart ev)))
           (Some (metadata_comment (PacketMetadata st1) name (ProcessId ev)))
           (Word.u16 (Printf.strlen
              (metadata_comment (PacketMetadata st1) name (ProcessId ev)))))
        st2)) as Hcombine.
  { intros st2 Hm. unfold CombineMetadataWithPacket. rewrite Hm, Hname.
    rewrite (PrintfFacts.StringCchPrintfA_metadata _ _ _ _ Hname).
    change (Printf.FAILED Printf.S_OK) with false. cbv iota.
    rewrite (PrintfFacts.StringCchLengthA_metadata _ _ _ _ Hname).
    change (Printf.FAILED Printf.S_OK) with false. cbv iota.
    destruct (Z.ltb_spec 0 (Printf.strlen
      (metadata_comment (PacketMetadata st1) name (ProcessId ev))));
      [done|lia]. }
  unfold EventCallback_packet_end, after_packet, metadata_packet,
    frame_buffer. fold (IsSend_of ev).
  destruct (has_keyword (Keyword ev) KW_MEDIA_NATIVE_802_11).
  - cbn [InterfaceHashTable set_AuxFragBuf AddMetadata].
    rewrite Hidx, Hmeta, Hcombine by done. done.
  - rewrite Hidx, Hmeta, Hcombine by done.
    by rewrite set_AuxFragBuf_same.
Qed.

(** The end of a frame either hands one packet to the writer or stops
    on an undefined access. *)
Lemma packet_end_Returns ev p n st1 st' :
  EventCallback_packet_end ev p n st1 = Returns st' ->
  exists IfIndex call,
    PcapNgIfIndex (load (InterfaceHashTable st1) p) = Some IfIndex /\
    st' = after_packet call ev st1 /\
    match pending_metadata st1 with
    | None => call = plain_packet ev st1 n IfIndex
    | Some m =>
        exists name,
          DOT11_PHY_TYPE_NAMES !! Z.to_nat (uPhyId m) = Some name /\
          call = metadata_packet ev st1 n IfIndex name
    end.
Proof.
  intros Hret. unfold pending_metadata.
  destruct (PcapNgIfIndex (load (InterfaceHashTable st1) p))
    as [IfIndex|] eqn:Hidx.
  - exists IfIndex. destruct (AddMetadata st1) eqn:Hmeta.
    + destruct (DOT11_PHY_TYPE_NAMES !! Z.to_nat (uPhyId (PacketMetadata st1)))
        as [name|] eqn:Hname.
      * rewrite (packet_end_metadata _ _ _ _ _ _ Hidx Hmeta Hname) in Hret.
        injection Hret as <-.
        eexists. split; [done|]. split; [done|]. by exists name.
      * exfalso. revert Hret. unfold EventCallback_packet_end.
        destruct (has_keyword (Keyword ev) KW_MEDIA_NATIVE_802_11);
          cbn [InterfaceHashTable set_AuxFragBuf AddMetadata PacketMetadata];
          rewrite Hidx, Hmeta; unfold CombineMetadataWithPacket;
          cbn [InterfaceHashTable set_AuxFragBuf AddMetadata PacketMetadata];
          by rewrite Hname.
    + rewrite (packet_end_plain _ _ _ _ _ Hidx Hmeta) in Hret.
      injection Hret as <-.
      eexists. split; [done|]. by split.
  - exfalso. revert Hret. unfold EventCallback_packet_end.
    destruct (has_keyword (Keyword ev) KW_MEDIA_NATIVE_802_11);
      cbn [InterfaceHashTable set_AuxFragBuf]; by rewrite Hidx.
Qed.

(** Out of range phy ids stop the end of a frame. *)
Lemma packet_end_phy_out_of_bounds ev p n st1 IfIndex :
  PcapNgIfIndex (load (InterfaceHashTable st1) p) = Some IfIndex ->
  AddMetadata st1 = true ->
  DOT11_PHY_TYPE_NAMES !! Z.to_nat (uPhyId (PacketMetadata st1)) = None ->
  EventCallback_packet_end ev p n st1
  = Undefined (PhyTypeNameOutOfBounds (uPhyId (PacketMetadata st1)))
      (set_AuxFragBuf (frame_buffer ev st1) st1).
Proof.
  intros Hidx Hmeta Hname. unfold EventCallback_packet_end, frame_buffer.
  destruct (has_keyword (Keyword ev) KW_MEDIA_NATIVE_802_11);
    cbn [InterfaceHashTable set_AuxFragBuf AddMetadata PacketMetadata];
    rewrite Hidx, Hmeta; unfold CombineMetadataWithPacket;
    cbn [InterfaceHashTable set_AuxFragBuf AddMetadata PacketMetadata];
    rewrite Hname; [done|by rewrite set_AuxFragBuf_same].
Qed.

End pass2_step.

Section pass2_event.

Implicit Types (st : State) (ev : EVENT_RECORD) (p : IFACE_PTR).

Lemma IsEqualGUID_refl g : IsEqualGUID g g = true.
Proof.
  unfold IsEqualGUID. rewrite !Z.eqb_refl. simpl.
  by apply bool_decide_eq_true.
Qed.

Lemma u64_small z : 0 <= z < 2 ^ 64 -> Word.u64 z = z.
Proof. intros Hz. unfold Word.u64. by apply Z.mod_small. Qed.

Lemma u32_small z : 0 <= z < 2 ^ 32 -> Word.u32 z = z.
Proof. intros Hz. unfold Word.u32. by apply Z.mod_small. Qed.

(** The common prefix of [EventCallback] in pass 2. *)
Lemma EventCallback_relevant st ev L p :
  relevant_event st ev L p ->
  (Id ev = tidPacketFragment \/ Id ev = tidPacketMetadata \/
   Id ev = tidVMSwitchPacketFragment) ->
  EventCallback ev st =
  if Id ev =? tidPacketMetadata then EventCallback_metadata ev st
  else EventCallback_fragment ev p st.
Proof.
  intros [Hp2 Hprov HL Hget] Hid. unfold EventCallback.
  rewrite Hprov, IsEqualGUID_refl, HL, Hget, Hp2.
  assert ((negb (Id ev =? tidPacketFragment)
           && negb (Id ev =? tidPacketMetadata)
           && negb (Id ev =? tidVMSwitchPacketFragment)) = false) as ->.
  { destruct Hid as [-> | [-> | ->]]; reflexivity. }
  simpl. by destruct (Id ev =? tidPacketMetadata).
Qed.

(** A metadata event of the expected size fills the slot. *)
Lemma EventCallback_metadata_of st ev L p m :
  relevant_event st ev L p -> metadata_of ev m ->
  EventCallback ev st = Returns (set_AddMetadata true (set_PacketMetadata m st)).
Proof.
  intros Hrel [Hid Hsize Hdata].
  rewrite (EventCallback_relevant _ _ _ _ Hrel) by auto.
  rewrite Hid. change (tidPacketMetadata =? tidPacketMetadata) with true.
  cbv iota. unfold EventCallback_metadata.
  by rewrite Hsize, Z.eqb_refl, Hdata.
Qed.

(** A fragment that fits is copied into the buffer; the frame ends there
    or the fill offset advances. *)
Lemma EventCallback_fragment_of st ev L p bytes :
  relevant_event st ev L p -> fragment_of ev bytes ->
  0 <= AuxFragBufOffset st ->
  AuxFragBufOffset st + Z.of_nat (length bytes) <= MAX_PACKET_SIZE ->
  EventCallback ev st =
  if has_keyword (Keyword ev) KW_PACKET_END
  then EventCallback_packet_end ev p (Z.of_nat (length bytes))
         (with_fragment bytes st)
  else Returns (set_AuxFragBufOffset
                  (AuxFragBufOffset st + Z.of_nat (length bytes))
                  (with_fragment bytes st)).
Proof.
  intros Hrel [Hid Hsize Hdata] Hoff Hfit.
  rewrite (EventCallback_relevant _ _ _ _ Hrel) by tauto.
  assert (Id ev =? tidPacketMetadata = false) as ->
    by (destruct Hid as [-> | ->]; reflexivity).
  unfold EventCallback_fragment, MAX_PACKET_SIZE in *. rewrite Hsize.
  rewrite u64_small by lia.
  destruct (Z.ltb_spec (65535 - AuxFragBufOffset st)
                       (Z.of_nat (length bytes))); [lia|].
  unfold TdhGetProperty_bytes. rewrite Hdata, Z.ltb_irrefl.
  fold (with_fragment bytes st).
  destruct (has_keyword (Keyword ev) KW_PACKET_END); [done|].
  cbn [AuxFragBufOffset with_fragment set_AuxFragBuf].
  by rewrite u32_small by lia.
Qed.

(** A fragment that does not fit is reported and skipped: nothing but
    the console changes. *)
Lemma EventCallback_fragment_too_large st ev L p bytes :
  relevant_event st ev L p -> fragment_of ev bytes ->
  0 <= AuxFragBufOffset st <= MAX_PACKET_SIZE ->
  MAX_PACKET_SIZE < AuxFragBufOffset st + Z.of_nat (length bytes) ->
  EventCallback ev st =
  Returns (printf (MsgPacketTooLarge
                     (Word.u32 (AuxFragBufOffset st
                                + Z.of_nat (length bytes)))) st).
Proof.
  intros Hrel [Hid Hsize Hdata] Hoff Hbig.
  rewrite (EventCallback_relevant _ _ _ _ Hrel) by tauto.
  assert (Id ev =? tidPacketMetadata = false) as ->
    by (destruct Hid as [-> | ->]; reflexivity).
  unfold EventCallback_fragment, MAX_PACKET_SIZE in *. rewrite Hsize.
  rewrite u64_small by lia.
  destruct (Z.ltb_spec (65535 - AuxFragBufOffset st)
                       (Z.of_nat (length bytes))); [done|lia].
Qed.

(** Whenever [EventCallback] hands something to the writer, it is at the
    end of a frame whose last fragment it has just copied. *)
Lemma EventCallback_emission ev st st' :
  EventCallback ev st = Returns st' -> OutFile st' <> OutFile st ->
  exists L p n bytes,
    Pass2 st = true /\
    prop_LowerIfIndex ev = TdhData L /\
    GetInterface (InterfaceHashTable st) L = Some p /\
    prop_FragmentSize ev = TdhData n /\
    n <= Word.u64 (MAX_PACKET_SIZE - AuxFragBufOffset st) /\
    prop_Fragment ev = TdhData bytes /\
    Z.of_nat (length bytes) <= n /\
    has_keyword (Keyword ev) KW_PACKET_END = true /\
    EventCallback_packet_end ev p n (with_fragment bytes st) = Returns st'.
Proof.
  unfold EventCallback.
  destruct (_ || _); [by intros [= <-] []|].
  destruct (prop_LowerIfIndex ev) as [Err|L] eqn:HL; [by intros [= <-] []|].
  destruct (Pass2 st) eqn:Hp2; simpl.
  2:{ unfold EventCallback_pass1.
      destruct (GetInterface _ _).
      - destruct (negb _); by intros [= <-] [].
      - destruct (prop_MiniportIfIndex ev); by intros [= <-] []. }
  destruct (GetInterface (InterfaceHashTable st) L) as [p|] eqn:Hget;
    [|done].
  assert (forall st', EventCallback_metadata ev st = Returns st' ->
            OutFile st' <> OutFile st -> False) as Hmeta.
  { intros st0. unfold EventCallback_metadata.
    destruct (prop_MetadataSize ev); [by intros [= <-] []|].
    destruct (negb _); [by intros [= <-] []|].
    destruct (prop_Metadata ev); by intros [= <-] []. }
  destruct (Id ev =? tidPacketMetadata);
    [intros H1 H2; by destruct (Hmeta _ H1 H2)|].
  unfold EventCallback_fragment.
  destruct (prop_FragmentSize ev) as [Err|n] eqn:Hn; [by intros [= <-] []|].
  destruct (Z.ltb_spec (Word.u64 (MAX_PACKET_SIZE - AuxFragBufOffset st)) n);
    [by intros [= <-] []|].
  unfold TdhGetProperty_bytes.
  destruct (prop_Fragment ev) as [Err|bytes] eqn:Hbytes;
    [by intros [= <-] []|].
  destruct (Z.ltb_spec n (Z.of_nat (length bytes)));
    [by intros [= <-] []|].
  fold (with_fragment bytes st).
  destruct (has_keyword (Keyword ev) KW_PACKET_END) eqn:Hend;
    [|by intros [= <-] []].
  intros Hret _. exists L, p, n, bytes. tauto.
Qed.

End pass2_event.

Section emission.

Implicit Types (st : State) (ev : EVENT_RECORD) (p : IFACE_PTR).

Lemma OutFile_after_packet call ev st1 :
  OutFile (after_packet call ev st1) = OutFile st1 ++ [call].
Proof. reflexivity. Qed.

Lemma after_packet_emits call ev bytes st :
  OutFile (after_packet call ev (with_fragment bytes st)) <> OutFile st.
Proof.
  change (OutFile st ++ [call] <> OutFile st).
  intros H. apply (f_equal length) in H.
  rewrite length_app in H. simpl in H. lia.
Qed.

Lemma OutFile_after_packet_with_fragment call ev bytes st :
  OutFile (after_packet call ev (with_fragment bytes st))
  = OutFile st ++ [call].
Proof. reflexivity. Qed.

Lemma pending_after_packet call ev st1 :
  pending_metadata (after_packet call ev st1) = None.
Proof. reflexivity. Qed.

(** Every hand-over to the writer, with everything the callback read on
    the way. *)
Lemma EventCallback_emitted ev st st' :
  EventCallback ev st = Returns st' -> OutFile st' <> OutFile st ->
  exists L p n bytes IfIndex call,
    Pass2 st = true /\
    prop_LowerIfIndex ev = TdhData L /\
    GetInterface (InterfaceHashTable st) L = Some p /\
    PcapNgIfIndex (load (InterfaceHashTable st) p) = Some IfIndex /\
    prop_FragmentSize ev = TdhData n /\
    n <= Word.u64 (MAX_PACKET_SIZE - AuxFragBufOffset st) /\
    prop_Fragment ev = TdhData bytes /\
    Z.of_nat (length bytes) <= n /\
    has_keyword (Keyword ev) KW_PACKET_END = true /\
    st' = after_packet call ev (with_fragment bytes st) /\
    match pending_metadata st with
    | None => call = plain_packet ev (with_fragment bytes st) n IfIndex
    | Some m =>
        exists name,
          DOT11_PHY_TYPE_NAMES !! Z.to_nat (uPhyId m) = Some name /\
          call = metadata_packet ev (with_fragment bytes st) n IfIndex name
    end.
Proof.
  intros Hret Hout.
  destruct (EventCallback_emission _ _ _ Hret Hout)
    as (L & p & n & bytes & H1 & H2 & H3 & H4 & H5 & H6 & H7 & H8 & Hend).
  destruct (packet_end_Returns _ _ _ _ _ Hend)
    as (IfIndex & call & Hidx & -> & Hcall).
  exists L, p, n, bytes, IfIndex, call.
  repeat (split; [done|]). exact Hcall.
Qed.

End emission.

(** ** The protected flag *)

Section protected_flag.

Lemma mask_0xBF_bits k :
  0 <= k < 8 -> k <> 6 -> Z.testbit 0xBF k = true.
Proof.
  intros Hk Hne.
  assert (k = 0 \/ k = 1 \/ k = 2 \/ k = 3 \/ k = 4 \/ k = 5 \/ k = 7)
    as Hcases by lia.
  destruct Hcases as [-> | [-> | [-> | [-> | [-> | [-> | ->]]]]]];
    reflexivity.
Qed.

Lemma land_0x40_zero b : Z.land b 0x40 = 0 -> Z.testbit b 6 = false.
Proof.
  intros Hz. apply (f_equal (fun z => Z.testbit z 6)) in Hz.
  rewrite Z.land_spec in Hz.
  change (Z.testbit 64 6) with true in Hz.
  change (Z.testbit 0 6) with false in Hz.
  by rewrite andb_true_r in Hz.
Qed.

Lemma cleared_bit6 b : Z.testbit (cleared b) 6 = false.
Proof.
  unfold cleared.
  destruct (Z.eqb_spec (Z.land b 0x40) 0) as [Hz|Hnz]; cbn [negb].
  - by apply land_0x40_zero.
  - rewrite Z.land_spec. change (Z.testbit 191 6) with false.
    by rewrite andb_false_r.
Qed.

Lemma cleared_other_bits b k :
  0 <= k < 8 -> k <> 6 -> Z.testbit (cleared b) k = Z.testbit b k.
Proof.
  intros Hk Hne. unfold cleared.
  destruct (negb _); [|done].
  by rewrite Z.land_spec, mask_0xBF_bits, andb_true_r.
Qed.

Lemma cleared_byte b : 0 <= b < 2 ^ 8 -> cleared b = Z.land b 0xBF.
Proof.
  intros Hb. unfold cleared.
  destruct (Z.eqb_spec (Z.land b 0x40) 0) as [Hz|Hnz]; cbn [negb]; [|done].
  apply Z.bits_inj'. intros k Hk. rewrite Z.land_spec.
  destruct (Z.eq_dec k 6) as [->|Hne].
  - by rewrite (land_0x40_zero _ Hz).
  - destruct (Z.lt_ge_cases k 8) as [Hlt|Hge].
    + by rewrite mask_0xBF_bits, andb_true_r by lia.
    + rewrite <- (Z.mod_small b (2 ^ 8)) by lia.
      by rewrite Z.mod_pow2_bits_high by lia.
Qed.

Lemma clear_protected_flag_1 buf b :
  buf !! 1%nat = Some b ->
  clear_protected_flag buf !! 1%nat = Some (cleared b).
Proof.
  intros Hb. unfold clear_protected_flag, cleared. rewrite Hb.
  destruct (negb _); [|done].
  apply list_lookup_insert_eq. by eapply lookup_lt_Some.
Qed.

Lemma clear_protected_flag_other buf i :
  i <> 1%nat -> clear_protected_flag buf !! i = buf !! i.
Proof.
  intros Hi. unfold clear_protected_flag.
  destruct (buf !! 1%nat); [|done].
  destruct (negb _); [|done].
  by rewrite list_lookup_insert_ne.
Qed.

Lemma length_clear_protected_flag buf :
  length (clear_protected_flag buf) = length buf.
Proof.
  unfold clear_protected_flag.
  destruct (buf !! 1%nat); [|done].
  destruct (negb _); [|done]. apply length_insert.
Qed.

(** Clearing the flag commutes with cutting the buffer to the length
    handed to the writer. *)
Lemma take_clear_protected_flag k buf :
  take k (clear_protected_flag buf) = clear_protected_flag (take k buf).
Proof.
  apply list_eq. intros i.
  destruct (decide (i = 1%nat)) as [->|Hi].
  - destruct (decide (1 < k)%nat) as [Hk|Hk].
    + rewrite lookup_take_lt by done.
      destruct (buf !! 1%nat) as [b|] eqn:Hb.
      * rewrite (clear_protected_flag_1 _ _ Hb).
        symmetry. apply clear_protected_flag_1.
        by rewrite lookup_take_lt.
      * unfold clear_protected_flag at 1. rewrite Hb.
        unfold clear_protected_flag. rewrite lookup_take_lt by done.
        by rewrite Hb, lookup_take_lt.
    + rewrite lookup_take_ge by lia.
      unfold clear_protected_flag. rewrite !lookup_take_ge by lia. done.
  - rewrite clear_protected_flag_other by done.
    destruct (decide (i < k)%nat).
    + rewrite !lookup_take_lt by done.
      by apply clear_protected_flag_other.
    + by rewrite !lookup_take_ge by lia.
Qed.

End protected_flag.

(** ** Frames that end: what the writer receives *)

Section frame_end.

Implicit Types (st : State) (ev : EVENT_RECORD) (p : IFACE_PTR).

Lemma app_singleton_ne {A} (l : list A) x : l ++ [x] <> l.
Proof.
  intros H. apply (f_equal length) in H.
  rewrite length_app in H. simpl in H. lia.
Qed.

(** A last fragment that fits, on a numbered interface, with the
    metadata slot empty. *)
Lemma EventCallback_frame_end_plain st ev L p bytes IfIndex :
  relevant_event st ev L p -> fragment_of ev bytes ->
  has_keyword (Keyword ev) KW_PACKET_END = true ->
  0 <= AuxFragBufOffset st ->
  AuxFragBufOffset st + Z.of_nat (length bytes) <= MAX_PACKET_SIZE ->
  PcapNgIfIndex (load (InterfaceHashTable st) p) = Some IfIndex ->
  AddMetadata st = false ->
  EventCallback ev st =
  Returns (after_packet
             (plain_packet ev (with_fragment bytes st)
                (Z.of_nat (length bytes)) IfIndex)
             ev (with_fragment bytes st)).
Proof.
  intros Hrel Hfrag Hend Hoff Hfit Hidx Hmeta.
  rewrite (EventCallback_fragment_of _ _ _ _ _ Hrel Hfrag Hoff Hfit), Hend.
  by apply packet_end_plain.
Qed.

(** The same with a metadata record pending whose phy id is in the
    table. *)
Lemma EventCallback_frame_end_metadata st ev L p bytes IfIndex name :
  relevant_event st ev L p -> fragment_of ev bytes ->
  has_keyword (Keyword ev) KW_PACKET_END = true ->
  0 <= AuxFragBufOffset st ->
  AuxFragBufOffset st + Z.of_nat (length bytes) <= MAX_PACKET_SIZE ->
  PcapNgIfIndex (load (InterfaceHashTable st) p) = Some IfIndex ->
  AddMetadata st = true ->
  DOT11_PHY_TYPE_NAMES !! Z.to_nat (uPhyId (PacketMetadata st)) = Some name ->
  EventCallback ev st =
  Returns (after_packet
             (metadata_packet ev (with_fragment bytes st)
                (Z.of_nat (length bytes)) IfIndex name)
             ev (with_fragment bytes st)).
Proof.
  intros Hrel Hfrag Hend Hoff Hfit Hidx Hmeta Hname.
  rewrite (EventCallback_fragment_of _ _ _ _ _ Hrel Hfrag Hoff Hfit), Hend.
  by apply packet_end_metadata.
Qed.

(** And with a pending record whose phy id is outside the table. *)
Lemma EventCallback_frame_end_out_of_bounds st ev L p bytes IfIndex :
  relevant_event st ev L p -> fragment_of ev bytes ->
  has_keyword (Keyword ev) KW_PACKET_END = true ->
  0 <= AuxFragBufOffset st ->
  AuxFragBufOffset st + Z.of_nat (length bytes) <= MAX_PACKET_SIZE ->
  PcapNgIfIndex (load (InterfaceHashTable st) p) = Some IfIndex ->
  AddMetadata st = true ->
  DOT11_PHY_TYPE_NAMES !! Z.to_nat (uPhyId (PacketMetadata st)) = None ->
  EventCallback ev st =
  Undefined (PhyTypeNameOutOfBounds (uPhyId (PacketMetadata st)))
    (set_AuxFragBuf (frame_buffer ev (with_fragment bytes st))
       (with_fragment bytes st)).
Proof.
  intros Hrel Hfrag Hend Hoff Hfit Hidx Hmeta Hname.
  rewrite (EventCallback_fragment_of _ _ _ _ _ Hrel Hfrag Hoff Hfit), Hend.
  by apply (packet_end_phy_out_of_bounds ev p _ (with_fragment bytes st)
              IfIndex).
Qed.

End frame_end.

(** ** The scenario in pass 2 *)

Section scenario.

Lemma scenario_pass2_relevant_5 :
  relevant_event scenario_pass2 wifi_frame 5 (5%nat, 0%nat).
Proof. by split. Qed.

Lemma scenario_pass2_relevant_7 :
  relevant_event scenario_pass2 ethernet_frame 7 (7%nat, 0%nat).
Proof. by split. Qed.

Lemma scenario_pass2_index_5 :
  PcapNgIfIndex (load (InterfaceHashTable scenario_pass2) (5%nat, 0%nat))
  = Some 1.
Proof. reflexivity. Qed.

Lemma scenario_pass2_index_7 :
  PcapNgIfIndex (load (InterfaceHashTable scenario_pass2) (7%nat, 0%nat))
  = Some 2.
Proof. reflexivity. Qed.

Lemma scenario_pass2_buffer :
  AuxFragBuf scenario_pass2 = replicate (Z.to_nat MAX_PACKET_SIZE) 0 /\
  AuxFragBufOffset scenario_pass2 = 0 /\
  AddMetadata scenario_pass2 = false.
Proof. by repeat split. Qed.

Lemma scenario_pass2_buffer_ok : buffer_ok scenario_pass2.
Proof.
  destruct scenario_pass2_buffer as (Hbuf & Hoff & _). split.
  - rewrite Hbuf. apply length_replicate.
  - rewrite Hoff. unfold MAX_PACKET_SIZE. lia.
Qed.

Lemma wifi_frame_fragment : fragment_of wifi_frame [0x08; 0xC0; 0x01; 0x02].
Proof. split; [by left|done..]. Qed.

Lemma ethernet_frame_fragment :
  fragment_of ethernet_frame [0x08; 0xC0; 0x01; 0x02].
Proof. split; [by left|done..]. Qed.

(** The 802.11 frame of the scenario, handed to the writer. *)
Lemma scenario_wifi_frame :
  EventCallback wifi_frame scenario_pass2 =
  Returns (after_packet
             (plain_packet wifi_frame
                (with_fragment [0x08; 0xC0; 0x01; 0x02] scenario_pass2) 4 1)
             wifi_frame
             (with_fragment [0x08; 0xC0; 0x01; 0x02] scenario_pass2)).
Proof.
  destruct scenario_pass2_buffer as (_ & Hoff & Hmeta).
  apply (EventCallback_frame_end_plain _ _ 5 (5%nat, 0%nat)).
  - apply scenario_pass2_relevant_5.
  - apply wifi_frame_fragment.
  - reflexivity.
  - by rewrite Hoff.
  - rewrite Hoff. unfold MAX_PACKET_SIZE. simpl. lia.
  - apply scenario_pass2_index_5.
  - exact Hmeta.
Qed.

Lemma scenario_ethernet_frame :
  EventCallback ethernet_frame scenario_pass2 =
  Returns (after_packet
             (plain_packet ethernet_frame
                (with_fragment [0x08; 0xC0; 0x01; 0x02] scenario_pass2) 4 2)
             ethernet_frame
             (with_fragment [0x08; 0xC0; 0x01; 0x02] scenario_pass2)).
Proof.
  destruct scenario_pass2_buffer as (_ & Hoff & Hmeta).
  apply (EventCallback_frame_end_plain _ _ 7 (7%nat, 0%nat)).
  - apply scenario_pass2_relevant_7.
  - apply ethernet_frame_fragment.
  - reflexivity.
  - by rewrite Hoff.
  - rewrite Hoff. unfold MAX_PACKET_SIZE. simpl. lia.
  - apply scenario_pass2_index_7.
  - exact Hmeta.
Qed.

End scenario.

(** The 802.11 frame of the scenario with a metadata record pending. *)
Lemma scenario_wifi_frame_pending :
  EventCallback wifi_frame (scenario_pending 7) =
  Returns (after_packet
             (metadata_packet wifi_frame
                (with_fragment [0x08; 0xC0; 0x01; 0x02] (scenario_pending 7))
                4 1 "802.11n")
             wifi_frame
             (with_fragment [0x08; 0xC0; 0x01; 0x02] (scenario_pending 7))).
Proof.
  apply (EventCallback_frame_end_metadata _ _ 5 (5%nat, 0%nat)
           [0x08; 0xC0; 0x01; 0x02]).
  - by split.
  - apply wifi_frame_fragment.
  - reflexivity.
  - done.
  - discriminate.
  - reflexivity.
  - reflexivity.
  - reflexivity.
Qed.

(** ** The declared length of a packet *)

(** C9.  At every end of frame, with the fill offset inside the buffer,
    the length handed to the writer is the number of bytes accumulated for
    the frame (the fill offset plus the size of the last fragment) when no
    metadata is pending, and that number plus
    [sizeof (DOT11_EXTSTA_RECV_CONTEXT)] when a metadata record is pending:
    the declared length then exceeds the accumulated bytes by the size of
    the metadata structure. *)
Theorem C9_declared_length (ev : EVENT_RECORD) (st st' : State) :
  0 <= AuxFragBufOffset st <= MAX_PACKET_SIZE ->
  EventCallback ev st = Returns st' -> OutFile st' <> OutFile st ->
  exists call n,
    OutFile st' = OutFile st ++ [call] /\
    prop_FragmentSize ev = TdhData n /\
    packet_FragLength call =
      if AddMetadata st
      then AuxFragBufOffset st + n + sizeof_DOT11_EXTSTA_RECV_CONTEXT
      else AuxFragBufOffset st + n.
Proof.
  intros Hoff Hret Hout.
  destruct (EventCallback_emitted _ _ _ Hret Hout)
    as (L & p & n & bytes & IfIndex & call & _ & _ & _ & _ & Hn & Hfit
        & _ & Hlen & _ & -> & Hcall).
  exists call, n. split; [done|]. split; [done|].
  unfold MAX_PACKET_SIZE in *. rewrite u64_small in Hfit by lia.
  unfold pending_metadata in Hcall.
  destruct (AddMetadata st).
  - destruct Hcall as (name & _ & ->).
    cbn [packet_FragLength metadata_packet with_fragment AuxFragBufOffset
         set_AuxFragBuf].
    rewrite (u32_small (AuxFragBufOffset st + n)) by lia.
    rewrite u64_small; unfold sizeof_DOT11_EXTSTA_RECV_CONTEXT; lia.
  - subst call.
    cbn [packet_FragLength plain_packet with_fragment AuxFragBufOffset
         set_AuxFragBuf].
    by rewrite u32_small by lia.
Qed.

Lemma C9_declared_length_witness :
  0 <= AuxFragBufOffset (scenario_pending 7) <= MAX_PACKET_SIZE /\
  exists st',
    EventCallback wifi_frame (scenario_pending 7) = Returns st' /\
    OutFile st' <> OutFile (scenario_pending 7) /\
    exists call n,
      OutFile st' = OutFile (scenario_pending 7) ++ [call] /\
      prop_FragmentSize wifi_frame = TdhData n /\
      packet_FragLength call =
        if AddMetadata (scenario_pending 7)
        then AuxFragBufOffset (scenario_pending 7) + n
             + sizeof_DOT11_EXTSTA_RECV_CONTEXT
        else AuxFragBufOffset (scenario_pending 7) + n.
Proof.
  assert (0 <= AuxFragBufOffset (scenario_pending 7) <= MAX_PACKET_SIZE)
    as Hoff by (split; discriminate).
  split; [exact Hoff|].
  eexists. split; [apply scenario_wifi_frame_pending|].
  split; [apply after_packet_emits|].
  exact (C9_declared_length wifi_frame (scenario_pending 7) _ Hoff
           scenario_wifi_frame_pending (after_packet_emits _ _ _ _)).
Defined.

(** ** Timestamps *)

Section timestamps.

Lemma u64_range z : 0 <= Word.u64 z < 2 ^ 64.
Proof. unfold Word.u64. apply Z.mod_pos_bound. lia. Qed.

Lemma s64_small z : - 2 ^ 63 <= z < 2 ^ 63 -> Word.s64 z = z.
Proof.
  intros Hz. unfold Word.s64, Word.u64.
  destruct (Z.lt_ge_cases z 0) as [Hneg|Hpos].
  - replace (z mod 2 ^ 64) with (z + 2 ^ 64).
    + destruct (Z.ltb_spec (z + 2 ^ 64) (2 ^ 63)); lia.
    + apply (Z.mod_unique _ _ (-1)); lia.
  - rewrite Z.mod_small by lia.
    destruct (Z.ltb_spec z (2 ^ 63)); lia.
Qed.

Lemma s64_u64 z : Word.s64 (Word.u64 z) = Word.s64 z.
Proof. unfold Word.s64, Word.u64. by rewrite Z.mod_mod. Qed.

Lemma u32_s32 z : Word.u32 (Word.s32 z) = Word.u32 z.
Proof.
  unfold Word.s32. pose proof (PrintfFacts.u32_range z) as Hr.
  destruct (Z.ltb_spec (Word.u32 z) (2 ^ 31)).
  - unfold Word.u32. by rewrite Z.mod_mod.
  - unfold Word.u32 in *.
    rewrite <- (Z.mod_add _ 1) by lia.
    replace (z mod 2 ^ 32 - 2 ^ 32 + 1 * 2 ^ 32) with (z mod 2 ^ 32) by lia.
    by rewrite Z.mod_mod.
Qed.

Lemma HighPart_div q : HighPart q = q / 2 ^ 32.
Proof. unfold HighPart. by rewrite Z.shiftr_div_pow2. Qed.

Lemma LowPart_mod q : LowPart q = q mod 2 ^ 32.
Proof. unfold LowPart. apply (Z.land_ones q 32). lia. Qed.

Lemma TimeStamp_QuadPart_range ev :
  0 <= TimeStamp_QuadPart ev < 2 ^ 64.
Proof. apply u64_range. Qed.

(** The conversion does not overflow: read as a signed 64-bit number,
    the converted timestamp is the tick count divided by 10 minus the
    1601-to-1970 offset. *)
Lemma TimeStamp_QuadPart_signed ev :
  Word.is_s64 (TimeStamp ev) ->
  Word.s64 (TimeStamp_QuadPart ev)
  = TimeStamp ev ÷ 10 - 11644473600000000.
Proof.
  unfold Word.is_s64. intros Ht. unfold TimeStamp_QuadPart.
  rewrite s64_u64.
  assert (- 2 ^ 63 <= TimeStamp ev ÷ 10 - 11644473600000000 < 2 ^ 63)
    as Hrange.
  { destruct (Z.lt_ge_cases (TimeStamp ev) 0) as [Hneg|Hpos].
    - assert (exists u, TimeStamp ev = - u /\ 0 < u <= 2 ^ 63)
        as (u & -> & Hu) by (exists (- TimeStamp ev); lia).
      rewrite Z.quot_opp_l by lia.
      rewrite Z.quot_div_nonneg by lia.
      assert (0 <= u / 10 <= 922337203685477581); [|lia].
      split; [apply Z.div_pos; lia|].
      apply Z.div_le_upper_bound; lia.
    - rewrite Z.quot_div_nonneg by lia.
      assert (0 <= TimeStamp ev / 10 <= 922337203685477581); [|lia].
      split; [apply Z.div_pos; lia|].
      apply Z.div_le_upper_bound; lia. }
  rewrite (s64_small (TimeStamp ev ÷ 10 - 11644473600000000)) by done.
  by apply s64_small.
Qed.

Lemma TimeStamp_QuadPart_after_1970 ev :
  Word.is_s64 (TimeStamp ev) -> 116444736000000000 <= TimeStamp ev ->
  TimeStamp_QuadPart ev = TimeStamp ev / 10 - 11644473600000000.
Proof.
  unfold Word.is_s64. intros Ht Hafter.
  assert (11644473600000000 <= TimeStamp ev / 10)
    by (apply Z.div_le_lower_bound; lia).
  assert (TimeStamp ev / 10 <= 922337203685477581)
    by (apply Z.div_le_upper_bound; lia).
  unfold TimeStamp_QuadPart.
  rewrite Z.quot_div_nonneg by lia.
  rewrite s64_small by lia. apply u64_small. lia.
Qed.

(** The two words handed to the writer, read as unsigned 32-bit words,
    are the upper and the lower half of the converted timestamp. *)
Lemma emitted_timestamp_words ev st call :
  match pending_metadata st with
  | None => exists n IfIndex, call = plain_packet ev st n IfIndex
  | Some m => exists n IfIndex name,
                call = metadata_packet ev st n IfIndex name
  end ->
  Word.u32 (packet_TimeStampHigh call) = TimeStamp_QuadPart ev / 2 ^ 32 /\
  Word.u32 (packet_TimeStampLow call) = TimeStamp_QuadPart ev mod 2 ^ 32.
Proof.
  pose proof (TimeStamp_QuadPart_range ev) as Hr.
  assert (0 <= TimeStamp_QuadPart ev / 2 ^ 32 < 2 ^ 32) as Hhi.
  { split; [apply Z.div_pos; lia|].
    apply Z.div_lt_upper_bound; lia. }
  pose proof (Z.mod_pos_bound (TimeStamp_QuadPart ev) (2 ^ 32)
                ltac:(lia)) as Hlo.
  destruct (pending_metadata st).
  - intros (n & IfIndex & name & ->).
    cbn [packet_TimeStampHigh packet_TimeStampLow metadata_packet].
    rewrite !u32_s32, HighPart_div, LowPart_mod.
    by rewrite !u32_small by lia.
  - intros (n & IfIndex & ->).
    cbn [packet_TimeStampHigh packet_TimeStampLow plain_packet].
    rewrite HighPart_div, LowPart_mod.
    by rewrite !u32_small by lia.
Qed.

End timestamps.

Lemma EventCallback_emitted_words (ev : EVENT_RECORD) (st st' : State) :
  EventCallback ev st = Returns st' -> OutFile st' <> OutFile st ->
  exists call,
    OutFile st' = OutFile st ++ [call] /\
    Word.u32 (packet_TimeStampHigh call) = TimeStamp_QuadPart ev / 2 ^ 32 /\
    Word.u32 (packet_TimeStampLow call) = TimeStamp_QuadPart ev mod 2 ^ 32 /\
    (AddMetadata st = false ->
     packet_TimeStampHigh call = TimeStamp_QuadPart ev / 2 ^ 32 /\
     packet_TimeStampLow call = TimeStamp_QuadPart ev mod 2 ^ 32).
Proof.
  intros Hret Hout.
  destruct (EventCallback_emitted _ _ _ Hret Hout)
    as (L & p & n & bytes & IfIndex & call & _ & _ & _ & _ & _ & _
        & _ & _ & _ & -> & Hcall).
  exists call. split; [done|].
  destruct (emitted_timestamp_words ev (with_fragment bytes st) call)
    as [Hhi Hlo].
  { change (pending_metadata (with_fragment bytes st))
      with (pending_metadata st).
    destruct (pending_metadata st).
    - destruct Hcall as (name & _ & ->). by exists n, IfIndex, name.
    - by exists n, IfIndex. }
  split; [done|]. split; [done|].
  intros Hmeta. unfold pending_metadata in Hcall. rewrite Hmeta in Hcall.
  subst call. cbn [packet_TimeStampHigh packet_TimeStampLow plain_packet].
  by rewrite HighPart_div, LowPart_mod.
Qed.

(** C7.  For every packet handed to the writer, the 64-bit timestamp made
    of its two timestamp words is the converted timestamp of the event:
    read as a signed 64-bit number it is the tick count divided by 10 (the
    division of C) minus 11644473600000000; for tick counts from the start
    of 1970 on it is [ticks / 10 - 11644473600000000] itself, and the
    tick count 116444736000000000 gives 0. *)
Theorem C7_timestamp_conversion (ev : EVENT_RECORD) (st st' : State) :
  Word.is_s64 (TimeStamp ev) ->
  EventCallback ev st = Returns st' -> OutFile st' <> OutFile st ->
  exists call,
    OutFile st' = OutFile st ++ [call] /\
    let usec := Word.u32 (packet_TimeStampHigh call) * 2 ^ 32
                + Word.u32 (packet_TimeStampLow call) in
    usec = TimeStamp_QuadPart ev /\
    Word.s64 usec = TimeStamp ev ÷ 10 - 11644473600000000 /\
    (116444736000000000 <= TimeStamp ev ->
     usec = TimeStamp ev / 10 - 11644473600000000) /\
    (TimeStamp ev = 116444736000000000 -> usec = 0).
Proof.
  intros Ht Hret Hout.
  destruct (EventCallback_emitted_words _ _ _ Hret Hout)
    as (call & Hcall & Hhi & Hlo & _).
  exists call. split; [done|]. cbv zeta.
  assert (Word.u32 (packet_TimeStampHigh call) * 2 ^ 32
          + Word.u32 (packet_TimeStampLow call) = TimeStamp_QuadPart ev)
    as ->.
  { rewrite Hhi, Hlo.
    pose proof (Z.div_mod (TimeStamp_QuadPart ev) (2 ^ 32)). lia. }
  split; [done|]. split; [by apply TimeStamp_QuadPart_signed|].
  split.
  - by apply TimeStamp_QuadPart_after_1970.
  - intros Heq. rewrite TimeStamp_QuadPart_after_1970 by (rewrite ?Heq; done).
    by rewrite Heq.
Qed.

Lemma C7_timestamp_conversion_witness :
  Word.is_s64 (TimeStamp wifi_frame) /\
  exists st',
    EventCallback wifi_frame scenario_pass2 = Returns st' /\
    OutFile st' <> OutFile scenario_pass2 /\
    exists call,
      OutFile st' = OutFile scenario_pass2 ++ [call] /\
      let usec := Word.u32 (packet_TimeStampHigh call) * 2 ^ 32
                  + Word.u32 (packet_TimeStampLow call) in
      usec = TimeStamp_QuadPart wifi_frame /\
      Word.s64 usec = TimeStamp wifi_frame ÷ 10 - 11644473600000000 /\
      (116444736000000000 <= TimeStamp wifi_frame ->
       usec = TimeStamp wifi_frame / 10 - 11644473600000000) /\
      (TimeStamp wifi_frame = 116444736000000000 -> usec = 0).
Proof.
  assert (Word.is_s64 (TimeStamp wifi_frame)) as Ht
    by (split; [discriminate|reflexivity]).
  split; [exact Ht|].
  eexists. split; [apply scenario_wifi_frame|].
  split; [apply after_packet_emits|].
  exact (C7_timestamp_conversion wifi_frame scenario_pass2 _ Ht
           scenario_wifi_frame (after_packet_emits _ _ _ _)).
Defined.

(** C8 (as amended).  For every packet handed to the writer, the two
    timestamp words are the upper and the lower 32 bits of the converted
    timestamp in microseconds: read as unsigned 32-bit words they are
    [usec / 2 ^ 32] and [usec mod 2 ^ 32]; without pending metadata they
    are passed as exactly these values. *)
Theorem C8_timestamp_words (ev : EVENT_RECORD) (st st' : State) :
  EventCallback ev st = Returns st' -> OutFile st' <> OutFile st ->
  exists call,
    OutFile st' = OutFile st ++ [call] /\
    Word.u32 (packet_TimeStampHigh call) = TimeStamp_QuadPart ev / 2 ^ 32 /\
    Word.u32 (packet_TimeStampLow call) = TimeStamp_QuadPart ev mod 2 ^ 32 /\
    (AddMetadata st = false ->
     packet_TimeStampHigh call = TimeStamp_QuadPart ev / 2 ^ 32 /\
     packet_TimeStampLow call = TimeStamp_QuadPart ev mod 2 ^ 32).
Proof. apply EventCallback_emitted_words. Qed.

Lemma C8_timestamp_words_witness :
  exists st',
    EventCallback wifi_frame scenario_pass2 = Returns st' /\
    OutFile st' <> OutFile scenario_pass2 /\
    exists call,
      OutFile st' = OutFile scenario_pass2 ++ [call] /\
      Word.u32 (packet_TimeStampHigh call)
      = TimeStamp_QuadPart wifi_frame / 2 ^ 32 /\
      Word.u32 (packet_TimeStampLow call)
      = TimeStamp_QuadPart wifi_frame mod 2 ^ 32 /\
      (AddMetadata scenario_pass2 = false ->
       packet_TimeStampHigh call = TimeStamp_QuadPart wifi_frame / 2 ^ 32 /\
       packet_TimeStampLow call = TimeStamp_QuadPart wifi_frame mod 2 ^ 32).
Proof.
  eexists. split; [apply scenario_wifi_frame|].
  split; [apply after_packet_emits|].
  exact (C8_timestamp_words wifi_frame scenario_pass2 _
           scenario_wifi_frame (after_packet_emits _ _ _ _)).
Defined.

(** C8 (as stated) fails: the 802.11 frame of the scenario is stamped 2.5
    seconds after the start of 1970, that is 2500000 microseconds; the
    writer receives the words 0 and 2500000, not the 2 whole seconds and
    the 500000 remaining microseconds. *)
Lemma C8_counterexample :
  exists st' call,
    EventCallback wifi_frame scenario_pass2 = Returns st' /\
    OutFile st' = OutFile scenario_pass2 ++ [call] /\
    TimeStamp_QuadPart wifi_frame = 2500000 /\
    packet_TimeStampHigh call = 0 /\
    packet_TimeStampLow call = 2500000 /\
    TimeStamp_QuadPart wifi_frame / 1000000 = 2 /\
    TimeStamp_QuadPart wifi_frame mod 1000000 = 500000.
Proof.
  eexists. eexists. split; [apply scenario_wifi_frame|].
  split; [apply OutFile_after_packet_with_fragment|].
  repeat split.
Qed.

(** ** The buffer handed to the writer *)

Lemma emitted_FragBuf (ev : EVENT_RECORD) (st : State) (call : PCAPNG_CALL) :
  match pending_metadata st with
  | None => exists n IfIndex, call = plain_packet ev st n IfIndex
  | Some m => exists n IfIndex name,
                call = metadata_packet ev st n IfIndex name
  end ->
  packet_FragBuf call = frame_buffer ev st.
Proof.
  destruct (pending_metadata st).
  - by intros (n & IfIndex & name & ->).
  - by intros (n & IfIndex & ->).
Qed.

Lemma media_type_wifi (K : Z) :
  media_type K = PCAPNG_LINKTYPE_IEEE802_11 <->
  has_keyword K KW_MEDIA_NATIVE_802_11 = true.
Proof.
  unfold media_type.
  destruct (has_keyword K KW_MEDIA_NATIVE_802_11); [done|].
  by destruct (has_keyword K KW_MEDIA_WIRELESS_WAN).
Qed.

(** C5.  For every frame handed to the writer, with [assembled] the
    fragment buffer once the last fragment is copied in: when the keywords
    of the event make the frame an 802.11 frame, the buffer handed over is
    [assembled] with bit 0x40 of the byte at index 1 cleared and nothing
    else changed (so a byte 0xC0 becomes 0x80); when they make it an
    Ethernet or a raw IP frame, the buffer handed over is [assembled].
    The keywords are those of the event that ends the frame; the media
    type recorded for the interface in pass 1 plays no part. *)
Theorem C5_protected_flag (ev : EVENT_RECORD) (st st' : State) :
  EventCallback ev st = Returns st' -> OutFile st' <> OutFile st ->
  exists call bytes,
    OutFile st' = OutFile st ++ [call] /\
    prop_Fragment ev = TdhData bytes /\
    let assembled := write_at (AuxFragBuf st) (AuxFragBufOffset st) bytes in
    match media_type (Keyword ev) with
    | PCAPNG_LINKTYPE_IEEE802_11 =>
        (forall i, i <> 1%nat -> packet_FragBuf call !! i = assembled !! i) /\
        (forall b, assembled !! 1%nat = Some b ->
           exists b',
             packet_FragBuf call !! 1%nat = Some b' /\
             Z.testbit b' 6 = false /\
             (forall k, 0 <= k < 8 -> k <> 6 ->
                        Z.testbit b' k = Z.testbit b k) /\
             (0 <= b < 2 ^ 8 -> b' = Z.land b 0xBF) /\
             (b = 0xC0 -> b' = 0x80))
    | PCAPNG_LINKTYPE_ETHERNET | PCAPNG_LINKTYPE_RAW =>
        packet_FragBuf call = assembled
    end.
Proof.
  intros Hret Hout.
  destruct (EventCallback_emitted _ _ _ Hret Hout)
    as (L & p & n & bytes & IfIndex & call & _ & _ & _ & _ & _ & _
        & Hbytes & _ & _ & -> & Hcall).
  exists call, bytes. split; [done|]. split; [done|]. cbv zeta.
  assert (packet_FragBuf call = frame_buffer ev (with_fragment bytes st))
    as ->.
  { apply emitted_FragBuf.
    change (pending_metadata (with_fragment bytes st))
      with (pending_metadata st).
    destruct (pending_metadata st).
    - destruct Hcall as (name & _ & ->). by exists n, IfIndex, name.
    - by exists n, IfIndex. }
  unfold frame_buffer.
  change (AuxFragBuf (with_fragment bytes st))
    with (write_at (AuxFragBuf st) (AuxFragBufOffset st) bytes).
  pose proof (media_type_wifi (Keyword ev)) as Hwifi.
  destruct (media_type (Keyword ev)).
  - destruct (has_keyword (Keyword ev) KW_MEDIA_NATIVE_802_11); [|done].
    by destruct Hwifi as [_ Hw]; specialize (Hw eq_refl).
  - rewrite (proj1 Hwifi eq_refl). split.
    + intros i Hi. by apply clear_protected_flag_other.
    + intros b Hb. exists (cleared b).
      split; [by apply clear_protected_flag_1|].
      split; [apply cleared_bit6|].
      split; [apply cleared_other_bits|].
      split; [apply cleared_byte|]. by intros ->.
  - destruct (has_keyword (Keyword ev) KW_MEDIA_NATIVE_802_11); [|done].
    by destruct Hwifi as [_ Hw]; specialize (Hw eq_refl).
Qed.

Lemma C5_protected_flag_witness :
  exists st',
    EventCallback wifi_frame scenario_pass2 = Returns st' /\
    OutFile st' <> OutFile scenario_pass2 /\
    exists call bytes,
      OutFile st' = OutFile scenario_pass2 ++ [call] /\
      prop_Fragment wifi_frame = TdhData bytes /\
      let assembled :=
        write_at (AuxFragBuf scenario_pass2)
                 (AuxFragBufOffset scenario_pass2) bytes in
      match media_type (Keyword wifi_frame) with
      | PCAPNG_LINKTYPE_IEEE802_11 =>
          (forall i, i <> 1%nat ->
                     packet_FragBuf call !! i = assembled !! i) /\
          (forall b, assembled !! 1%nat = Some b ->
             exists b',
               packet_FragBuf call !! 1%nat = Some b' /\
               Z.testbit b' 6 = false /\
               (forall k, 0 <= k < 8 -> k <> 6 ->
                          Z.testbit b' k = Z.testbit b k) /\
               (0 <= b < 2 ^ 8 -> b' = Z.land b 0xBF) /\
               (b = 0xC0 -> b' = 0x80))
      | PCAPNG_LINKTYPE_ETHERNET | PCAPNG_LINKTYPE_RAW =>
          packet_FragBuf call = assembled
      end.
Proof.
  eexists. split; [apply scenario_wifi_frame|].
  split; [apply after_packet_emits|].
  exact (C5_protected_flag wifi_frame scenario_pass2 _
           scenario_wifi_frame (after_packet_emits _ _ _ _)).
Defined.

(** The two frames of the scenario carry the same bytes; the writer gets
    0x80 at index 1 of the 802.11 frame and 0xC0 at index 1 of the
    Ethernet frame. *)
Example scenario_protected_flag :
  exists st1 st2 c1 c2,
    EventCallback wifi_frame scenario_pass2 = Returns st1 /\
    OutFile st1 = OutFile scenario_pass2 ++ [c1] /\
    EventCallback ethernet_frame scenario_pass2 = Returns st2 /\
    OutFile st2 = OutFile scenario_pass2 ++ [c2] /\
    packet_payload c1 = [0x08; 0x80; 0x01; 0x02] /\
    packet_payload c2 = [0x08; 0xC0; 0x01; 0x02].
Proof.
  do 4 eexists. split; [apply scenario_wifi_frame|].
  split; [apply OutFile_after_packet_with_fragment|].
  split; [apply scenario_ethernet_frame|].
  split; [apply OutFile_after_packet_with_fragment|].
  split; vm_compute; reflexivity.
Qed.

(** ** Reassembly *)

Section reassembly.

Implicit Types (st : State) (ev : EVENT_RECORD) (p : IFACE_PTR).
Implicit Types (acc b : list Z) (bs : list (list Z)).

Lemma ProcessTrace_app evs evs' st st1 :
  ProcessTrace evs st = Returns st1 ->
  ProcessTrace (evs ++ evs') st = ProcessTrace evs' st1.
Proof.
  revert st. induction evs as [|ev evs IH]; intros st; simpl.
  - by intros [= ->].
  - destruct (EventCallback ev st); [apply IH|done..].
Qed.

(** Copying [b] behind [acc]. *)
Lemma write_at_append buf acc b :
  take (length acc) buf = acc ->
  (length acc + length b <= length buf)%nat ->
  length (write_at buf (Z.of_nat (length acc)) b) = length buf /\
  take (length (acc ++ b)) (write_at buf (Z.of_nat (length acc)) b)
  = acc ++ b.
Proof.
  intros Hacc Hfit. unfold write_at. rewrite Nat2Z.id, Hacc. split.
  - rewrite !length_app, length_drop. lia.
  - rewrite app_assoc. by apply take_app_length'.
Qed.

Lemma accumulating_relevant L p IfIndex acc st ev b :
  accumulating L p IfIndex acc st -> fragment_on L ev b ->
  relevant_event st ev L p.
Proof. intros [] []. by split. Qed.

(** A fragment that does not end the frame is added to the bytes
    accumulated; nothing is handed to the writer. *)
Lemma accumulate_fragment L p IfIndex acc st ev b :
  accumulating L p IfIndex acc st -> fragment_on L ev b ->
  has_keyword (Keyword ev) KW_PACKET_END = false ->
  Z.of_nat (length (acc ++ b)) <= MAX_PACKET_SIZE ->
  exists st1,
    EventCallback ev st = Returns st1 /\
    accumulating L p IfIndex (acc ++ b) st1 /\
    OutFile st1 = OutFile st /\
    AddMetadata st1 = AddMetadata st /\
    PacketMetadata st1 = PacketMetadata st.
Proof.
  intros Hacc Hfrag Hend Hfit.
  pose proof (accumulating_relevant _ _ _ _ _ _ _ Hacc Hfrag) as Hrel.
  destruct Hacc as [Hp2 Hget Hidx Hlen Hoff Hbytes].
  rewrite length_app in Hfit.
  rewrite (EventCallback_fragment_of st ev L p b Hrel
             (fon_fragment _ _ _ Hfrag)), Hend by lia.
  eexists. split; [done|].
  destruct (write_at_append (AuxFragBuf st) acc b Hbytes) as [Hl Ht];
    [unfold MAX_PACKET_SIZE in *; lia|].
  split; [|done]. split; try done.
  - cbn [AuxFragBuf set_AuxFragBufOffset with_fragment set_AuxFragBuf].
    by rewrite Hoff, Hl.
  - cbn [AuxFragBufOffset set_AuxFragBufOffset].
    rewrite Hoff, length_app. lia.
  - cbn [AuxFragBuf set_AuxFragBufOffset with_fragment set_AuxFragBuf].
    by rewrite Hoff.
Qed.

Lemma accumulate_fragments L p IfIndex evs bs : forall acc st,
  accumulating L p IfIndex acc st ->
  Forall2 (fun e c => fragment_on L e c /\
                      has_keyword (Keyword e) KW_PACKET_END = false)
          evs bs ->
  Z.of_nat (length (acc ++ concat bs)) <= MAX_PACKET_SIZE ->
  exists st1,
    ProcessTrace evs st = Returns st1 /\
    accumulating L p IfIndex (acc ++ concat bs) st1 /\
    OutFile st1 = OutFile st /\
    AddMetadata st1 = AddMetadata st /\
    PacketMetadata st1 = PacketMetadata st.
Proof.
  intros acc st Hacc Hall. revert acc st Hacc.
  induction Hall as [|ev b evs bs [Hfrag Hend] Hall IH];
    intros acc st Hacc Hfit; simpl in *.
  - exists st. by rewrite app_nil_r.
  - rewrite app_assoc in Hfit |- *.
    destruct (accumulate_fragment L p IfIndex acc st ev b)
      as (st1 & -> & Hacc1 & Ho & Hm & Hpm); try done.
    { rewrite length_app in Hfit. lia. }
    destruct (IH _ _ Hacc1 Hfit) as (st2 & Hrun & Hacc2 & Ho2 & Hm2 & Hpm2).
    exists st2. rewrite Ho2, Hm2, Hpm2. done.
Qed.

Lemma length_concat_take k bs :
  (length (concat (take k bs)) <= length (concat bs))%nat.
Proof.
  revert k. induction bs as [|b bs IH]; intros [|k]; simpl;
    rewrite ?length_app; try lia.
  specialize (IH k). lia.
Qed.

(** The end of the frame: the bytes accumulated and the last fragment
    go to the writer as one packet. *)
Lemma accumulate_frame_end L p IfIndex acc st ev b :
  accumulating L p IfIndex acc st -> fragment_on L ev b ->
  has_keyword (Keyword ev) KW_PACKET_END = true ->
  Z.of_nat (length (acc ++ b)) <= MAX_PACKET_SIZE ->
  AddMetadata st = false ->
  exists st' call,
    EventCallback ev st = Returns st' /\
    OutFile st' = OutFile st ++ [call] /\
    packet_FragLength call = Z.of_nat (length (acc ++ b)) /\
    packet_InterfaceId call = IfIndex /\
    packet_payload call =
      (if has_keyword (Keyword ev) KW_MEDIA_NATIVE_802_11
       then clear_protected_flag (acc ++ b) else acc ++ b) /\
    AuxFragBufOffset st' = 0.
Proof.
  intros Hacc Hfrag Hend Hfit Hmeta.
  pose proof (accumulating_relevant _ _ _ _ _ _ _ Hacc Hfrag) as Hrel.
  destruct Hacc as [Hp2 Hget Hidx Hlen Hoff Hbytes].
  pose proof Hfit as Hfit'. rewrite length_app in Hfit'.
  rewrite (EventCallback_frame_end_plain st ev L p b IfIndex Hrel
             (fon_fragment _ _ _ Hfrag) Hend ltac:(lia) ltac:(lia)
             Hidx Hmeta).
  do 2 eexists. split; [done|]. split; [apply OutFile_after_packet_with_fragment|].
  destruct (write_at_append (AuxFragBuf st) acc b Hbytes) as [Hl Ht];
    [unfold MAX_PACKET_SIZE in *; lia|].
  assert (packet_FragLength
            (plain_packet ev (with_fragment b st) (Z.of_nat (length b))
               IfIndex) = Z.of_nat (length (acc ++ b))) as HFL.
  { cbn [packet_FragLength plain_packet with_fragment AuxFragBufOffset
         set_AuxFragBuf].
    rewrite Hoff, u32_small; rewrite ?length_app;
      unfold MAX_PACKET_SIZE in *; lia. }
  split; [done|]. split; [done|]. split; [|done].
  unfold packet_payload. rewrite HFL, Nat2Z.id.
  cbn [packet_FragBuf plain_packet]. unfold frame_buffer.
  cbn [AuxFragBuf with_fragment set_AuxFragBuf]. rewrite Hoff.
  destruct (has_keyword (Keyword ev) KW_MEDIA_NATIVE_802_11).
  - by rewrite take_clear_protected_flag, Ht.
  - done.
Qed.

End reassembly.

(** C2 (as amended).  Let the fragment events [evs] and then [ev], all on
    the interface [L], carry the bytes [bs] and then [b]; only [ev] has the
    frame-end keyword; pass 2 is in a state with an empty fragment buffer
    and no metadata pending, and all the bytes fit in [MAX_PACKET_SIZE].
    Then no prefix of [evs] hands anything to the writer, and the whole
    sequence hands over exactly one packet, for the interface's number,
    whose payload is the concatenation of the fragments; when [ev] has the
    native 802.11 keyword, bit 0x40 of the byte at index 1 of that
    concatenation is cleared. *)
Theorem C2_reassembly (st : State) (L : Z) (p : IFACE_PTR) (IfIndex : Z)
    (evs : list EVENT_RECORD) (bs : list (list Z))
    (ev : EVENT_RECORD) (b : list Z) :
  accumulating L p IfIndex [] st ->
  AddMetadata st = false ->
  Forall2 (fun e c => fragment_on L e c /\
                      has_keyword (Keyword e) KW_PACKET_END = false)
          evs bs ->
  fragment_on L ev b ->
  has_keyword (Keyword ev) KW_PACKET_END = true ->
  Z.of_nat (length (concat bs ++ b)) <= MAX_PACKET_SIZE ->
  (forall k, exists st_k,
     ProcessTrace (take k evs) st = Returns st_k /\
     OutFile st_k = OutFile st) /\
  exists st' call,
    ProcessTrace (evs ++ [ev]) st = Returns st' /\
    OutFile st' = OutFile st ++ [call] /\
    packet_InterfaceId call = IfIndex /\
    packet_FragLength call = Z.of_nat (length (concat bs ++ b)) /\
    packet_payload call =
      (if has_keyword (Keyword ev) KW_MEDIA_NATIVE_802_11
       then clear_protected_flag (concat bs ++ b) else concat bs ++ b).
Proof.
  intros Hacc Hmeta Hall Hfrag Hend Hfit. split.
  - intros k.
    destruct (accumulate_fragments L p IfIndex (take k evs) (take k bs) [] st)
      as (st_k & Hrun & _ & Hout & _); try done.
    + by apply Forall2_take.
    + simpl. pose proof (length_concat_take k bs).
      rewrite length_app in Hfit. lia.
    + by exists st_k.
  - destruct (accumulate_fragments L p IfIndex evs bs [] st)
      as (st1 & Hrun & Hacc1 & Hout & Hm & _); try done.
    { simpl. rewrite length_app in Hfit. lia. }
    simpl in Hacc1.
    destruct (accumulate_frame_end L p IfIndex (concat bs) st1 ev b)
      as (st' & call & Hev & Ho & HFL & HId & Hpay & _); try done.
    { congruence. }
    exists st', call. rewrite (ProcessTrace_app _ _ _ _ Hrun). simpl.
    rewrite Hev. rewrite <- Hout. done.
Qed.

Lemma ProcessTrace_one (ev : EVENT_RECORD) (st st' : State) :
  EventCallback ev st = Returns st' -> ProcessTrace [ev] st = Returns st'.
Proof. intros H. simpl. by rewrite H. Qed.

Lemma scenario_accumulating_5 :
  accumulating 5 (5%nat, 0%nat) 1 [] scenario_pass2.
Proof.
  destruct scenario_pass2_buffer as (Hbuf & Hoff & _).
  split; try done; rewrite Hbuf; apply length_replicate.
Qed.

Lemma C2_reassembly_witness :
  accumulating 5 (5%nat, 0%nat) 1 [] scenario_pass2 /\
  AddMetadata scenario_pass2 = false /\
  Forall2 (fun e c => fragment_on 5 e c /\
                      has_keyword (Keyword e) KW_PACKET_END = false)
          [first_fragment] [[0x08; 0x00]] /\
  fragment_on 5 last_fragment [0x01; 0x02] /\
  has_keyword (Keyword last_fragment) KW_PACKET_END = true /\
  Z.of_nat (length (concat [[0x08; 0x00]] ++ [0x01; 0x02]))
  <= MAX_PACKET_SIZE /\
  (forall k, exists st_k,
     ProcessTrace (take k [first_fragment]) scenario_pass2 = Returns st_k /\
     OutFile st_k = OutFile scenario_pass2) /\
  exists st' call,
    ProcessTrace ([first_fragment] ++ [last_fragment]) scenario_pass2
    = Returns st' /\
    OutFile st' = OutFile scenario_pass2 ++ [call] /\
    packet_InterfaceId call = 1 /\
    packet_FragLength call
    = Z.of_nat (length (concat [[0x08; 0x00]] ++ [0x01; 0x02])) /\
    packet_payload call =
      (if has_keyword (Keyword last_fragment) KW_MEDIA_NATIVE_802_11
       then clear_protected_flag (concat [[0x08; 0x00]] ++ [0x01; 0x02])
       else concat [[0x08; 0x00]] ++ [0x01; 0x02]).
Proof.
  assert (fragment_on 5 first_fragment [0x08; 0x00]) as H1
    by (split; [done..|split; [by left|done..]]).
  assert (fragment_on 5 last_fragment [0x01; 0x02]) as H2
    by (split; [done..|split; [by left|done..]]).
  assert (Forall2 (fun e c => fragment_on 5 e c /\
                      has_keyword (Keyword e) KW_PACKET_END = false)
            [first_fragment] [[0x08; 0x00]]) as Hall
    by (repeat constructor; done).
  assert (Z.of_nat (length (concat [[0x08; 0x00]] ++ [0x01; 0x02]))
          <= MAX_PACKET_SIZE) as Hfit by discriminate.
  split; [exact scenario_accumulating_5|].
  split; [reflexivity|]. split; [exact Hall|]. split; [exact H2|].
  split; [reflexivity|]. split; [exact Hfit|].
  exact (C2_reassembly scenario_pass2 5 (5%nat, 0%nat) 1
           [first_fragment] [[0x08; 0x00]] last_fragment [0x01; 0x02]
           scenario_accumulating_5 eq_refl Hall H2 eq_refl Hfit).
Defined.

(** The Ethernet frame of the scenario with a metadata record pending. *)
Lemma scenario_small_frame_pending :
  EventCallback small_frame (scenario_pending 7) =
  Returns (after_packet
             (metadata_packet small_frame
                (with_fragment [0x08; 0xC0; 0x01; 0x02] (scenario_pending 7))
                4 1 "802.11n")
             small_frame
             (with_fragment [0x08; 0xC0; 0x01; 0x02] (scenario_pending 7))).
Proof.
  apply (EventCallback_frame_end_metadata _ _ 5 (5%nat, 0%nat)
           [0x08; 0xC0; 0x01; 0x02]).
  - by split.
  - split; [by left|done..].
  - reflexivity.
  - done.
  - discriminate.
  - reflexivity.
  - reflexivity.
  - reflexivity.
Qed.

(** C2 (as stated) fails twice.  The 802.11 frame of the scenario, one
    fragment [08 C0 01 02] delivered on an empty buffer, reaches the writer
    as [08 80 01 02].  The Ethernet frame [08 C0 01 02], one fragment
    delivered on an empty buffer while a metadata record is pending,
    reaches the writer with the length 52: its payload is the 4 bytes of
    the fragment and the 48 bytes that follow them in the buffer. *)
Lemma C2_counterexample :
  exists st1 c1 st2 c2,
    fragment_on 5 wifi_frame [0x08; 0xC0; 0x01; 0x02] /\
    has_keyword (Keyword wifi_frame) KW_PACKET_END = true /\
    AuxFragBufOffset scenario_pass2 = 0 /\
    ProcessTrace [wifi_frame] scenario_pass2 = Returns st1 /\
    OutFile st1 = OutFile scenario_pass2 ++ [c1] /\
    packet_payload c1 = [0x08; 0x80; 0x01; 0x02] /\
    fragment_on 5 small_frame [0x08; 0xC0; 0x01; 0x02] /\
    has_keyword (Keyword small_frame) KW_PACKET_END = true /\
    AuxFragBufOffset (scenario_pending 7) = 0 /\
    ProcessTrace [small_frame] (scenario_pending 7) = Returns st2 /\
    OutFile st2 = OutFile (scenario_pending 7) ++ [c2] /\
    packet_FragLength c2 = 52 /\
    packet_payload c2 = [0x08; 0xC0; 0x01; 0x02] ++ replicate 48 0.
Proof.
  do 4 eexists.
  split; [split; [done..|split; [by left|done..]]|].
  split; [reflexivity|]. split; [reflexivity|].
  split; [apply ProcessTrace_one, scenario_wifi_frame|].
  split; [apply OutFile_after_packet_with_fragment|].
  split; [vm_compute; reflexivity|].
  split; [split; [done..|split; [by left|done..]]|].
  split; [reflexivity|]. split; [reflexivity|].
  split; [apply ProcessTrace_one, scenario_small_frame_pending|].
  split; [apply OutFile_after_packet_with_fragment|].
  split; vm_compute; reflexivity.
Qed.

(** ** A fragment that does not fit *)

Lemma accumulating_printf L p IfIndex acc line st :
  accumulating L p IfIndex acc st ->
  accumulating L p IfIndex acc (printf line st).
Proof. intros []. by split. Qed.

(** A fragment that does not fit behind the accumulated bytes is reported
    and skipped; the bytes accumulated so far stay pending. *)
Lemma accumulate_too_large L p IfIndex acc st ev b :
  accumulating L p IfIndex acc st -> fragment_on L ev b ->
  Z.of_nat (length acc) <= MAX_PACKET_SIZE ->
  MAX_PACKET_SIZE < Z.of_nat (length (acc ++ b)) ->
  exists st1,
    EventCallback ev st = Returns st1 /\
    accumulating L p IfIndex acc st1 /\
    OutFile st1 = OutFile st /\
    AddMetadata st1 = AddMetadata st /\
    Console st1 = Console st
      ++ [MsgPacketTooLarge (Word.u32 (Z.of_nat (length (acc ++ b))))].
Proof.
  intros Hacc Hfrag Hin Hbig.
  pose proof (accumulating_relevant _ _ _ _ _ _ _ Hacc Hfrag) as Hrel.
  pose proof (ac_offset _ _ _ _ _ Hacc) as Hoff.
  rewrite length_app, Nat2Z.inj_add in Hbig |- *.
  rewrite (EventCallback_fragment_too_large st ev L p b Hrel
             (fon_fragment _ _ _ Hfrag)) by lia.
  eexists. split; [done|]. split; [by apply accumulating_printf|].
  by rewrite Hoff.
Qed.

(** C3.  On the scenario, a first fragment of 65000 bytes is followed by a
    last fragment of 1000 bytes, which does not fit: it is reported and
    skipped and nothing goes to the writer, but the fill offset stays at
    65000 instead of returning to 0.  The next frame, 4 bytes in one
    fragment, then reaches the writer as a packet of 65004 bytes: the 65000
    bytes left pending followed by its own 4 bytes. *)
Theorem C3_overflow_keeps_pending_bytes :
  exists st1 st2 st3 call,
    EventCallback big_fragment scenario_pass2 = Returns st1 /\
    EventCallback overflowing_fragment st1 = Returns st2 /\
    Console st2 = Console st1 ++ [MsgPacketTooLarge 66000] /\
    OutFile st2 = OutFile scenario_pass2 /\
    AuxFragBufOffset st2 = 65000 /\
    EventCallback small_frame st2 = Returns st3 /\
    OutFile st3 = OutFile scenario_pass2 ++ [call] /\
    packet_FragLength call = 65004 /\
    packet_payload call
    = replicate (Z.to_nat 65000) 0xAA ++ [0x08; 0xC0; 0x01; 0x02].
Proof.
  assert (forall ev K bytes,
            ev = fragment_event 5 5 K 116444736025000000 1234 bytes \/
            ev = fragment_event 5 5 K 116444736030000000 1234 bytes ->
            fragment_on 5 ev bytes) as Hon.
  { intros ev K bytes [-> | ->]; (split; [done..|split; [by left|done..]]). }
  assert (length (replicate (Z.to_nat 65000) 0xAA) = Z.to_nat 65000) as Hl1
    by apply length_replicate.
  assert (length (replicate (Z.to_nat 1000) 0xBB) = Z.to_nat 1000) as Hl2
    by apply length_replicate.
  destruct (accumulate_fragment 5 (5%nat, 0%nat) 1 [] scenario_pass2
              big_fragment (replicate (Z.to_nat 65000) 0xAA))
    as (st1 & Hev1 & Hacc1 & Hout1 & Hm1 & _).
  { apply scenario_accumulating_5. }
  { apply (Hon _ KW_PACKET_START). by left. }
  { reflexivity. }
  { rewrite app_nil_l, Hl1. unfold MAX_PACKET_SIZE. lia. }
  rewrite app_nil_l in Hacc1.
  destruct (accumulate_too_large 5 (5%nat, 0%nat) 1 _ st1
              overflowing_fragment (replicate (Z.to_nat 1000) 0xBB) Hacc1)
    as (st2 & Hev2 & Hacc2 & Hout2 & Hm2 & Hcon2).
  { apply (Hon _ KW_PACKET_END). by left. }
  { rewrite Hl1. unfold MAX_PACKET_SIZE. lia. }
  { rewrite length_app, Hl1, Hl2. unfold MAX_PACKET_SIZE. lia. }
  destruct (accumulate_frame_end 5 (5%nat, 0%nat) 1 _ st2 small_frame
              [0x08; 0xC0; 0x01; 0x02] Hacc2)
    as (st3 & call & Hev3 & Hout3 & HFL & _ & Hpay & _).
  { apply (Hon _ (Z.lor KW_PACKET_START (Z.lor KW_PACKET_END KW_SEND))).
    by right. }
  { reflexivity. }
  { rewrite length_app, Hl1. unfold MAX_PACKET_SIZE. simpl length. lia. }
  { rewrite Hm2, Hm1. reflexivity. }
  exists st1, st2, st3, call.
  split; [exact Hev1|]. split; [exact Hev2|].
  split.
  { rewrite Hcon2, length_app, Hl1, Hl2. reflexivity. }
  split; [by rewrite Hout2, Hout1|].
  split.
  { rewrite (ac_offset _ _ _ _ _ Hacc2), Hl1. reflexivity. }
  split; [exact Hev3|].
  split; [by rewrite Hout3, Hout2, Hout1|].
  split.
  { rewrite HFL, length_app, Hl1. reflexivity. }
  rewrite Hpay. reflexivity.
Qed.

(** ** The metadata slot *)

Section metadata_slot.

Implicit Types (st : State) (ev : EVENT_RECORD) (p : IFACE_PTR).

Lemma phy_type_name_lookup (id : Z) :
  0 <= id ->
  (is_Some (DOT11_PHY_TYPE_NAMES !! Z.to_nat id) <-> id <= 10).
Proof.
  intros Hid. rewrite lookup_lt_is_Some.
  change (length DOT11_PHY_TYPE_NAMES) with 11%nat. lia.
Qed.

Lemma u16_small z : 0 <= z < 2 ^ 16 -> Word.u16 z = z.
Proof. intros Hz. unfold Word.u16. by apply Z.mod_small. Qed.

(** An event that returns without handing anything to the writer and
    is no metadata event of the expected size leaves the slot alone. *)
Lemma EventCallback_keeps_pending ev st st' :
  EventCallback ev st = Returns st' -> OutFile st' = OutFile st ->
  (forall m, ~ metadata_of ev m) ->
  pending_metadata st' = pending_metadata st.
Proof.
  intros Hret Hout Hnot. revert Hret. unfold EventCallback.
  destruct (_ || _); [by intros [= <-]|].
  destruct (prop_LowerIfIndex ev) as [Err|L]; [by intros [= <-]|].
  destruct (Pass2 st) eqn:Hp2; simpl.
  2:{ unfold EventCallback_pass1.
      destruct (GetInterface _ _).
      - destruct (negb _); by intros [= <-].
      - destruct (prop_MiniportIfIndex ev); by intros [= <-]. }
  destruct (GetInterface (InterfaceHashTable st) L) as [p|]; [|done].
  assert (EventCallback_metadata ev st = Returns st' ->
          Id ev = tidPacketMetadata ->
          pending_metadata st' = pending_metadata st) as Hmeta.
  { unfold EventCallback_metadata. intros Hret Hid. revert Hret.
    destruct (prop_MetadataSize ev) as [Err|n] eqn:Hn;
      [by intros [= <-]|].
    destruct (Z.eqb_spec n sizeof_DOT11_EXTSTA_RECV_CONTEXT) as [->|Hne];
      [|by intros [= <-]].
    cbn [negb].
    destruct (prop_Metadata ev) as [Err|m] eqn:Hm; [by intros [= <-]|].
    by destruct (Hnot m). }
  destruct (Z.eqb_spec (Id ev) tidPacketMetadata) as [Hid|Hid];
    [by intros H; apply Hmeta|].
  unfold EventCallback_fragment.
  destruct (prop_FragmentSize ev) as [Err|n]; [by intros [= <-]|].
  destruct (_ <? n); [by intros [= <-]|].
  destruct (TdhGetProperty_bytes _ _) as [Err|bytes]; [by intros [= <-]|].
  fold (with_fragment bytes st).
  destruct (has_keyword (Keyword ev) KW_PACKET_END); [|by intros [= <-]].
  intros Hret. destruct (packet_end_Returns _ _ _ _ _ Hret)
    as (IfIndex & call & _ & -> & _).
  exfalso. revert Hout. apply after_packet_emits.
Qed.

End metadata_slot.

(** C6.  In pass 2: a metadata event of the expected size on a registered
    interface puts its record in the slot, whatever the slot held, and
    hands nothing to the writer.  The last fragment of a frame, on any
    registered and numbered interface, hands one packet to the writer and
    leaves the slot empty when the slot is empty or holds a record whose
    phy id is within the name table: with such a record pending the
    comment of the packet is the formatted record (receive flags, phy type
    name, centre channel, MPDU count, RSSI, data rate, process id), and
    with the slot empty it is the process id alone.  Every other event
    that returns leaves the slot as it was.  But a metadata event is
    accepted on its size alone: when its record has a phy id above 10,
    the frame end that follows reads outside the name table and hands no
    packet to the writer. *)
Theorem C6_metadata_slot :
  (forall st ev L p m,
     relevant_event st ev L p -> metadata_of ev m ->
     exists st',
       EventCallback ev st = Returns st' /\
       pending_metadata st' = Some m /\ OutFile st' = OutFile st) /\
  (forall st ev L p bytes IfIndex,
     relevant_event st ev L p -> fragment_of ev bytes ->
     has_keyword (Keyword ev) KW_PACKET_END = true ->
     0 <= AuxFragBufOffset st ->
     AuxFragBufOffset st + Z.of_nat (length bytes) <= MAX_PACKET_SIZE ->
     PcapNgIfIndex (load (InterfaceHashTable st) p) = Some IfIndex ->
     match pending_metadata st with
     | Some m =>
         0 <= uPhyId m <= 10 ->
         exists st' call name,
           EventCallback ev st = Returns st' /\
           OutFile st' = OutFile st ++ [call] /\
           DOT11_PHY_TYPE_NAMES !! Z.to_nat (uPhyId m) = Some name /\
           packet_Comment call
           = Some (metadata_comment m name (ProcessId ev)) /\
           packet_CommentLength call
           = Printf.strlen (metadata_comment m name (ProcessId ev)) /\
           pending_metadata st' = None
     | None =>
         exists st' call,
           EventCallback ev st = Returns st' /\
           OutFile st' = OutFile st ++ [call] /\
           packet_Comment call = Some (pid_comment (ProcessId ev)) /\
           packet_CommentLength call
           = Printf.strlen (pid_comment (ProcessId ev)) /\
           pending_metadata st' = None
     end) /\
  (forall st ev st',
     EventCallback ev st = Returns st' -> OutFile st' = OutFile st ->
     (forall m, ~ metadata_of ev m) ->
     pending_metadata st' = pending_metadata st) /\
  (forall st evm ev Lm pm L p m bytes IfIndex,
     relevant_event st evm Lm pm -> metadata_of evm m ->
     10 < uPhyId m ->
     relevant_event st ev L p -> fragment_of ev bytes ->
     has_keyword (Keyword ev) KW_PACKET_END = true ->
     0 <= AuxFragBufOffset st ->
     AuxFragBufOffset st + Z.of_nat (length bytes) <= MAX_PACKET_SIZE ->
     PcapNgIfIndex (load (InterfaceHashTable st) p) = Some IfIndex ->
     exists st1 st',
       EventCallback evm st = Returns st1 /\
       pending_metadata st1 = Some m /\
       EventCallback ev st1
       = Undefined (PhyTypeNameOutOfBounds (uPhyId m)) st' /\
       ProcessTrace [evm; ev] st
       = Undefined (PhyTypeNameOutOfBounds (uPhyId m)) st' /\
       OutFile st' = OutFile st).
Proof.
  split; [|split; [|split]].
  - intros st ev L p m Hrel Hmeta.
    rewrite (EventCallback_metadata_of _ _ _ _ _ Hrel Hmeta).
    by eexists.
  - intros st ev L p bytes IfIndex Hrel Hfrag Hend Hoff Hfit Hidx.
    unfold pending_metadata. destruct (AddMetadata st) eqn:Hadd.
    + intros Hphy.
      destruct (proj2 (phy_type_name_lookup (uPhyId (PacketMetadata st))
                         (proj1 Hphy)) (proj2 Hphy)) as [name Hname].
      rewrite (EventCallback_frame_end_metadata _ _ _ _ _ _ _ Hrel Hfrag
                 Hend Hoff Hfit Hidx Hadd Hname).
      do 3 eexists. split; [done|].
      split; [apply OutFile_after_packet_with_fragment|].
      split; [exact Hname|]. split; [done|]. split; [|done].
      cbn [packet_CommentLength metadata_packet PacketMetadata with_fragment
           set_AuxFragBuf].
      pose proof (PrintfFacts.strlen_metadata_comment (PacketMetadata st) _
                    name (ProcessId ev) Hname).
      apply u16_small. lia.
    + rewrite (EventCallback_frame_end_plain _ _ _ _ _ _ Hrel Hfrag
                 Hend Hoff Hfit Hidx Hadd).
      do 2 eexists. split; [done|].
      split; [apply OutFile_after_packet_with_fragment|].
      split; [done|]. split; [|done].
      cbn [packet_CommentLength plain_packet].
      pose proof (PrintfFacts.strlen_pid_comment (ProcessId ev)).
      unfold COMMENT_MAX_SIZE in *. apply u16_small. lia.
  - intros st ev st'. apply EventCallback_keeps_pending.
  - intros st evm ev Lm pm L p m bytes IfIndex Hrelm Hmeta Hm Hrel Hfrag
      Hend Hoff Hfit Hidx.
    pose proof (EventCallback_metadata_of _ _ _ _ _ Hrelm Hmeta) as E1.
    assert (relevant_event (set_AddMetadata true (set_PacketMetadata m st))
              ev L p) as Hrel1 by (destruct Hrel; by split).
    assert (DOT11_PHY_TYPE_NAMES !! Z.to_nat (uPhyId m) = None) as Hname.
    { apply lookup_ge_None_2.
      change (length DOT11_PHY_TYPE_NAMES) with 11%nat. lia. }
    pose proof (EventCallback_frame_end_out_of_bounds _ ev L p bytes IfIndex
                  Hrel1 Hfrag Hend Hoff Hfit Hidx eq_refl Hname) as E2.
    do 2 eexists. split; [exact E1|]. split; [reflexivity|].
    split; [exact E2|]. split.
    + cbn [ProcessTrace]. by rewrite E1, E2.
    + reflexivity.
Qed.

Lemma ProcessTrace_cons (ev : EVENT_RECORD) (evs : list EVENT_RECORD)
    (st st1 : State) :
  EventCallback ev st = Returns st1 ->
  ProcessTrace (ev :: evs) st = ProcessTrace evs st1.
Proof. intros H. cbn [ProcessTrace]. by rewrite H. Qed.

(** On the scenario: two metadata events, then the 802.11 frame, then a
    frame in one fragment.  The first packet carries the record of the
    second metadata event, the second packet the process id alone. *)
Lemma scenario_metadata_trace :
  exists st' c1 c2,
    ProcessTrace [metadata_frame 4; metadata_frame 7; wifi_frame; small_frame]
                 scenario_pass2 = Returns st' /\
    OutFile st' = OutFile scenario_pass2 ++ [c1; c2] /\
    packet_Comment c1
    = Some "Packet Metadata: ReceiveFlags:0x0, PhyType:802.11n, CenterCh:5180, NumMPDUsReceived:1, RSSI:-60, DataRate:0, PID=1234"%string /\
    packet_Comment c2 = Some "PID=1234"%string /\
    pending_metadata st' = None.
Proof.
  assert (EventCallback (metadata_frame 4) scenario_pass2
          = Returns (scenario_pending 4)) as H1.
  { apply (EventCallback_metadata_of _ _ 5 (5%nat, 0%nat)); by split. }
  assert (EventCallback (metadata_frame 7) (scenario_pending 4)
          = Returns (set_AddMetadata true
                       (set_PacketMetadata (example_metadata 7)
                          (scenario_pending 4)))) as H2.
  { apply (EventCallback_metadata_of _ _ 5 (5%nat, 0%nat)); by split. }
  set (st2 := set_AddMetadata true
                (set_PacketMetadata (example_metadata 7)
                   (scenario_pending 4))) in *.
  assert (EventCallback wifi_frame st2
          = Returns (after_packet
                       (metadata_packet wifi_frame
                          (with_fragment [0x08; 0xC0; 0x01; 0x02] st2)
                          4 1 "802.11n")
                       wifi_frame
                       (with_fragment [0x08; 0xC0; 0x01; 0x02] st2))) as H3.
  { apply (EventCallback_frame_end_metadata _ _ 5 (5%nat, 0%nat)
             [0x08; 0xC0; 0x01; 0x02]).
    - by split.
    - apply wifi_frame_fragment.
    - reflexivity.
    - done.
    - discriminate.
    - reflexivity.
    - reflexivity.
    - reflexivity. }
  set (c1 := metadata_packet wifi_frame
               (with_fragment [0x08; 0xC0; 0x01; 0x02] st2) 4 1 "802.11n")
    in *.
  set (st3 := after_packet c1 wifi_frame
                (with_fragment [0x08; 0xC0; 0x01; 0x02] st2)) in *.
  assert (EventCallback small_frame st3
          = Returns (after_packet
                       (plain_packet small_frame
                          (with_fragment [0x08; 0xC0; 0x01; 0x02] st3) 4 1)
                       small_frame
                       (with_fragment [0x08; 0xC0; 0x01; 0x02] st3))) as H4.
  { apply (EventCallback_frame_end_plain _ _ 5 (5%nat, 0%nat)
             [0x08; 0xC0; 0x01; 0x02]).
    - by split.
    - split; [by left|done..].
    - reflexivity.
    - done.
    - discriminate.
    - reflexivity.
    - reflexivity. }
  do 3 eexists. split.
  { rewrite (ProcessTrace_cons _ _ _ _ H1), (ProcessTrace_cons _ _ _ _ H2),
      (ProcessTrace_cons _ _ _ _ H3).
    apply ProcessTrace_one, H4. }
  split.
  { rewrite OutFile_after_packet_with_fragment. unfold st3.
    rewrite OutFile_after_packet_with_fragment.
    by rewrite <- app_assoc. }
  split; [vm_compute; reflexivity|].
  split; [vm_compute; reflexivity|]. reflexivity.
Qed.

Lemma C6_metadata_slot_witness :
  (exists st' call name,
     EventCallback wifi_frame (scenario_pending 7) = Returns st' /\
     OutFile st' = OutFile (scenario_pending 7) ++ [call] /\
     DOT11_PHY_TYPE_NAMES !! Z.to_nat (uPhyId (example_metadata 7))
     = Some name /\
     packet_Comment call
     = Some (metadata_comment (example_metadata 7) name
               (ProcessId wifi_frame)) /\
     packet_CommentLength call
     = Printf.strlen (metadata_comment (example_metadata 7) name
                        (ProcessId wifi_frame)) /\
     pending_metadata st' = None) /\
  (exists st1 st',
     EventCallback (metadata_frame 11) scenario_pass2 = Returns st1 /\
     pending_metadata st1 = Some (example_metadata 11) /\
     EventCallback wifi_frame st1
     = Undefined (PhyTypeNameOutOfBounds (uPhyId (example_metadata 11))) st' /\
     ProcessTrace [metadata_frame 11; wifi_frame] scenario_pass2
     = Undefined (PhyTypeNameOutOfBounds (uPhyId (example_metadata 11))) st' /\
     OutFile st' = OutFile scenario_pass2).
Proof.
  assert (relevant_event (scenario_pending 7) wifi_frame 5 (5%nat, 0%nat))
    as Hrel by (by split).
  assert (0 <= AuxFragBufOffset (scenario_pending 7)) as Hoff by done.
  assert (AuxFragBufOffset (scenario_pending 7)
          + Z.of_nat (length [0x08; 0xC0; 0x01; 0x02]) <= MAX_PACKET_SIZE)
    as Hfit by discriminate.
  assert (PcapNgIfIndex
            (load (InterfaceHashTable (scenario_pending 7)) (5%nat, 0%nat))
          = Some 1) as Hidx by reflexivity.
  assert (0 <= uPhyId (example_metadata 7) <= 10) as Hphy
    by (split; discriminate).
  assert (relevant_event scenario_pass2 (metadata_frame 11) 5 (5%nat, 0%nat))
    as Hrelm by (by split).
  assert (metadata_of (metadata_frame 11) (example_metadata 11)) as Hmeta
    by (by split).
  assert (10 < uPhyId (example_metadata 11)) as Hbig by reflexivity.
  assert (0 <= AuxFragBufOffset scenario_pass2) as Hoff2 by done.
  assert (AuxFragBufOffset scenario_pass2
          + Z.of_nat (length [0x08; 0xC0; 0x01; 0x02]) <= MAX_PACKET_SIZE)
    as Hfit2 by discriminate.
  split.
  - exact (proj1 (proj2 C6_metadata_slot) (scenario_pending 7) wifi_frame 5
             (5%nat, 0%nat) [0x08; 0xC0; 0x01; 0x02] 1 Hrel
             wifi_frame_fragment eq_refl Hoff Hfit Hidx Hphy).
  - exact (proj2 (proj2 (proj2 C6_metadata_slot)) scenario_pass2
             (metadata_frame 11) wifi_frame 5 (5%nat, 0%nat) 5 (5%nat, 0%nat)
             (example_metadata 11) [0x08; 0xC0; 0x01; 0x02] 1 Hrelm Hmeta
             Hbig scenario_pass2_relevant_5 wifi_frame_fragment eq_refl
             Hoff2 Hfit2 scenario_pass2_index_5).
Defined.

(** ** The phy type name table *)

Lemma relevant_event_pending (st : State) (ev : EVENT_RECORD) (L : Z)
    (p : IFACE_PTR) (m : DOT11_EXTSTA_RECV_CONTEXT) :
  relevant_event st ev L p ->
  relevant_event (set_AddMetadata true (set_PacketMetadata m st)) ev L p.
Proof. intros []. by split. Qed.

(** C10.  [DOT11_PHY_TYPE_NAMES] has 11 entries and is indexed by the
    [uPhyId] of the pending record: the access is inside the table exactly
    when [uPhyId <= 10].  [CombineMetadataWithPacket] makes the access
    without a check: with [uPhyId > 10] it reads outside the table, with
    [uPhyId <= 10] it returns.  Nothing on the way checks either: a
    metadata event of the expected size with [uPhyId > 10], followed by
    the last fragment of a frame, ends in the read outside the table. *)
Theorem C10_phy_type_name_bounds :
  length DOT11_PHY_TYPE_NAMES = 11%nat /\
  (forall id, 0 <= id ->
     (is_Some (DOT11_PHY_TYPE_NAMES !! Z.to_nat id) <-> id <= 10)) /\
  (forall FragBuf FragLength InterfaceId IsSend High Low m Pid st,
     10 < uPhyId m ->
     CombineMetadataWithPacket FragBuf FragLength InterfaceId IsSend
       High Low m Pid st
     = Undefined (PhyTypeNameOutOfBounds (uPhyId m)) st) /\
  (forall FragBuf FragLength InterfaceId IsSend High Low m Pid st,
     0 <= uPhyId m <= 10 ->
     exists st',
       CombineMetadataWithPacket FragBuf FragLength InterfaceId IsSend
         High Low m Pid st = Returns st') /\
  (forall st evm ev Lm pm L p m bytes IfIndex,
     relevant_event st evm Lm pm -> metadata_of evm m ->
     10 < uPhyId m ->
     relevant_event st ev L p -> fragment_of ev bytes ->
     has_keyword (Keyword ev) KW_PACKET_END = true ->
     0 <= AuxFragBufOffset st ->
     AuxFragBufOffset st + Z.of_nat (length bytes) <= MAX_PACKET_SIZE ->
     PcapNgIfIndex (load (InterfaceHashTable st) p) = Some IfIndex ->
     exists st',
       ProcessTrace [evm; ev] st
       = Undefined (PhyTypeNameOutOfBounds (uPhyId m)) st' /\
       OutFile st' = OutFile st).
Proof.
  assert (forall id, 10 < id -> DOT11_PHY_TYPE_NAMES !! Z.to_nat id = None)
    as Hout.
  { intros id Hid. apply lookup_ge_None_2.
    change (length DOT11_PHY_TYPE_NAMES) with 11%nat. lia. }
  split; [reflexivity|]. split; [apply phy_type_name_lookup|].
  split; [|split].
  - intros FragBuf FragLength InterfaceId IsSend High Low m Pid st Hm.
    unfold CombineMetadataWithPacket. by rewrite (Hout _ Hm).
  - intros FragBuf FragLength InterfaceId IsSend High Low m Pid st Hm.
    destruct (proj2 (phy_type_name_lookup (uPhyId m) (proj1 Hm)) (proj2 Hm))
      as [name Hname].
    unfold CombineMetadataWithPacket. rewrite Hname.
    rewrite (PrintfFacts.StringCchPrintfA_metadata _ _ _ _ Hname).
    change (Printf.FAILED Printf.S_OK) with false. cbv iota.
    rewrite (PrintfFacts.StringCchLengthA_metadata _ _ _ _ Hname).
    change (Printf.FAILED Printf.S_OK) with false. cbv iota.
    by eexists.
  - intros st evm ev Lm pm L p m bytes IfIndex Hrelm Hmeta Hm Hrel Hfrag
      Hend Hoff Hfit Hidx.
    rewrite (ProcessTrace_cons _ _ _ _
               (EventCallback_metadata_of _ _ _ _ _ Hrelm Hmeta)).
    cbn [ProcessTrace].
    rewrite (EventCallback_frame_end_out_of_bounds _ ev L p bytes IfIndex
               (relevant_event_pending _ _ _ _ m Hrel) Hfrag Hend Hoff Hfit
               Hidx eq_refl (Hout _ Hm)).
    by eexists.
Qed.

Lemma OutFile_frame_buffer_pending (ev : EVENT_RECORD) (bytes : list Z)
    (m : DOT11_EXTSTA_RECV_CONTEXT) (st : State) :
  OutFile
    (set_AuxFragBuf
       (frame_buffer ev
          (with_fragment bytes
             (set_AddMetadata true (set_PacketMetadata m st))))
       (with_fragment bytes (set_AddMetadata true (set_PacketMetadata m st))))
  = OutFile st.
Proof. reflexivity. Qed.

(** On the scenario: a metadata record with phy id 11, then the 802.11
    frame. *)
Example scenario_phy_id_11 :
  exists st',
    ProcessTrace [metadata_frame 11; wifi_frame] scenario_pass2
    = Undefined (PhyTypeNameOutOfBounds 11) st' /\
    OutFile st' = OutFile scenario_pass2.
Proof.
  assert (EventCallback (metadata_frame 11) scenario_pass2
          = Returns (scenario_pending 11)) as H1.
  { apply (EventCallback_metadata_of _ _ 5 (5%nat, 0%nat)); by split. }
  assert (EventCallback wifi_frame (scenario_pending 11)
          = Undefined
              (PhyTypeNameOutOfBounds
                 (uPhyId (PacketMetadata (scenario_pending 11))))
              (set_AuxFragBuf
                 (frame_buffer wifi_frame
                    (with_fragment [0x08; 0xC0; 0x01; 0x02]
                       (scenario_pending 11)))
                 (with_fragment [0x08; 0xC0; 0x01; 0x02]
                    (scenario_pending 11)))) as H2.
  { apply (EventCallback_frame_end_out_of_bounds (scenario_pending 11)
             wifi_frame 5 (5%nat, 0%nat) [0x08; 0xC0; 0x01; 0x02] 1).
    - by split.
    - apply wifi_frame_fragment.
    - reflexivity.
    - done.
    - discriminate.
    - reflexivity.
    - reflexivity.
    - reflexivity. }
  eexists. split.
  - rewrite (ProcessTrace_cons _ _ _ _ H1). cbn [ProcessTrace].
    rewrite H2. reflexivity.
  - apply OutFile_frame_buffer_pending.
Qed.

(* ------------------------------------------------------------------ *)
(** ** The callback as a step relation *)

Lemma EventCallback_step ev st st' :
  EventCallback ev st = Returns st' -> callback_step ev st st'.
Proof.
  unfold EventCallback.
  destruct (negb (IsEqualGUID (ProviderId ev) NdisCapId)
            || negb (Id ev =? tidPacketFragment)
               && negb (Id ev =? tidPacketMetadata)
               && negb (Id ev =? tidVMSwitchPacketFragment)) eqn:Hrel.
  { intros [= ?]. subst st'. constructor. }
  assert (Hcap : is_capture_event ev = true).
  { unfold is_capture_event.
    destruct (IsEqualGUID (ProviderId ev) NdisCapId),
      (Id ev =? tidPacketFragment), (Id ev =? tidPacketMetadata),
      (Id ev =? tidVMSwitchPacketFragment); done. }
  clear Hrel.
  destruct (prop_LowerIfIndex ev) as [Err|L] eqn:HL.
  { intros [= <-]. constructor. }
  cbv zeta.
  destruct (Pass2 st) eqn:HP; cbn [negb].
  - destruct (GetInterface (InterfaceHashTable st) L) as [p|] eqn:HG;
      [|discriminate].
    assert (Hmeta : EventCallback_metadata ev st = Returns st' ->
                    Id ev = tidPacketMetadata ->
                    callback_step ev st st').
    { unfold EventCallback_metadata. intros H Hid.
      destruct (prop_MetadataSize ev) as [Err|len] eqn:Hsz.
      { injection H as <-. constructor. }
      destruct (len =? sizeof_DOT11_EXTSTA_RECV_CONTEXT) eqn:Hlen;
        cbn [negb] in H.
      2:{ injection H as <-. constructor. }
      apply Z.eqb_eq in Hlen. subst len.
      destruct (prop_Metadata ev) as [Err|m] eqn:Hm.
      { injection H as <-. constructor. }
      injection H as <-. by apply step_metadata. }
    destruct (Id ev =? tidPacketMetadata) eqn:Hid.
    { intros H. apply Hmeta; [done|]. by apply Z.eqb_eq. }
    apply Z.eqb_neq in Hid.
    unfold EventCallback_fragment.
    destruct (prop_FragmentSize ev) as [Err|n] eqn:Hn.
    { intros [= <-]. constructor. }
    destruct (Word.u64 (MAX_PACKET_SIZE - AuxFragBufOffset st) <? n) eqn:Hfit.
    { intros [= <-]. constructor. }
    apply Z.ltb_ge in Hfit.
    unfold TdhGetProperty_bytes.
    destruct (prop_Fragment ev) as [Err|bytes] eqn:Hb.
    { intros [= <-]. constructor. }
    destruct (n <? Z.of_nat (length bytes)) eqn:Hlen.
    { intros [= <-]. constructor. }
    apply Z.ltb_ge in Hlen.
    cbv zeta. fold (with_fragment bytes st).
    destruct (has_keyword (Keyword ev) KW_PACKET_END) eqn:Hend.
    + intros H.
      destruct (packet_end_Returns _ _ _ _ _ H)
        as (IfIndex & call & HI & -> & Hcall).
      by eapply step_packet.
    + intros [= <-]. by apply step_fragment.
  - unfold EventCallback_pass1. cbv zeta.
    destruct (GetInterface (InterfaceHashTable st) L) as [p|] eqn:HG.
    + destruct (negb (LINKTYPE_eqb _ _)); intros [= ?]; subst st'; constructor.
    + destruct (prop_MiniportIfIndex ev) as [Err|M] eqn:HM;
        intros [= <-]; [constructor|].
      by apply step_registered.
Qed.

(* ------------------------------------------------------------------ *)
(** ** The hash table: [AddInterface] against [GetInterface] *)

Lemma chain_find_shift L chain pos :
  chain_find L chain (S pos) = S <$> chain_find L chain pos.
Proof.
  revert pos. induction chain as [|I chain IH]; intros pos; [done|].
  simpl. destruct (LowerIfIndex I =? L); [done|]. apply IH.
Qed.

Lemma chain_at_AddInterface L M T st b :
  length (InterfaceHashTable st) = Z.to_nat IFACE_HT_SIZE ->
  chain_at (InterfaceHashTable (AddInterface L M T st)) b
  = if decide (b = bucket_of L)
    then {| LowerIfIndex := L; MiniportIfIndex := M;
            PcapNgIfIndex := None; Type' := T |}
         :: chain_at (InterfaceHashTable st) b
    else chain_at (InterfaceHashTable st) b.
Proof.
  intros Hlen. pose proof (bucket_of_lt L) as Hb.
  unfold AddInterface. cbn [InterfaceHashTable set_NumInterfaces
    set_InterfaceHashTable]. unfold chain_at at 1.
  destruct (decide (b = bucket_of L)) as [->|Hne].
  - rewrite list_lookup_insert_eq by lia. done.
  - rewrite list_lookup_insert_ne by done. done.
Qed.

Lemma lookup_interface_AddInterface L M T st :
  length (InterfaceHashTable st) = Z.to_nat IFACE_HT_SIZE ->
  lookup_interface (AddInterface L M T st) L
  = Some {| LowerIfIndex := L; MiniportIfIndex := M;
            PcapNgIfIndex := None; Type' := T |}.
Proof.
  intros Hlen. unfold lookup_interface, GetInterface. cbv zeta.
  rewrite chain_at_AddInterface by done.
  rewrite decide_True by done. cbn [chain_find LowerIfIndex].
  rewrite Z.eqb_refl. cbn [mbind option_bind]. unfold deref. cbn [fst snd].
  rewrite chain_at_AddInterface by done.
  by rewrite decide_True.
Qed.

Lemma lookup_interface_AddInterface_ne L M T st L' :
  length (InterfaceHashTable st) = Z.to_nat IFACE_HT_SIZE ->
  L' <> L ->
  lookup_interface (AddInterface L M T st) L' = lookup_interface st L'.
Proof.
  intros Hlen Hne. unfold lookup_interface, GetInterface. cbv zeta.
  rewrite chain_at_AddInterface by done.
  destruct (decide (bucket_of L' = bucket_of L)) as [Hb|Hb].
  - cbn [chain_find LowerIfIndex].
    destruct (L =? L') eqn:E; [apply Z.eqb_eq in E; congruence|].
    rewrite chain_find_shift.
    destruct (chain_find L' (chain_at (InterfaceHashTable st) (bucket_of L')) 0)
      as [k|]; [|done].
    cbn [fmap option_fmap option_map mbind option_bind]. unfold deref.
    cbn [fst snd]. rewrite chain_at_AddInterface by done.
    by rewrite decide_True.
  - destruct (chain_find L' (chain_at (InterfaceHashTable st) (bucket_of L')) 0)
      as [k|]; [|done].
    cbn [mbind option_bind]. unfold deref.
    cbn [fst snd]. rewrite chain_at_AddInterface by done.
    by rewrite decide_False.
Qed.

Lemma length_initial_table :
  length (InterfaceHashTable initial_state) = Z.to_nat IFACE_HT_SIZE.
Proof. exact (wf_buckets _ initial_state_wf). Qed.

(** X1. A record added with [AddInterface] is the one [GetInterface] finds
    for its [LowerIfIndex] from then on, with the [MiniportIfIndex] and
    type it was added with and no [PcapNgIfIndex] yet, also when a record
    with that [LowerIfIndex] was in the table before; the lookups of every
    other [LowerIfIndex] give what they gave before, and [NumInterfaces]
    goes up by one (modulo 2^32). *)
Theorem X1_AddInterface_GetInterface (L M : Z) (T : LINKTYPE) (st : State) :
  length (InterfaceHashTable st) = Z.to_nat IFACE_HT_SIZE ->
  lookup_interface (AddInterface L M T st) L
  = Some {| LowerIfIndex := L; MiniportIfIndex := M;
            PcapNgIfIndex := None; Type' := T |}
  /\ (forall L', L' <> L ->
        lookup_interface (AddInterface L M T st) L' = lookup_interface st L')
  /\ NumInterfaces (AddInterface L M T st)
     = Word.u32 (NumInterfaces st + 1).
Proof.
  intros Hlen. split; [|split].
  - by apply lookup_interface_AddInterface.
  - intros L' Hne. by apply lookup_interface_AddInterface_ne.
  - done.
Qed.

Lemma X1_AddInterface_GetInterface_witness :
  lookup_interface
    (AddInterface 105 5 PCAPNG_LINKTYPE_RAW
       (AddInterface 5 5 PCAPNG_LINKTYPE_ETHERNET initial_state)) 105
  = Some {| LowerIfIndex := 105; MiniportIfIndex := 5;
            PcapNgIfIndex := None; Type' := PCAPNG_LINKTYPE_RAW |}
  /\ (forall L', L' <> 105 ->
        lookup_interface
          (AddInterface 105 5 PCAPNG_LINKTYPE_RAW
             (AddInterface 5 5 PCAPNG_LINKTYPE_ETHERNET initial_state)) L'
        = lookup_interface
            (AddInterface 5 5 PCAPNG_LINKTYPE_ETHERNET initial_state) L')
  /\ NumInterfaces
       (AddInterface 105 5 PCAPNG_LINKTYPE_RAW
          (AddInterface 5 5 PCAPNG_LINKTYPE_ETHERNET initial_state))
     = Word.u32
         (NumInterfaces
            (AddInterface 5 5 PCAPNG_LINKTYPE_ETHERNET initial_state) + 1).
Proof.
  apply (X1_AddInterface_GetInterface 105 5 PCAPNG_LINKTYPE_RAW
           (AddInterface 5 5 PCAPNG_LINKTYPE_ETHERNET initial_state)).
  reflexivity.
Defined.

(* ------------------------------------------------------------------ *)
(** ** [GetInterface] against the registered records *)

Lemma GetInterface_deref ht L p :
  GetInterface ht L = Some p ->
  exists I, deref ht p = Some I /\ LowerIfIndex I = L /\
            I ∈ chain_at ht (bucket_of L).
Proof.
  unfold GetInterface. cbv zeta.
  destruct (chain_find L (chain_at ht (bucket_of L)) 0) as [k|] eqn:E;
    [|done].
  intros [= <-]. apply chain_find_Some in E as (j & I & -> & HI & HL & _).
  exists I. unfold deref. cbn [fst snd]. split; [done|]. split; [done|].
  by eapply list_elem_of_lookup_2.
Qed.

(** X2. On a well-formed registry [GetInterface] decides whether a
    [LowerIfIndex] is registered: a hit designates the one registered
    record with that [LowerIfIndex], and a miss means that no registered
    record has it. *)
Theorem X2_GetInterface_registered (st : State) (L : Z) :
  registry_wf st ->
  match GetInterface (InterfaceHashTable st) L with
  | Some p =>
      exists I, deref (InterfaceHashTable st) p = Some I /\
                LowerIfIndex I = L /\ I ∈ registered st /\
                forall J, J ∈ registered st -> LowerIfIndex J = L -> J = I
  | None => forall J, J ∈ registered st -> LowerIfIndex J <> L
  end.
Proof.
  intros Hwf.
  destruct (GetInterface (InterfaceHashTable st) L) as [p|] eqn:HG.
  - destruct (GetInterface_deref _ _ _ HG) as (I & HI & HL & Hin).
    apply chain_at_elem_of in Hin.
    exists I. repeat split; try done.
    intros J HJ HJL.
    eapply (NoDup_fmap_inj_on LowerIfIndex); [apply Hwf|done..|congruence].
  - intros J HJ HJL.
    apply (wf_GetInterface_None st Hwf L HG).
    apply list_elem_of_fmap. by exists J.
Qed.

Lemma X2_GetInterface_registered_witness :
  match GetInterface (InterfaceHashTable scenario_registry) 7 with
  | Some p =>
      exists I, deref (InterfaceHashTable scenario_registry) p = Some I /\
                LowerIfIndex I = 7 /\ I ∈ registered scenario_registry /\
                forall J, J ∈ registered scenario_registry ->
                          LowerIfIndex J = 7 -> J = I
  | None => forall J, J ∈ registered scenario_registry -> LowerIfIndex J <> 7
  end.
Proof.
  exact (X2_GetInterface_registered scenario_registry 7 scenario_registry_wf).
Defined.

(* ------------------------------------------------------------------ *)
(** ** The comparison function as an order *)

(** X10. [InterfaceCompareFn] orders two records with different
    [LowerIfIndex] strictly, with opposite answers for the two argument
    orders, and it is transitive; on a record and itself it answers -1,
    not 0, when the record is its miniport's own
    ([LowerIfIndex = MiniportIfIndex]), and 0 otherwise. *)
Theorem X10_InterfaceCompareFn_order :
  (forall A B, LowerIfIndex A <> LowerIfIndex B ->
     (InterfaceCompareFn A B = -1 /\ InterfaceCompareFn B A = 1) \/
     (InterfaceCompareFn A B = 1 /\ InterfaceCompareFn B A = -1))
  /\ (forall A B C,
        InterfaceCompareFn A B <= 0 -> InterfaceCompareFn B C <= 0 ->
        InterfaceCompareFn A C <= 0)
  /\ (forall A,
        InterfaceCompareFn A A
        = if LowerIfIndex A =? MiniportIfIndex A then -1 else 0).
Proof.
  split; [|split].
  - intros A B Hne. unfold InterfaceCompareFn. cbv zeta.
    rewrite (Z.eqb_sym (MiniportIfIndex B) (MiniportIfIndex A)).
    repeat match goal with
           | |- context [?x =? ?y] =>
               destruct (Z.eqb_spec x y)
           | |- context [?x <? ?y] =>
               destruct (Z.ltb_spec x y)
           end; try lia; auto.
  - apply InterfaceCompareFn_trans.
  - intros A. unfold InterfaceCompareFn. cbv zeta.
    rewrite Z.eqb_refl. rewrite (Z.eqb_sym (LowerIfIndex A)).
    destruct (MiniportIfIndex A =? LowerIfIndex A); [done|].
    by rewrite Z.ltb_irrefl.
Qed.

(* ------------------------------------------------------------------ *)
(** ** The comment of a packet without metadata *)

(** X11. The comment of a packet without metadata is ["PID="] followed by
    the process id printed with [%d]: formatting it into the
    [COMMENT_MAX_SIZE] buffer and measuring it both succeed, it has from 5
    to 15 characters, and a process id from 2^31 on is printed as a
    negative number. *)
Theorem X11_pid_comment (Pid : Z) :
  Printf.StringCchPrintfA COMMENT_MAX_SIZE "PID=%d" [Printf.VaWord Pid]
  = (Printf.S_OK, pid_comment Pid)
  /\ Printf.StringCchLengthA (pid_comment Pid) COMMENT_MAX_SIZE
     = (Printf.S_OK, Printf.strlen (pid_comment Pid))
  /\ 5 <= Printf.strlen (pid_comment Pid) <= 15
  /\ (2 ^ 31 <= Word.u32 Pid ->
      pid_comment Pid
      = ("PID=-" ++ Printf.fmt_u (2 ^ 32 - Word.u32 Pid))%string).
Proof.
  split; [apply PrintfFacts.StringCchPrintfA_pid|].
  split; [apply PrintfFacts.StringCchLengthA_pid|].
  split.
  - pose proof (PrintfFacts.strlen_pid_comment Pid) as H.
    unfold COMMENT_MAX_SIZE in H. lia.
  - intros Hbig. unfold pid_comment, Printf.fmt_d, Printf.fmt_u. cbv zeta.
    pose proof (PrintfFacts.u32_range Pid) as Hr.
    unfold Word.s32. cbv zeta.
    destruct (Z.ltb_spec (Word.u32 Pid) (2 ^ 31)) as [|_]; [lia|].
    destruct (Z.ltb_spec (Word.u32 Pid - 2 ^ 32) 0) as [_|]; [|lia].
    rewrite (u32_small (2 ^ 32 - Word.u32 Pid)) by lia.
    replace (- (Word.u32 Pid - 2 ^ 32)) with (2 ^ 32 - Word.u32 Pid) by lia.
    reflexivity.
Qed.

(* ------------------------------------------------------------------ *)
(** ** Events the callback does not look at *)

Lemma EventCallback_not_capture ev st :
  is_capture_event ev = false -> EventCallback ev st = Returns st.
Proof.
  unfold is_capture_event, EventCallback. intros H.
  destruct (IsEqualGUID (ProviderId ev) NdisCapId),
    (Id ev =? tidPacketFragment), (Id ev =? tidPacketMetadata),
    (Id ev =? tidVMSwitchPacketFragment); done.
Qed.



(* ------------------------------------------------------------------ *)
(** ** What one call of the callback can do *)

(** X14. A call of the callback that prints, when it returns, has done
    nothing else: the state differs from the one before in the printed
    line only.  So an unreadable property, a metadata record of another
    size, a fragment that does not fit and a differing media type leave
    every variable of the program as it was. *)
Theorem X14_printing_changes_nothing_else (ev : EVENT_RECORD)
    (st st' : State) :
  EventCallback ev st = Returns st' ->
  Console st' = Console st \/ exists line, st' = printf line st.
Proof.
  intros H. apply EventCallback_step in H.
  destruct H; try (by left). right. by eexists.
Qed.


Lemma is_packet_plain ev st n i : is_packet (plain_packet ev st n i).
Proof. exact I. Qed.

Lemma is_packet_metadata ev st n i name :
  is_packet (metadata_packet ev st n i name).
Proof. exact I. Qed.

Lemma callback_step_packet ev st IfIndex n bytes call :
  match pending_metadata st with
  | None => call = plain_packet ev (with_fragment bytes st) n IfIndex
  | Some m =>
      exists name,
        DOT11_PHY_TYPE_NAMES !! Z.to_nat (uPhyId m) = Some name /\
        call = metadata_packet ev (with_fragment bytes st) n IfIndex name
  end -> is_packet call.
Proof.
  destruct (pending_metadata st).
  - intros (name & _ & ->). apply is_packet_metadata.
  - intros ->. apply is_packet_plain.
Qed.

(** X12. The callback only ever appends to the output file, and at most
    one block per event: a call that returns leaves the file as it was, or
    has appended one packet, and then it ran in pass 2 on a fragment event
    of the capture provider that carries the [KW_PACKET_END] keyword. *)
Theorem X12_one_packet_per_frame_end (ev : EVENT_RECORD) (st st' : State) :
  EventCallback ev st = Returns st' ->
  OutFile st' = OutFile st
  \/ exists call,
       OutFile st' = OutFile st ++ [call] /\ is_packet call /\
       Pass2 st = true /\ is_capture_event ev = true /\
       Id ev <> tidPacketMetadata /\
       has_keyword (Keyword ev) KW_PACKET_END = true.
Proof.
  intros H. apply EventCallback_step in H.
  destruct H; try (by left). right.
  exists call. split; [done|]. split; [|done].
  by eapply (callback_step_packet ev st).
Qed.

Lemma X12_one_packet_per_frame_end_witness :
  OutFile (after_packet
             (plain_packet wifi_frame
                (with_fragment [0x08; 0xC0; 0x01; 0x02] scenario_pass2) 4 1)
             wifi_frame
             (with_fragment [0x08; 0xC0; 0x01; 0x02] scenario_pass2))
  = OutFile scenario_pass2
  \/ exists call,
       OutFile (after_packet
                  (plain_packet wifi_frame
                     (with_fragment [0x08; 0xC0; 0x01; 0x02] scenario_pass2)
                     4 1)
                  wifi_frame
                  (with_fragment [0x08; 0xC0; 0x01; 0x02] scenario_pass2))
       = OutFile scenario_pass2 ++ [call] /\ is_packet call /\
       Pass2 scenario_pass2 = true /\ is_capture_event wifi_frame = true /\
       Id wifi_frame <> tidPacketMetadata /\
       has_keyword (Keyword wifi_frame) KW_PACKET_END = true.
Proof.
  apply (X12_one_packet_per_frame_end wifi_frame).
  apply scenario_wifi_frame.
Defined.

(* ------------------------------------------------------------------ *)
(** ** The frame counter *)

Lemma callback_step_counter ev st st' :
  callback_step ev st st' ->
  (OutFile st' = OutFile st /\
   NumFramesConverted st' = NumFramesConverted st)
  \/ exists call,
       OutFile st' = OutFile st ++ [call] /\ is_packet call /\
       NumFramesConverted st'
       = Word.u64 (NumFramesConverted st + 1).
Proof.
  intros H. destruct H; try (by left). right.
  exists call. split; [done|]. split; [|done].
  by eapply (callback_step_packet ev st).
Qed.

Lemma ProcessTrace_counter evs st st' :
  ProcessTrace evs st = Returns st' ->
  0 <= NumFramesConverted st ->
  NumFramesConverted st + Z.of_nat (length evs) < 2 ^ 64 ->
  exists calls,
    OutFile st' = OutFile st ++ calls /\ Forall is_packet calls /\
    (length calls <= length evs)%nat /\
    NumFramesConverted st'
    = NumFramesConverted st + Z.of_nat (length calls).
Proof.
  revert st. induction evs as [|ev evs IH]; intros st H H0 Hroom.
  - injection H as <-. exists []. rewrite app_nil_r.
    repeat split; [constructor|done|simpl; lia].
  - cbn [ProcessTrace] in H.
    destruct (EventCallback ev st) as [st1| |] eqn:E; [|done..].
    apply EventCallback_step, callback_step_counter in E.
    cbn [length] in Hroom.
    destruct E as [[HO HN]|(call & HO & Hp & HN)].
    + destruct (IH st1 H) as (calls & HO' & HF & Hl & HN'); [lia..|].
      exists calls. rewrite HO', HO, HN', HN.
      repeat split; [done|cbn [length]; lia].
    + assert (NumFramesConverted st1 = NumFramesConverted st + 1) as HN1.
      { rewrite HN. apply u64_small. lia. }
      destruct (IH st1 H) as (calls & HO' & HF & Hl & HN'); [lia..|].
      exists (call :: calls). rewrite HO', HO, HN', HN1, <- app_assoc.
      repeat split; [by constructor|cbn [length]; lia|cbn [length]; lia].
Qed.

(** X9. [NumFramesConverted] counts the packets handed to the writer: a
    pass that returns has appended packets only, at most one per event,
    and has raised the counter by their number (the counter starting
    non-negative and low enough not to wrap at 2^64). *)
Theorem X9_NumFramesConverted_counts_packets (evs : list EVENT_RECORD)
    (st st' : State) :
  ProcessTrace evs st = Returns st' ->
  0 <= NumFramesConverted st ->
  NumFramesConverted st + Z.of_nat (length evs) < 2 ^ 64 ->
  exists calls,
    OutFile st' = OutFile st ++ calls /\ Forall is_packet calls /\
    (length calls <= length evs)%nat /\
    NumFramesConverted st'
    = NumFramesConverted st + Z.of_nat (length calls).
Proof. apply ProcessTrace_counter. Qed.

Lemma NumFramesConverted_scenario_pass2 :
  NumFramesConverted scenario_pass2 = 0.
Proof. vm_compute. reflexivity. Qed.

Lemma X9_NumFramesConverted_counts_packets_witness :
  exists calls,
    OutFile (after_packet
               (plain_packet wifi_frame
                  (with_fragment [0x08; 0xC0; 0x01; 0x02] scenario_pass2) 4 1)
               wifi_frame
               (with_fragment [0x08; 0xC0; 0x01; 0x02] scenario_pass2))
    = OutFile scenario_pass2 ++ calls /\ Forall is_packet calls /\
    (length calls <= length [wifi_frame])%nat /\
    NumFramesConverted
      (after_packet
         (plain_packet wifi_frame
            (with_fragment [0x08; 0xC0; 0x01; 0x02] scenario_pass2) 4 1)
         wifi_frame
         (with_fragment [0x08; 0xC0; 0x01; 0x02] scenario_pass2))
    = NumFramesConverted scenario_pass2 + Z.of_nat (length calls).
Proof.
  apply (X9_NumFramesConverted_counts_packets [wifi_frame]).
  - apply ProcessTrace_one, scenario_wifi_frame.
  - rewrite NumFramesConverted_scenario_pass2. lia.
  - rewrite NumFramesConverted_scenario_pass2. cbn [length]. lia.
Defined.

(* ------------------------------------------------------------------ *)
(** ** The fragment buffer *)

Lemma length_write_at buf off data :
  0 <= off -> (Z.to_nat off + length data <= length buf)%nat ->
  length (write_at buf off data) = length buf.
Proof.
  intros H0 Hfit. unfold write_at.
  rewrite !length_app, length_take, length_drop. lia.
Qed.

Lemma length_frame_buffer ev st :
  length (frame_buffer ev st) = length (AuxFragBuf st).
Proof.
  unfold frame_buffer. destruct (has_keyword _ _); [|done].
  apply length_clear_protected_flag.
Qed.

Lemma fragment_fits st n bytes :
  buffer_ok st ->
  Z.of_nat (length bytes) <= n ->
  n <= Word.u64 (MAX_PACKET_SIZE - AuxFragBufOffset st) ->
  length (AuxFragBuf (with_fragment bytes st)) = Z.to_nat MAX_PACKET_SIZE
  /\ 0 <= AuxFragBufOffset st + n <= MAX_PACKET_SIZE.
Proof.
  intros [Hlen Hoff] Hb Hn.
  rewrite u64_small in Hn by (unfold MAX_PACKET_SIZE in *; lia).
  split; [|lia].
  unfold with_fragment. cbn [AuxFragBuf set_AuxFragBuf].
  rewrite length_write_at; [done|lia|]. rewrite Hlen. lia.
Qed.

Lemma callback_step_buffer_ok ev st st' :
  callback_step ev st st' -> buffer_ok st -> buffer_ok st'.
Proof.
  intros H Hok.
  destruct H as [ | line | L M _ _ _ _ _ | m _ _ _
                | n bytes _ _ _ _ _ Hb Hn _
                | L p IfIndex n bytes call _ _ _ _ _ _ _ _ Hb Hn _ _ ].
  - done.
  - by destruct Hok.
  - by destruct Hok.
  - by destruct Hok.
  - destruct (fragment_fits st n bytes) as [Hl Ho]; try done.
    split.
    + done.
    + cbn [AuxFragBufOffset set_AuxFragBufOffset].
      rewrite u32_small; [done|]. unfold MAX_PACKET_SIZE in *. lia.
  - destruct (fragment_fits st n bytes) as [Hl Ho]; try done.
    split.
    + unfold after_packet.
      cbn [AuxFragBuf set_NumFramesConverted set_AuxFragBufOffset
           set_PacketMetadata set_AddMetadata pcapng set_OutFile
           set_AuxFragBuf].
      by rewrite length_frame_buffer.
    + unfold after_packet.
      cbn [AuxFragBufOffset set_NumFramesConverted set_AuxFragBufOffset].
      unfold MAX_PACKET_SIZE. lia.
Qed.

Lemma ProcessTrace_buffer_ok evs st st' :
  ProcessTrace evs st = Returns st' -> buffer_ok st -> buffer_ok st'.
Proof.
  revert st. induction evs as [|ev evs IH]; intros st H Hok.
  - by injection H as <-.
  - cbn [ProcessTrace] in H.
    destruct (EventCallback ev st) as [st1| |] eqn:E; [|done..].
    apply (IH st1 H). eapply callback_step_buffer_ok; [|done].
    by apply EventCallback_step.
Qed.

(** X5. The fragment buffer is never written past its end: a pass that
    starts with the [MAX_PACKET_SIZE]-byte buffer and a fill offset inside
    it ends with both, whatever the sizes the events declare. *)
Theorem X5_buffer_never_overrun (evs : list EVENT_RECORD) (st st' : State) :
  buffer_ok st -> ProcessTrace evs st = Returns st' -> buffer_ok st'.
Proof. intros Hok H. by eapply ProcessTrace_buffer_ok. Qed.

Lemma X5_buffer_never_overrun_witness :
  buffer_ok
    (after_packet
       (plain_packet wifi_frame
          (with_fragment [0x08; 0xC0; 0x01; 0x02] scenario_pass2) 4 1)
       wifi_frame
       (with_fragment [0x08; 0xC0; 0x01; 0x02] scenario_pass2)).
Proof.
  apply (X5_buffer_never_overrun [wifi_frame] scenario_pass2).
  - apply scenario_pass2_buffer_ok.
  - apply ProcessTrace_one, scenario_wifi_frame.
Defined.

(* ------------------------------------------------------------------ *)
(** ** Pass 1 *)

Lemma pass1_untouched_refl st : Pass2 st = false -> pass1_untouched st st.
Proof. intros H. by repeat split. Qed.

Lemma pass1_untouched_trans st st1 st2 :
  pass1_untouched st st1 -> pass1_untouched st1 st2 ->
  pass1_untouched st st2.
Proof.
  intros (? & ? & ? & ? & ? & ? & ? & ?) (? & ? & ? & ? & ? & ? & ? & ?).
  repeat split; congruence.
Qed.

Lemma callback_step_pass1 ev st st' :
  callback_step ev st st' -> Pass2 st = false -> pass1_untouched st st'.
Proof.
  intros H HP.
  destruct H as [ | line | L M _ _ _ _ _ | m _ HP2 _
                | n bytes _ _ HP2 _ _ _ _ _
                | L p IfIndex n bytes call _ _ HP2 _ _ _ _ _ _ _ _ _ ];
    try congruence.
  - by apply pass1_untouched_refl.
  - by repeat split.
  - repeat split; try done. unfold AddInterface.
    cbn [InterfaceHashTable set_NumInterfaces set_InterfaceHashTable].
    apply length_insert.
Qed.

Lemma EventCallback_pass1_Returns ev st :
  Pass2 st = false -> exists st', EventCallback ev st = Returns st'.
Proof.
  intros HP. unfold EventCallback, EventCallback_pass1. rewrite HP.
  cbn [negb]. cbv zeta.
  destruct (_ || _); [by eexists|].
  destruct (prop_LowerIfIndex ev) as [Err|L]; [by eexists|].
  destruct (GetInterface (InterfaceHashTable st) L) as [p|].
  - destruct (negb (LINKTYPE_eqb _ _)); by eexists.
  - destruct (prop_MiniportIfIndex ev); by eexists.
Qed.

Lemma ProcessTrace_pass1 evs st :
  Pass2 st = false ->
  exists st', ProcessTrace evs st = Returns st' /\ pass1_untouched st st'.
Proof.
  revert st. induction evs as [|ev evs IH]; intros st HP.
  - exists st. split; [done|]. by apply pass1_untouched_refl.
  - destruct (EventCallback_pass1_Returns ev st HP) as [st1 E].
    pose proof (callback_step_pass1 _ _ _ (EventCallback_step _ _ _ E) HP)
      as Hu.
    destruct (IH st1) as (st' & H & Hu'); [apply Hu|].
    exists st'. split.
    + cbn [ProcessTrace]. by rewrite E.
    + by eapply pass1_untouched_trans.
Qed.


(* ------------------------------------------------------------------ *)
(** ** The first sighting of an interface decides its record *)

Lemma lookup_interface_None st L :
  GetInterface (InterfaceHashTable st) L = None <->
  lookup_interface st L = None.
Proof.
  unfold lookup_interface. split; [by intros ->|].
  destruct (GetInterface (InterfaceHashTable st) L) as [p|] eqn:HG; [|done].
  destruct (GetInterface_deref _ _ _ HG) as (I & HI & _).
  cbn [mbind option_bind]. by rewrite HI.
Qed.

Lemma callback_step_pass1_lookup ev st st' L I :
  callback_step ev st st' -> Pass2 st = false ->
  length (InterfaceHashTable st) = Z.to_nat IFACE_HT_SIZE ->
  lookup_interface st L = Some I -> lookup_interface st' L = Some I.
Proof.
  intros H HP Hlen HL.
  destruct H as [ | line | L0 M _ _ _ _ Hnew | m _ HP2 _
                | n bytes _ _ HP2 _ _ _ _ _
                | L0 p IfIndex n bytes call _ _ HP2 _ _ _ _ _ _ _ _ _ ];
    try congruence; try done.
  rewrite lookup_interface_AddInterface_ne; [done..|].
  intros ->. apply lookup_interface_None in Hnew. congruence.
Qed.

Lemma ProcessTrace_pass1_lookup evs st st' L I :
  ProcessTrace evs st = Returns st' -> Pass2 st = false ->
  length (InterfaceHashTable st) = Z.to_nat IFACE_HT_SIZE ->
  lookup_interface st L = Some I -> lookup_interface st' L = Some I.
Proof.
  revert st. induction evs as [|ev evs IH]; intros st H HP Hlen HL.
  - by injection H as <-.
  - cbn [ProcessTrace] in H.
    destruct (EventCallback ev st) as [st1| |] eqn:E; [|done..].
    apply EventCallback_step in E.
    destruct (callback_step_pass1 _ _ _ E HP) as (HP1 & _ & _ & _ & _ & _ & _ & Hl).
    apply (IH st1 H HP1); [congruence|].
    by eapply callback_step_pass1_lookup.
Qed.

Lemma EventCallback_first_sighting ev st L M :
  Pass2 st = false -> is_capture_event ev = true ->
  prop_LowerIfIndex ev = TdhData L -> prop_MiniportIfIndex ev = TdhData M ->
  GetInterface (InterfaceHashTable st) L = None ->
  EventCallback ev st
  = Returns (AddInterface L M (media_type (Keyword ev)) st).
Proof.
  intros HP Hcap HL HM HG. unfold EventCallback, EventCallback_pass1.
  unfold is_capture_event in Hcap.
  destruct (IsEqualGUID (ProviderId ev) NdisCapId),
    (Id ev =? tidPacketFragment), (Id ev =? tidPacketMetadata),
    (Id ev =? tidVMSwitchPacketFragment); try done;
    cbn [negb orb andb]; by rewrite HL, HP, HG, HM.
Qed.

(** X4. The first event that names an interface decides its record: when
    pass 1 meets a capture event with readable [LowerIfIndex] [L] and
    [MiniportIfIndex] [M] and [L] is not yet registered, then at the end
    of the pass [GetInterface] finds for [L] the record with that [M] and
    the media type of that event's keywords, whatever the later events
    for [L] say. *)
Theorem X4_first_sighting_decides (ev : EVENT_RECORD)
    (evs : list EVENT_RECORD) (st st' : State) (L M : Z) :
  Pass2 st = false ->
  length (InterfaceHashTable st) = Z.to_nat IFACE_HT_SIZE ->
  is_capture_event ev = true ->
  prop_LowerIfIndex ev = TdhData L -> prop_MiniportIfIndex ev = TdhData M ->
  GetInterface (InterfaceHashTable st) L = None ->
  ProcessTrace (ev :: evs) st = Returns st' ->
  lookup_interface st' L
  = Some {| LowerIfIndex := L; MiniportIfIndex := M;
            PcapNgIfIndex := None; Type' := media_type (Keyword ev) |}.
Proof.
  intros HP Hlen Hcap HL HM HG H.
  rewrite (ProcessTrace_cons _ _ _ _
             (EventCallback_first_sighting ev st L M HP Hcap HL HM HG)) in H.
  eapply ProcessTrace_pass1_lookup; [exact H|done| |].
  - unfold AddInterface.
    cbn [InterfaceHashTable set_NumInterfaces set_InterfaceHashTable].
    by rewrite length_insert.
  - by apply lookup_interface_AddInterface.
Qed.

Lemma X4_first_sighting_decides_witness :
  lookup_interface scenario_registry 7
  = Some {| LowerIfIndex := 7; MiniportIfIndex := 5;
            PcapNgIfIndex := None;
            Type' := media_type (Z.lor KW_PACKET_START KW_PACKET_END) |}.
Proof.
  apply (X4_first_sighting_decides
           (fragment_event 7 5 (Z.lor KW_PACKET_START KW_PACKET_END)
              116444736000000000 4 [1; 2; 3])
           [ fragment_event 5 5 (Z.lor KW_PACKET_START KW_PACKET_END)
               116444736000000010 4 [4; 5];
             fragment_event 3 3 (Z.lor KW_PACKET_START KW_PACKET_END)
               116444736000000020 4 [6] ]
           initial_state scenario_registry 7 5).
  - reflexivity.
  - apply length_initial_table.
  - reflexivity.
  - reflexivity.
  - reflexivity.
  - reflexivity.
  - apply scenario_pass1.
Defined.

(* ------------------------------------------------------------------ *)
(** ** [WriteInterfaces] leaves the lookups and the frame state alone *)

Lemma same_lowers_refl ht : same_lowers ht ht.
Proof. by intros b. Qed.

Lemma same_lowers_trans ht1 ht2 ht3 :
  same_lowers ht1 ht2 -> same_lowers ht2 ht3 -> same_lowers ht1 ht3.
Proof. intros H12 H23 b. by rewrite H23, H12. Qed.

Lemma WriteInterfaces_body_lowers arr st i :
  same_lowers (InterfaceHashTable st)
              (InterfaceHashTable (WriteInterfaces_body arr st i))
  /\ Pass2 (WriteInterfaces_body arr st i) = Pass2 st.
Proof.
  unfold WriteInterfaces_body. destruct (arr !! i) as [p|].
  - split; [|done]. intros b. cbn. apply store_lowers.
  - split; [apply same_lowers_refl|done].
Qed.

Lemma WriteInterfaces_loop_lowers arr l st :
  same_lowers (InterfaceHashTable st)
    (InterfaceHashTable (fold_left (WriteInterfaces_body arr) l st))
  /\ Pass2 (fold_left (WriteInterfaces_body arr) l st) = Pass2 st.
Proof.
  revert st. induction l as [|i l IH]; intros st.
  - split; [apply same_lowers_refl|done].
  - cbn [fold_left].
    destruct (WriteInterfaces_body_lowers arr st i) as [Hs HP].
    destruct (IH (WriteInterfaces_body arr st i)) as [Hs' HP'].
    split; [by eapply same_lowers_trans|congruence].
Qed.

Lemma WriteInterfaces_GetInterface qsort st L :
  GetInterface (InterfaceHashTable (WriteInterfaces qsort st)) L
  = GetInterface (InterfaceHashTable st) L.
Proof.
  apply same_lowers_GetInterface. unfold WriteInterfaces.
  apply WriteInterfaces_loop_lowers.
Qed.

(* ------------------------------------------------------------------ *)
(** ** An interface pass 1 could not register stops pass 2 *)

Lemma capture_guard ev :
  negb (IsEqualGUID (ProviderId ev) NdisCapId)
  || negb (Id ev =? tidPacketFragment) && negb (Id ev =? tidPacketMetadata)
     && negb (Id ev =? tidVMSwitchPacketFragment)
  = negb (is_capture_event ev).
Proof.
  unfold is_capture_event.
  by destruct (IsEqualGUID (ProviderId ev) NdisCapId),
    (Id ev =? tidPacketFragment), (Id ev =? tidPacketMetadata),
    (Id ev =? tidVMSwitchPacketFragment).
Qed.

Lemma EventCallback_unregistered ev st L :
  Pass2 st = true -> is_capture_event ev = true ->
  prop_LowerIfIndex ev = TdhData L ->
  GetInterface (InterfaceHashTable st) L = None ->
  EventCallback ev st = Exits 1 (printf MsgUnrecognizedIfIndex st).
Proof.
  intros HP Hcap HL HG. unfold EventCallback.
  rewrite capture_guard, Hcap, HL, HP. cbn [negb]. cbv zeta.
  by rewrite HG.
Qed.

Lemma callback_step_pass1_miss ev st st' L :
  callback_step ev st st' -> Pass2 st = false ->
  length (InterfaceHashTable st) = Z.to_nat IFACE_HT_SIZE ->
  (prop_LowerIfIndex ev = TdhData L ->
   exists Err, prop_MiniportIfIndex ev = TdhError Err) ->
  GetInterface (InterfaceHashTable st) L = None ->
  GetInterface (InterfaceHashTable st') L = None.
Proof.
  intros H HP Hlen Hno HG.
  destruct H as [ | line | L0 M _ _ HL0 HM0 _ | m _ HP2 _
                | n bytes _ _ HP2 _ _ _ _ _
                | L0 p IfIndex n bytes call _ _ HP2 _ _ _ _ _ _ _ _ _ ];
    try congruence; try done.
  apply lookup_interface_None.
  rewrite lookup_interface_AddInterface_ne; [by apply lookup_interface_None|done|].
  intros ->. destruct (Hno HL0) as [Err HErr]. congruence.
Qed.

Lemma ProcessTrace_pass1_miss evs st st' L :
  ProcessTrace evs st = Returns st' -> Pass2 st = false ->
  length (InterfaceHashTable st) = Z.to_nat IFACE_HT_SIZE ->
  (forall ev, ev ∈ evs -> prop_LowerIfIndex ev = TdhData L ->
              exists Err, prop_MiniportIfIndex ev = TdhError Err) ->
  GetInterface (InterfaceHashTable st) L = None ->
  GetInterface (InterfaceHashTable st') L = None.
Proof.
  revert st. induction evs as [|ev evs IH]; intros st H HP Hlen Hno HG.
  - by injection H as <-.
  - cbn [ProcessTrace] in H.
    destruct (EventCallback ev st) as [st1| |] eqn:E; [|done..].
    apply EventCallback_step in E.
    destruct (callback_step_pass1 _ _ _ E HP)
      as (HP1 & _ & _ & _ & _ & _ & _ & Hl).
    apply (IH st1 H HP1); [congruence| |].
    + intros ev' Hin. apply Hno. by apply elem_of_cons; right.
    + eapply callback_step_pass1_miss; try done.
      apply Hno. by apply elem_of_cons; left.
Qed.

Lemma GetInterface_initial L :
  GetInterface (InterfaceHashTable initial_state) L = None.
Proof.
  unfold GetInterface. cbv zeta.
  replace (chain_at (InterfaceHashTable initial_state) (bucket_of L))
    with (@nil INTERFACE); [done|].
  unfold chain_at, initial_state. cbn [InterfaceHashTable].
  destruct (replicate (Z.to_nat IFACE_HT_SIZE) [] !! bucket_of L)
    as [chain|] eqn:E; [|done].
  apply lookup_replicate in E as [-> _]. done.
Qed.


(* ------------------------------------------------------------------ *)
(** ** The conversion runs to its end *)

Lemma EventCallback_pass1_registers ev st st' L M :
  EventCallback ev st = Returns st' -> Pass2 st = false ->
  length (InterfaceHashTable st) = Z.to_nat IFACE_HT_SIZE ->
  is_capture_event ev = true ->
  prop_LowerIfIndex ev = TdhData L -> prop_MiniportIfIndex ev = TdhData M ->
  is_Some (lookup_interface st' L).
Proof.
  intros E HP Hlen Hcap HL HM'.
  destruct (GetInterface (InterfaceHashTable st) L) as [p|] eqn:HG.
  - destruct (GetInterface_deref _ _ _ HG) as (I & HI & _).
    exists I. eapply callback_step_pass1_lookup;
      [by apply EventCallback_step|done..|].
    unfold lookup_interface. rewrite HG. exact HI.
  - rewrite (EventCallback_first_sighting ev st L M) in E by done.
    injection E as <-. eexists. by apply lookup_interface_AddInterface.
Qed.

Lemma ProcessTrace_pass1_registers evs st st' :
  ProcessTrace evs st = Returns st' -> Pass2 st = false ->
  length (InterfaceHashTable st) = Z.to_nat IFACE_HT_SIZE ->
  forall ev L M, ev ∈ evs -> is_capture_event ev = true ->
    prop_LowerIfIndex ev = TdhData L -> prop_MiniportIfIndex ev = TdhData M ->
    is_Some (lookup_interface st' L).
Proof.
  revert st. induction evs as [|ev0 evs IH]; intros st H HP Hlen ev L M Hin.
  - by apply elem_of_nil in Hin.
  - cbn [ProcessTrace] in H.
    destruct (EventCallback ev0 st) as [st1| |] eqn:E; [|done..].
    pose proof (EventCallback_step _ _ _ E) as Hstep.
    destruct (callback_step_pass1 _ _ _ Hstep HP)
      as (HP1 & _ & _ & _ & _ & _ & _ & Hl).
    apply elem_of_cons in Hin as [->|Hin].
    + intros Hcap HL HM.
      destruct (EventCallback_pass1_registers _ _ _ L M E) as [I HI];
        try done.
      exists I. eapply ProcessTrace_pass1_lookup; [exact H|done| |done].
      congruence.
    + apply (IH st1 H HP1); [congruence|done].
Qed.

Lemma WriteInterfaces_numbers qsort st L I :
  qsort_contract qsort -> registry_wf st ->
  lookup_interface st L = Some I ->
  exists p i,
    finalized_order qsort st !! i = Some I /\ LowerIfIndex I = L /\
    GetInterface (InterfaceHashTable (WriteInterfaces qsort st)) L = Some p /\
    deref (InterfaceHashTable (WriteInterfaces qsort st)) p
    = Some (numbered i I).
Proof.
  intros Hq Hwf HL. unfold lookup_interface in HL.
  destruct (GetInterface (InterfaceHashTable st) L) as [p0|] eqn:HG;
    [|done].
  cbn [mbind option_bind] in HL.
  destruct (GetInterface_deref _ _ _ HG) as (I' & HI' & Hlow & Hin).
  assert (I' = I) as -> by congruence.
  apply chain_at_elem_of in Hin.
  assert (I ∈ finalized_order qsort st) as Hfin.
  { by rewrite (finalized_order_perm qsort Hq st Hwf). }
  apply list_elem_of_lookup_1 in Hfin as [i Hi].
  destruct (WriteInterfaces_lookup qsort Hq st Hwf i I Hi) as (p & Hp & Hd).
  exists p, i. rewrite Hlow in Hp. done.
Qed.

Lemma callback_step_pass2_ready evs ev st st' :
  callback_step ev st st' -> pass2_ready evs st ->
  (forall m, prop_Metadata ev = TdhData m -> 0 <= uPhyId m <= 10) ->
  pass2_ready evs st'.
Proof.
  intros H (HP & Hreg & Hphy) Hmeta.
  destruct H as [ | line | L0 M _ HP1 _ _ _ | m _ _ [_ _ Hm]
                | n bytes _ _ _ _ _ _ _ _
                | L0 p IfIndex n bytes call _ _ _ _ _ _ _ _ _ _ _ _ ];
    try congruence; try done.
  split; [done|]. split; [done|]. by apply Hmeta.
Qed.

Lemma EventCallback_pass2_Returns evs ev st :
  pass2_ready evs st -> ev ∈ evs ->
  exists st', EventCallback ev st = Returns st'.
Proof.
  intros (HP & Hreg & Hphy) Hin.
  destruct (is_capture_event ev) eqn:Hcap;
    [|rewrite EventCallback_not_capture by done; by eexists].
  unfold EventCallback. rewrite capture_guard, Hcap, HP. cbn [negb].
  destruct (prop_LowerIfIndex ev) as [Err|L] eqn:HL; [by eexists|].
  cbv zeta.
  destruct (Hreg ev L Hin Hcap HL) as (p & i & HG & Hi). rewrite HG.
  assert (exists st', EventCallback_metadata ev st = Returns st') as Hm.
  { unfold EventCallback_metadata.
    destruct (prop_MetadataSize ev); [by eexists|].
    destruct (negb _); [by eexists|].
    destruct (prop_Metadata ev); by eexists. }
  destruct (Id ev =? tidPacketMetadata); [done|].
  unfold EventCallback_fragment.
  destruct (prop_FragmentSize ev) as [Err|n]; [by eexists|].
  destruct (_ <? n); [by eexists|].
  destruct (TdhGetProperty_bytes (prop_Fragment ev) n) as [Err|bytes];
    [by eexists|].
  cbv zeta. fold (with_fragment bytes st).
  destruct (has_keyword (Keyword ev) KW_PACKET_END); [|by eexists].
  destruct (AddMetadata st) eqn:HA.
  - destruct (proj2 (phy_type_name_lookup
                       (uPhyId (PacketMetadata st)) (proj1 Hphy))
                    (proj2 Hphy)) as [name Hname].
    rewrite (packet_end_metadata ev p n (with_fragment bytes st) i name);
      by eauto.
  - rewrite (packet_end_plain ev p n (with_fragment bytes st) i);
      by eauto.
Qed.

Lemma ProcessTrace_pass2_ready evs evs' st :
  pass2_ready evs st -> evs' ⊆ evs -> Forall convertible evs' ->
  exists st', ProcessTrace evs' st = Returns st' /\ pass2_ready evs st'.
Proof.
  revert st. induction evs' as [|ev evs' IH]; intros st Hr Hsub Hconv.
  - by exists st.
  - apply Forall_cons in Hconv as [Hc Hconv].
    assert (ev ∈ evs) as Hin by (apply Hsub; by left).
    destruct (EventCallback_pass2_Returns evs ev st Hr Hin) as [st1 E].
    assert (pass2_ready evs st1) as Hr1.
    { destruct (is_capture_event ev) eqn:Hcap.
      - eapply callback_step_pass2_ready;
          [by apply EventCallback_step|done|].
        apply (proj2 (Hc Hcap)).
      - rewrite EventCallback_not_capture in E by done.
        by injection E as <-. }
    destruct (IH st1 Hr1) as (st' & H & Hr'); [set_solver|done|].
    exists st'. split; [|done]. cbn [ProcessTrace]. by rewrite E.
Qed.

Lemma buffer_ok_initial : buffer_ok initial_state.
Proof.
  split.
  - unfold initial_state. cbn [AuxFragBuf]. apply length_replicate.
  - unfold initial_state. cbn [AuxFragBufOffset]. unfold MAX_PACKET_SIZE. lia.
Qed.

Lemma convert_returns (qsort : QSORT) (evs : list EVENT_RECORD) :
  qsort_contract qsort ->
  Z.of_nat (length evs) < 2 ^ 32 ->
  Forall convertible evs ->
  exists st1 st',
    ProcessTrace evs initial_state = Returns st1 /\
    convert qsort evs = Returns st' /\
    buffer_ok st' /\
    exists packets,
      OutFile st'
      = (interface_desc <$> finalized_order qsort st1) ++ packets /\
      Forall is_packet packets /\
      NumFramesConverted st' = Z.of_nat (length packets).
Proof.
  intros Hq Hn Hconv.
  destruct (ProcessTrace_pass1 evs initial_state) as (st1 & H1 & Hu);
    [done|].
  destruct Hu as (HP1 & HO1 & HN1 & HB1 & HF1 & HM1 & HA1 & HL1).
  destruct (pass1_registry_wf evs st1 Hn H1) as [Hwf _].
  pose proof (WriteInterfaces_numbered qsort Hq st1 Hwf) as Hnum.
  destruct (nu_frame _ _ _ _ Hnum) as (HN2 & HP2 & HB2 & HF2 & HM2 & HA2 & _).
  set (st2 := set_Pass2 true (WriteInterfaces qsort st1)).
  assert (pass2_ready evs st2) as Hr.
  { split; [done|]. split.
    - intros ev L Hin Hcap HL.
      assert (convertible ev) as Hc
        by (eapply Forall_forall; [exact Hconv|exact Hin]).
      destruct (proj1 (Hc Hcap) L HL) as [M HM].
      destruct (ProcessTrace_pass1_registers evs initial_state st1 H1
                  eq_refl length_initial_table ev L M Hin Hcap HL HM)
        as [I HI].
      destruct (WriteInterfaces_numbers qsort st1 L I Hq Hwf HI)
        as (p & i & _ & _ & HG & Hd).
      exists p, (Z.of_nat i). split; [exact HG|].
      unfold st2. cbn [InterfaceHashTable set_Pass2].
      by rewrite (deref_load _ _ _ Hd).
    - unfold st2. cbn [PacketMetadata set_Pass2].
      rewrite HM2, HM1. done. }
  destruct (ProcessTrace_pass2_ready evs evs st2 Hr) as (st' & H2 & _);
    [done..|].
  exists st1, st'. split; [done|]. split.
  { unfold convert. by rewrite H1. }
  split.
  { eapply ProcessTrace_buffer_ok; [exact H2|].
    destruct buffer_ok_initial as [Hl Ho].
    split; unfold st2; cbn [AuxFragBuf AuxFragBufOffset set_Pass2];
      congruence. }
  destruct (ProcessTrace_counter evs st2 st' H2)
    as (packets & HO & HF & _ & HN).
  { unfold st2. cbn [NumFramesConverted set_Pass2]. rewrite HN2, HN1. done. }
  { unfold st2. cbn [NumFramesConverted set_Pass2]. rewrite HN2, HN1.
    change (NumFramesConverted initial_state) with 0. lia. }
  exists packets. split; [|split; [done|]].
  - rewrite HO. unfold st2. cbn [OutFile set_Pass2].
    rewrite (WriteInterfaces_OutFile qsort Hq st1 Hwf), HO1. done.
  - rewrite HN. unfold st2. cbn [NumFramesConverted set_Pass2].
    rewrite HN2, HN1. done.
Qed.


Lemma convertible_fragment_event L M K T P bytes :
  convertible (fragment_event L M K T P bytes).
Proof. intros _. split; [intros L' _; by exists M|intros m Hm; done]. Qed.


(* ------------------------------------------------------------------ *)
(** ** The interface a packet is attributed to *)

Lemma callback_step_pass2_table ev st st' :
  callback_step ev st st' -> Pass2 st = true ->
  InterfaceHashTable st' = InterfaceHashTable st /\ Pass2 st' = true.
Proof.
  intros H HP.
  destruct H as [ | line | L0 M _ HP1 _ _ _ | m _ _ _
                | n bytes _ _ _ _ _ _ _ _
                | L0 p IfIndex n bytes call _ _ _ _ _ _ _ _ _ _ _ _ ];
    try congruence; done.
Qed.

Lemma ProcessTrace_pass2_table evs st st' :
  ProcessTrace evs st = Returns st' -> Pass2 st = true ->
  InterfaceHashTable st' = InterfaceHashTable st /\ Pass2 st' = true.
Proof.
  revert st. induction evs as [|ev evs IH]; intros st H HP.
  - by injection H as <-.
  - cbn [ProcessTrace] in H.
    destruct (EventCallback ev st) as [st1| |] eqn:E; [|done..].
    destruct (callback_step_pass2_table _ _ _ (EventCallback_step _ _ _ E) HP)
      as [Ht HP1].
    destruct (IH st1 H HP1) as [Ht' HP']. split; congruence.
Qed.

(** X13. A packet goes to the interface of the event that ends its frame,
    under the number [WriteInterfaces] gave it: whenever, at any point of
    pass 2, the callback hands a packet to the writer, the event's
    [LowerIfIndex] is that of the record at some position [i] of the
    finalized order, which is the position of that interface's
    description in the file, and the packet's interface id is [i] (read
    back through a signed 32-bit parameter when metadata is pending). *)
Theorem X13_packet_interface_id (qsort : QSORT) (st1 st st' : State)
    (evs : list EVENT_RECORD) (ev : EVENT_RECORD) :
  qsort_contract qsort -> registry_wf st1 ->
  ProcessTrace evs (set_Pass2 true (WriteInterfaces qsort st1)) = Returns st ->
  EventCallback ev st = Returns st' ->
  OutFile st' = OutFile st
  \/ exists call L i I,
       OutFile st' = OutFile st ++ [call] /\
       prop_LowerIfIndex ev = TdhData L /\
       finalized_order qsort st1 !! i = Some I /\ LowerIfIndex I = L /\
       packet_InterfaceId call
       = if AddMetadata st then Word.s32 (Z.of_nat i) else Z.of_nat i.
Proof.
  intros Hq Hwf Hpre E.
  destruct (ProcessTrace_pass2_table _ _ _ Hpre eq_refl) as [Ht _].
  cbn [InterfaceHashTable set_Pass2] in Ht.
  apply EventCallback_step in E.
  destruct E as [ | line | L0 M _ _ _ _ _ | m _ _ _
                | n bytes _ _ _ _ _ _ _ _
                | L p IfIndex n bytes call _ _ _ HL HG HI _ _ _ _ _ Hcall ];
    try (by left).
  right. rewrite Ht in HG, HI.
  pose proof HG as HG1. rewrite WriteInterfaces_GetInterface in HG1.
  destruct (GetInterface_deref _ _ _ HG1) as (I & Hd & _ & _).
  assert (lookup_interface st1 L = Some I) as Hlook.
  { unfold lookup_interface. by rewrite HG1. }
  destruct (WriteInterfaces_numbers qsort st1 L I Hq Hwf Hlook)
    as (p' & i & Hi & Hlow & HG' & Hd').
  assert (p' = p) as -> by congruence.
  rewrite (deref_load _ _ _ Hd') in HI. cbn [PcapNgIfIndex numbered] in HI.
  injection HI as <-.
  exists call, L, i, I. split; [apply OutFile_after_packet_with_fragment|].
  split; [done|]. split; [done|]. split; [done|].
  unfold pending_metadata in Hcall. destruct (AddMetadata st).
  - destruct Hcall as (name & _ & ->). done.
  - by rewrite Hcall.
Qed.

Lemma X13_packet_interface_id_witness :
  OutFile (after_packet
             (plain_packet wifi_frame
                (with_fragment [0x08; 0xC0; 0x01; 0x02] scenario_pass2) 4 1)
             wifi_frame
             (with_fragment [0x08; 0xC0; 0x01; 0x02] scenario_pass2))
  = OutFile scenario_pass2
  \/ exists call L i I,
       OutFile (after_packet
                  (plain_packet wifi_frame
                     (with_fragment [0x08; 0xC0; 0x01; 0x02] scenario_pass2)
                     4 1)
                  wifi_frame
                  (with_fragment [0x08; 0xC0; 0x01; 0x02] scenario_pass2))
       = OutFile scenario_pass2 ++ [call] /\
       prop_LowerIfIndex wifi_frame = TdhData L /\
       finalized_order insertion_qsort scenario_registry !! i = Some I /\
       LowerIfIndex I = L /\
       packet_InterfaceId call
       = if AddMetadata scenario_pass2
         then Word.s32 (Z.of_nat i) else Z.of_nat i.
Proof.
  apply (X13_packet_interface_id insertion_qsort scenario_registry
           scenario_pass2 _ [] wifi_frame).
  - apply insertion_qsort_contract.
  - apply scenario_registry_wf.
  - reflexivity.
  - apply scenario_wifi_frame.
Defined.

(* ------------------------------------------------------------------ *)
(** ** One fragment buffer for all interfaces *)

Lemma accumulating_switch L p IfIndex L' p' IfIndex' acc st st1 :
  accumulating L p IfIndex acc st1 ->
  InterfaceHashTable st1 = InterfaceHashTable st ->
  GetInterface (InterfaceHashTable st) L' = Some p' ->
  PcapNgIfIndex (load (InterfaceHashTable st) p') = Some IfIndex' ->
  accumulating L' p' IfIndex' acc st1.
Proof.
  intros [HP _ _ Hl Ho Hb] Ht HG HI.
  split; try done; by rewrite Ht.
Qed.

(** X15. The fragment buffer is shared by all interfaces: a fragment
    without [KW_PACKET_END] on one registered interface followed by a
    fragment with [KW_PACKET_END] on another gives one packet, attributed
    to the second interface, whose payload is the bytes of both fragments
    behind those already pending. *)
Theorem X15_one_buffer_for_all_interfaces (st : State)
    (L1 L2 : Z) (p1 p2 : IFACE_PTR) (i1 i2 : Z) (acc b1 b2 : list Z)
    (ev1 ev2 : EVENT_RECORD) :
  accumulating L1 p1 i1 acc st ->
  accumulating L2 p2 i2 acc st ->
  AddMetadata st = false ->
  fragment_on L1 ev1 b1 ->
  has_keyword (Keyword ev1) KW_PACKET_END = false ->
  fragment_on L2 ev2 b2 ->
  has_keyword (Keyword ev2) KW_PACKET_END = true ->
  has_keyword (Keyword ev2) KW_MEDIA_NATIVE_802_11 = false ->
  Z.of_nat (length (acc ++ b1 ++ b2)) <= MAX_PACKET_SIZE ->
  exists st' call,
    ProcessTrace [ev1; ev2] st = Returns st' /\
    OutFile st' = OutFile st ++ [call] /\
    packet_InterfaceId call = i2 /\
    packet_payload call = acc ++ b1 ++ b2.
Proof.
  intros H1 H2 HA Hf1 He1 Hf2 He2 Hw Hfit.
  destruct (accumulate_fragment L1 p1 i1 acc st ev1 b1 H1 Hf1 He1)
    as (st1 & E1 & Hacc1 & HO1 & HA1 & _).
  { rewrite !length_app in *. lia. }
  destruct (callback_step_pass2_table _ _ _ (EventCallback_step _ _ _ E1)
              (ac_pass2 _ _ _ _ _ H1)) as [Ht _].
  pose proof (accumulating_switch _ _ _ L2 p2 i2 _ st st1 Hacc1 Ht
                (ac_iface _ _ _ _ _ H2) (ac_index _ _ _ _ _ H2)) as Hacc2.
  destruct (accumulate_frame_end L2 p2 i2 (acc ++ b1) st1 ev2 b2 Hacc2 Hf2 He2)
    as (st' & call & E2 & HO2 & _ & Hid & Hpay & _).
  { by rewrite <- app_assoc. }
  { congruence. }
  exists st', call. split.
  { rewrite (ProcessTrace_cons _ _ _ _ E1). by apply ProcessTrace_one. }
  split; [congruence|]. split; [done|].
  rewrite Hpay, Hw. by rewrite <- app_assoc.
Qed.

Lemma scenario_accumulating_7 :
  accumulating 7 (7%nat, 0%nat) 2 [] scenario_pass2.
Proof.
  destruct scenario_accumulating_5 as [HP _ _ Hl Ho Hb].
  split; [exact HP| |exact scenario_pass2_index_7|exact Hl|exact Ho|exact Hb].
  apply scenario_pass2_relevant_7.
Qed.

Lemma X15_one_buffer_for_all_interfaces_witness :
  exists st' call,
    ProcessTrace
      [fragment_event 7 5 KW_PACKET_START 116444736025000000 1234 [0xAA; 0xBB];
       last_fragment] scenario_pass2 = Returns st' /\
    OutFile st' = OutFile scenario_pass2 ++ [call] /\
    packet_InterfaceId call = 1 /\
    packet_payload call = [] ++ [0xAA; 0xBB] ++ [0x01; 0x02].
Proof.
  apply (X15_one_buffer_for_all_interfaces scenario_pass2 7 5
           (7%nat, 0%nat) (5%nat, 0%nat) 2 1 [] [0xAA; 0xBB] [0x01; 0x02]).
  - apply scenario_accumulating_7.
  - apply scenario_accumulating_5.
  - exact (proj2 (proj2 scenario_pass2_buffer)).
  - repeat split; try reflexivity. by left.
  - reflexivity.
  - repeat split; try reflexivity. by left.
  - reflexivity.
  - reflexivity.
  - cbn. unfold MAX_PACKET_SIZE. lia.
Defined.

(* ------------------------------------------------------------------ *)
(** ** What [WriteInterfaces] leaves alone *)

Lemma WriteInterfaces_body_frame arr st i :
  let st' := WriteInterfaces_body arr st i in
  (forall p I, deref (InterfaceHashTable st) p = Some I ->
     exists I', deref (InterfaceHashTable st') p = Some I' /\
                LowerIfIndex I' = LowerIfIndex I /\
                MiniportIfIndex I' = MiniportIfIndex I /\
                Type' I' = Type' I) /\
  (exists descs,
     OutFile st' = OutFile st ++ descs /\
     Forall (fun c => exists T,
               c = PcapNgWriteInterfaceDesc T MAX_PACKET_SIZE) descs) /\
  NumFramesConverted st' = NumFramesConverted st /\
  AuxFragBuf st' = AuxFragBuf st /\
  AuxFragBufOffset st' = AuxFragBufOffset st /\
  PacketMetadata st' = PacketMetadata st /\
  AddMetadata st' = AddMetadata st /\
  NumInterfaces st' = NumInterfaces st /\
  length (InterfaceHashTable st') = length (InterfaceHashTable st).
Proof.
  unfold WriteInterfaces_body. destruct (arr !! i) as [q|]; cbv zeta.
  - split.
    { intros p I HI. cbn [InterfaceHashTable printf pcapng set_Console
        set_OutFile set_InterfaceHashTable].
      rewrite deref_store. destruct (decide (q = p)) as [->|_].
      - rewrite HI. by eexists.
      - by exists I. }
    split.
    { eexists [_]. split; [reflexivity|]. constructor; [by eexists|done]. }
    repeat split. cbn. apply length_store.
  - split; [intros p I HI; by exists I|].
    split; [exists []; by rewrite app_nil_r|]. done.
Qed.

Lemma WriteInterfaces_loop_frame arr l st :
  let st' := fold_left (WriteInterfaces_body arr) l st in
  (forall p I, deref (InterfaceHashTable st) p = Some I ->
     exists I', deref (InterfaceHashTable st') p = Some I' /\
                LowerIfIndex I' = LowerIfIndex I /\
                MiniportIfIndex I' = MiniportIfIndex I /\
                Type' I' = Type' I) /\
  (exists descs,
     OutFile st' = OutFile st ++ descs /\
     Forall (fun c => exists T,
               c = PcapNgWriteInterfaceDesc T MAX_PACKET_SIZE) descs) /\
  NumFramesConverted st' = NumFramesConverted st /\
  AuxFragBuf st' = AuxFragBuf st /\
  AuxFragBufOffset st' = AuxFragBufOffset st /\
  PacketMetadata st' = PacketMetadata st /\
  AddMetadata st' = AddMetadata st /\
  NumInterfaces st' = NumInterfaces st /\
  length (InterfaceHashTable st') = length (InterfaceHashTable st).
Proof.
  revert st. induction l as [|i l IH]; intros st; cbv zeta.
  - split; [intros p I HI; by exists I|].
    split; [exists []; by rewrite app_nil_r|]. done.
  - cbn [fold_left].
    destruct (WriteInterfaces_body_frame arr st i)
      as (Hr & (d1 & HO & HF) & H1 & H2 & H3 & H4 & H5 & H6 & H7).
    destruct (IH (WriteInterfaces_body arr st i))
      as (Hr' & (d2 & HO' & HF') & H1' & H2' & H3' & H4' & H5' & H6' & H7').
    split.
    { intros p I HI. destruct (Hr p I HI) as (I1 & HI1 & ? & ? & ?).
      destruct (Hr' p I1 HI1) as (I2 & HI2 & ? & ? & ?).
      exists I2. repeat split; congruence. }
    split.
    { exists (d1 ++ d2). split.
      - by rewrite HO', HO, app_assoc.
      - by apply Forall_app. }
    repeat split; congruence.
Qed.

(** X16. [WriteInterfaces] changes the [PcapNgIfIndex] fields, the file
    and the console, and nothing else, whatever [qsort] does: every
    lookup finds the record it found before, with its [LowerIfIndex],
    [MiniportIfIndex] and type; the blocks appended to the file are
    interface descriptions with snap length [MAX_PACKET_SIZE]; and
    [Pass2], the frame counter, the fragment buffer, the metadata slot
    and [NumInterfaces] are as before. *)
Theorem X16_WriteInterfaces_frame (qsort : QSORT) (st : State) :
  (forall L,
     GetInterface (InterfaceHashTable (WriteInterfaces qsort st)) L
     = GetInterface (InterfaceHashTable st) L) /\
  (forall p I, deref (InterfaceHashTable st) p = Some I ->
     exists I',
       deref (InterfaceHashTable (WriteInterfaces qsort st)) p = Some I' /\
       LowerIfIndex I' = LowerIfIndex I /\
       MiniportIfIndex I' = MiniportIfIndex I /\
       Type' I' = Type' I) /\
  (exists descs,
     OutFile (WriteInterfaces qsort st) = OutFile st ++ descs /\
     Forall (fun c => exists T,
               c = PcapNgWriteInterfaceDesc T MAX_PACKET_SIZE) descs) /\
  Pass2 (WriteInterfaces qsort st) = Pass2 st /\
  NumFramesConverted (WriteInterfaces qsort st) = NumFramesConverted st /\
  AuxFragBuf (WriteInterfaces qsort st) = AuxFragBuf st /\
  AuxFragBufOffset (WriteInterfaces qsort st) = AuxFragBufOffset st /\
  PacketMetadata (WriteInterfaces qsort st) = PacketMetadata st /\
  AddMetadata (WriteInterfaces qsort st) = AddMetadata st /\
  NumInterfaces (WriteInterfaces qsort st) = NumInterfaces st.
Proof.
  split; [intros L; apply WriteInterfaces_GetInterface|].
  unfold WriteInterfaces. cbv zeta.
  destruct (WriteInterfaces_loop_frame (SortedInterfaceArray qsort st)
              (seq 0 (Z.to_nat (NumInterfaces st))) st)
    as (Hr & HO & H1 & H2 & H3 & H4 & H5 & H6 & _).
  split; [exact Hr|]. split; [exact HO|].
  split; [apply WriteInterfaces_loop_lowers|].
  done.
Qed.

(* ------------------------------------------------------------------ *)
(** ** [wmain] *)

Lemma packet_end_not_Exits ev p n st code st' :
  EventCallback_packet_end ev p n st <> Exits code st'.
Proof.
  destruct (PcapNgIfIndex (load (InterfaceHashTable st) p)) as [i|] eqn:Hi.
  - destruct (AddMetadata st) eqn:HA.
    + destruct (DOT11_PHY_TYPE_NAMES
                  !! Z.to_nat (uPhyId (PacketMetadata st))) as [name|] eqn:E.
      * by rewrite (packet_end_metadata ev p n st i name).
      * by rewrite (packet_end_phy_out_of_bounds ev p n st i).
    + by rewrite (packet_end_plain ev p n st i).
  - unfold EventCallback_packet_end. cbv zeta.
    destruct (has_keyword (Keyword ev) KW_MEDIA_NATIVE_802_11);
      cbn [InterfaceHashTable set_AuxFragBuf]; by rewrite Hi.
Qed.

Lemma EventCallback_Exits ev st code st' :
  EventCallback ev st = Exits code st' ->
  code = 1 /\ Pass2 st = true /\ st' = printf MsgUnrecognizedIfIndex st.
Proof.
  unfold EventCallback.
  destruct (_ || _); [done|].
  destruct (prop_LowerIfIndex ev) as [Err|L]; [done|]. cbv zeta.
  destruct (Pass2 st) eqn:HP; cbn [negb].
  - destruct (GetInterface (InterfaceHashTable st) L) as [p|].
    + assert (EventCallback_metadata ev st <> Exits code st') as Hm.
      { unfold EventCallback_metadata.
        destruct (prop_MetadataSize ev); [done|].
        destruct (negb _); [done|].
        by destruct (prop_Metadata ev). }
      destruct (Id ev =? tidPacketMetadata); [done|].
      unfold EventCallback_fragment.
      destruct (prop_FragmentSize ev) as [Err|n]; [done|].
      destruct (_ <? n); [done|].
      destruct (TdhGetProperty_bytes (prop_Fragment ev) n); [done|].
      cbv zeta.
      destruct (has_keyword (Keyword ev) KW_PACKET_END); [|done].
      intros H. by apply packet_end_not_Exits in H.
    + by intros [= <- <-].
  - unfold EventCallback_pass1. cbv zeta.
    destruct (GetInterface (InterfaceHashTable st) L).
    + by destruct (negb _).
    + by destruct (prop_MiniportIfIndex ev).
Qed.

Lemma ProcessTrace_Exits evs st code st' :
  ProcessTrace evs st = Exits code st' ->
  code = 1 /\
  exists st0, Pass2 st0 = true /\ st' = printf MsgUnrecognizedIfIndex st0.
Proof.
  revert st. induction evs as [|ev evs IH]; intros st H; [done|].
  cbn [ProcessTrace] in H.
  destruct (EventCallback ev st) as [st1| |] eqn:E.
  - by apply (IH st1).
  - injection H as -> ->.
    apply EventCallback_Exits in E as (-> & HP & ->). split; [done|].
    by exists st.
  - done.
Qed.

Lemma ProcessTrace_Returns_Pass2 evs st st' :
  ProcessTrace evs st = Returns st' -> Pass2 st = true -> Pass2 st' = true.
Proof. intros H HP. by apply (ProcessTrace_pass2_table _ _ _ H HP). Qed.



(* ------------------------------------------------------------------ *)
(** ** [CombineMetadataWithPacket] on a known phy type *)

(** X19. When the phy type of the metadata record has a name,
    [CombineMetadataWithPacket] makes exactly one call of the writer and
    prints nothing: formatting the comment into the [MAX_PACKET_SIZE]
    buffer and measuring it cannot fail, the comment has from 96 to 166
    characters, so it is never passed as [NULL] and its length survives
    the conversion to [USHORT]; the buffer, interface id, direction and
    timestamp words are passed on as received. *)
Theorem X19_CombineMetadataWithPacket_call (FragBuf : list Z)
    (FragLength InterfaceId IsSend TimeStampHigh TimeStampLow : Z)
    (Metadata : DOT11_EXTSTA_RECV_CONTEXT) (ProcessId : Z) (st : State)
    (name : string) :
  DOT11_PHY_TYPE_NAMES !! Z.to_nat (uPhyId Metadata) = Some name ->
  CombineMetadataWithPacket FragBuf FragLength InterfaceId IsSend
    TimeStampHigh TimeStampLow Metadata ProcessId st
  = Returns
      (pcapng
         (PcapNgWriteEnhancedPacket FragBuf
            (Word.u64 (sizeof_DOT11_EXTSTA_RECV_CONTEXT + FragLength))
            InterfaceId IsSend TimeStampHigh TimeStampLow
            (Some (metadata_comment Metadata name ProcessId))
            (Printf.strlen (metadata_comment Metadata name ProcessId)))
         st)
  /\ 96 <= Printf.strlen (metadata_comment Metadata name ProcessId) <= 166.
Proof.
  intros Hname.
  pose proof (PrintfFacts.strlen_metadata_comment Metadata _ name ProcessId
                Hname) as Hlen.
  split; [|done].
  unfold CombineMetadataWithPacket. rewrite Hname.
  rewrite (PrintfFacts.StringCchPrintfA_metadata _ _ _ _ Hname).
  change (Printf.FAILED Printf.S_OK) with false. cbv iota.
  rewrite (PrintfFacts.StringCchLengthA_metadata _ _ _ _ Hname).
  change (Printf.FAILED Printf.S_OK) with false. cbv iota.
  destruct (Z.ltb_spec 0 (Printf.strlen
              (metadata_comment Metadata name ProcessId))); [|lia].
  rewrite u16_small; [done|lia].
Qed.

Lemma X19_CombineMetadataWithPacket_call_witness :
  CombineMetadataWithPacket [0x08; 0x80] 2 1 0 0 2500000
    (example_metadata 7) 1234 initial_state
  = Returns
      (pcapng
         (PcapNgWriteEnhancedPacket [0x08; 0x80]
            (Word.u64 (sizeof_DOT11_EXTSTA_RECV_CONTEXT + 2))
            1 0 0 2500000
            (Some (metadata_comment (example_metadata 7) "802.11n" 1234))
            (Printf.strlen
               (metadata_comment (example_metadata 7) "802.11n" 1234)))
         initial_state)
  /\ 96 <= Printf.strlen
             (metadata_comment (example_metadata 7) "802.11n" 1234) <= 166.
Proof.
  apply (X19_CombineMetadataWithPacket_call [0x08; 0x80] 2 1 0 0 2500000
           (example_metadata 7) 1234 initial_state "802.11n").
  reflexivity.
Defined.

(* ------------------------------------------------------------------ *)
(** ** The registry pass 1 builds *)

Lemma registered_AddInterface L M T st :
  length (InterfaceHashTable st) = Z.to_nat IFACE_HT_SIZE ->
  registered (AddInterface L M T st)
  ≡ₚ {| LowerIfIndex := L; MiniportIfIndex := M;
        PcapNgIfIndex := None; Type' := T |} :: registered st.
Proof.
  intros Hlen. pose proof (bucket_of_lt L) as Hb.
  unfold registered, AddInterface.
  cbn [InterfaceHashTable set_NumInterfaces set_InterfaceHashTable].
  apply mjoin_insert_cons. lia.
Qed.

Lemma callback_step_pass1_sound ev st st' I :
  callback_step ev st st' -> Pass2 st = false ->
  length (InterfaceHashTable st) = Z.to_nat IFACE_HT_SIZE ->
  I ∈ registered st' -> I ∈ registered st \/ registers ev I.
Proof.
  intros H HP Hlen HI.
  destruct H as [ | line | L M Hcap _ HL HM _ | m _ HP2 _
                | n bytes _ _ HP2 _ _ _ _ _
                | L p IfIndex n bytes call _ _ HP2 _ _ _ _ _ _ _ _ _ ];
    try congruence; try (by left).
  rewrite registered_AddInterface in HI by done.
  apply elem_of_cons in HI as [->|HI]; [right|by left].
  by repeat split.
Qed.

Lemma ProcessTrace_pass1_sound evs st st' I :
  ProcessTrace evs st = Returns st' -> Pass2 st = false ->
  length (InterfaceHashTable st) = Z.to_nat IFACE_HT_SIZE ->
  I ∈ registered st' ->
  I ∈ registered st \/ exists ev, ev ∈ evs /\ registers ev I.
Proof.
  revert st. induction evs as [|ev evs IH]; intros st H HP Hlen HI.
  - injection H as <-. by left.
  - cbn [ProcessTrace] in H.
    destruct (EventCallback ev st) as [st1| |] eqn:E; [|done..].
    apply EventCallback_step in E.
    destruct (callback_step_pass1 _ _ _ E HP)
      as (HP1 & _ & _ & _ & _ & _ & _ & Hl).
    destruct (IH st1 H HP1) as [Hin|(ev' & Hin & Hr)]; [congruence|done| |].
    + destruct (callback_step_pass1_sound _ _ _ I E HP Hlen Hin) as [?|Hr];
        [by left|right].
      exists ev. split; [by left|done].
    + right. exists ev'. split; [by right|done].
Qed.

(** X20. Pass 1 registers exactly the interfaces the trace names: every
    record of the registry at the end of pass 1 was added for a capture
    event of the trace, with that event's [LowerIfIndex] and
    [MiniportIfIndex], the media type of its keywords and no
    [PcapNgIfIndex]; and the [LowerIfIndex] of every capture event of the
    trace whose two indices can be read is registered. *)
Theorem X20_pass1_registry (evs : list EVENT_RECORD) (st1 : State) :
  ProcessTrace evs initial_state = Returns st1 ->
  (forall I, I ∈ registered st1 -> exists ev, ev ∈ evs /\ registers ev I)
  /\ (forall ev L M,
        ev ∈ evs -> is_capture_event ev = true ->
        prop_LowerIfIndex ev = TdhData L ->
        prop_MiniportIfIndex ev = TdhData M ->
        exists I, lookup_interface st1 L = Some I /\ LowerIfIndex I = L).
Proof.
  intros H. split.
  - intros I HI.
    destruct (ProcessTrace_pass1_sound evs initial_state st1 I H eq_refl
                length_initial_table HI) as [Hin|Hex]; [|done].
    rewrite registered_initial in Hin. by apply elem_of_nil in Hin.
  - intros ev L M Hin Hcap HL HM.
    destruct (ProcessTrace_pass1_registers evs initial_state st1 H eq_refl
                length_initial_table ev L M Hin Hcap HL HM) as [I HI].
    exists I. split; [done|].
    unfold lookup_interface in HI.
    destruct (GetInterface (InterfaceHashTable st1) L) as [p|] eqn:HG;
      [|done].
    destruct (GetInterface_deref _ _ _ HG) as (I' & HI' & Hlow & _).
    cbn [mbind option_bind] in HI. congruence.
Qed.

Lemma X20_pass1_registry_witness :
  (forall I, I ∈ registered scenario_registry ->
             exists ev, ev ∈ scenario_events /\ registers ev I)
  /\ (forall ev L M,
        ev ∈ scenario_events -> is_capture_event ev = true ->
        prop_LowerIfIndex ev = TdhData L ->
        prop_MiniportIfIndex ev = TdhData M ->
        exists I, lookup_interface scenario_registry L = Some I /\
                  LowerIfIndex I = L).
Proof.
  apply (X20_pass1_registry scenario_events scenario_registry).
  apply scenario_pass1.
Defined.

(* ------------------------------------------------------------------ *)
(** ** Traces of single-event frames *)

Lemma fragment_on_capture L ev bytes :
  fragment_on L ev bytes -> is_capture_event ev = true.
Proof.
  intros [Hp _ [Hid _ _]]. unfold is_capture_event.
  rewrite Hp, IsEqualGUID_refl.
  destruct Hid as [-> | ->]; done.
Qed.

Lemma WriteInterfaces_index qsort st1 L I :
  qsort_contract qsort -> registry_wf st1 ->
  lookup_interface st1 L = Some I ->
  exists p i,
    finalized_order qsort st1 !! i = Some I /\ LowerIfIndex I = L /\
    GetInterface (InterfaceHashTable (WriteInterfaces qsort st1)) L = Some p /\
    PcapNgIfIndex (load (InterfaceHashTable (WriteInterfaces qsort st1)) p)
    = Some (Z.of_nat i).
Proof.
  intros Hq Hwf HI.
  destruct (WriteInterfaces_numbers qsort st1 L I Hq Hwf HI)
    as (p & i & Hi & Hlow & HG & Hd).
  exists p, i. repeat split; try done.
  by rewrite (deref_load _ _ _ Hd).
Qed.

Lemma single_frame_step qsort st1 st ev :
  qsort_contract qsort -> registry_wf st1 ->
  between_frames qsort st1 st -> single_event_frame ev ->
  (forall L, prop_LowerIfIndex ev = TdhData L ->
             is_Some (lookup_interface st1 L)) ->
  exists st' call,
    EventCallback ev st = Returns st' /\
    between_frames qsort st1 st' /\
    OutFile st' = OutFile st ++ [call] /\
    packet_of_frame (finalized_order qsort st1) ev call.
Proof.
  intros Hq Hwf (HP & Ht & Hbuf & Hoff & HA) (L & M & bytes & Hf & HM & Hend & Hfit)
    Hreg.
  destruct (Hreg L (fon_lower _ _ _ Hf)) as [I HI].
  destruct (WriteInterfaces_index qsort st1 L I Hq Hwf HI)
    as (p & i & Hi & Hlow & HG & Hidx).
  rewrite <- Ht in HG, Hidx.
  assert (relevant_event st ev L p) as Hrel.
  { split; [done|apply Hf|apply Hf|done]. }
  assert (accumulating L p (Z.of_nat i) [] st) as Hacc.
  { split; try done. apply Hbuf. }
  destruct (accumulate_frame_end L p (Z.of_nat i) [] st ev bytes Hacc Hf Hend)
    as (st' & call & E & HO & Hlen & Hid & Hpay & Hoff'); [done..|].
  pose proof (EventCallback_frame_end_plain st ev L p bytes (Z.of_nat i)
                Hrel (fon_fragment _ _ _ Hf) Hend) as E'.
  rewrite Hoff in E'. specialize (E' ltac:(lia) ltac:(lia) Hidx HA).
  rewrite E' in E. injection E as <-.
  rewrite OutFile_after_packet_with_fragment in HO.
  apply app_inv_head in HO. injection HO as <-.
  eexists _, _. split; [exact E'|]. split.
  { split; [exact HP|]. split; [exact Ht|]. split.
    - eapply callback_step_buffer_ok; [|exact Hbuf].
      apply EventCallback_step. exact E'.
    - split; reflexivity. }
  split; [apply OutFile_after_packet_with_fragment|].
  exists L, bytes, i, I. do 3 (split; [done|]).
  split; [exact Hid|]. split; [exact Hlen|]. split; [exact Hpay|].
  split; reflexivity.
Qed.

Lemma single_frames_trace qsort st1 evs : forall st,
  qsort_contract qsort -> registry_wf st1 ->
  between_frames qsort st1 st -> Forall single_event_frame evs ->
  (forall ev L, ev ∈ evs -> prop_LowerIfIndex ev = TdhData L ->
                is_Some (lookup_interface st1 L)) ->
  exists st' packets,
    ProcessTrace evs st = Returns st' /\
    between_frames qsort st1 st' /\
    OutFile st' = OutFile st ++ packets /\
    Forall2 (packet_of_frame (finalized_order qsort st1)) evs packets.
Proof.
  induction evs as [|ev evs IH]; intros st Hq Hwf Hb Hall Hreg.
  - exists st, []. rewrite app_nil_r.
    split; [done|]. split; [done|]. split; [done|constructor].
  - apply Forall_cons in Hall as [Hev Hall].
    destruct (single_frame_step qsort st1 st ev Hq Hwf Hb Hev)
      as (st2 & call & E & Hb2 & HO & Hpk).
    { intros L. apply Hreg. by left. }
    destruct (IH st2 Hq Hwf Hb2 Hall) as (st' & packets & H & Hb' & HO' & HF).
    { intros ev' L Hin. apply Hreg. by right. }
    exists st', (call :: packets). split.
    { cbn [ProcessTrace]. by rewrite E. }
    split; [done|]. split.
    + by rewrite HO', HO, <- app_assoc.
    + by constructor.
Qed.


Lemma single_event_frame_fragment_event L M K T P bytes :
  has_keyword K KW_PACKET_END = true ->
  Z.of_nat (length bytes) <= MAX_PACKET_SIZE ->
  single_event_frame (fragment_event L M K T P bytes).
Proof.
  intros HK Hfit. exists L, M, bytes. split; [|done].
  split; [done..|]. split; [by left|done..].
Qed.


(* ------------------------------------------------------------------ *)
(** ** The answers of [malloc] *)

Lemma EventCallback_malloc_cases b ev st :
  EventCallback_malloc b ev st = EventCallback ev st
  \/ (b = false /\ Pass2 st = false /\
      EventCallback_malloc b ev st = Exits 1 (printf MsgOutOfMemory st)).
Proof.
  unfold EventCallback_malloc, EventCallback.
  destruct (_ || _); [by left|].
  destruct (prop_LowerIfIndex ev) as [Err|L]; [by left|]. cbv zeta.
  destruct (Pass2 st) eqn:HP; cbn [negb]; [by left|].
  unfold EventCallback_pass1_malloc, EventCallback_pass1. cbv zeta.
  destruct (GetInterface (InterfaceHashTable st) L); [by left|].
  destruct (prop_MiniportIfIndex ev) as [Err|M]; [by left|].
  unfold AddInterface_malloc. destruct b; [by left|by right].
Qed.

Lemma ProcessTrace_malloc_cases malloc evs : forall k st,
  ProcessTrace_malloc malloc k evs st = ProcessTrace evs st
  \/ exists i st0,
       (i < length evs)%nat /\ malloc (k + i)%nat = false /\
       Pass2 st0 = false /\
       ProcessTrace (take i evs) st = Returns st0 /\
       ProcessTrace_malloc malloc k evs st
       = Exits 1 (printf MsgOutOfMemory st0).
Proof.
  induction evs as [|ev evs IH]; intros k st; [by left|].
  cbn [ProcessTrace_malloc ProcessTrace].
  destruct (EventCallback_malloc_cases (malloc k) ev st)
    as [->|(Hk & HP & ->)].
  - destruct (EventCallback ev st) as [st1| |] eqn:E; [|by left..].
    destruct (IH (S k) st1) as [->|(i & st0 & Hi & Hm & HP & Ht & ->)];
      [by left|right].
    exists (S i), st0. split; [cbn [length]; lia|].
    split; [by rewrite Nat.add_succ_r|]. split; [done|].
    split; [|done]. cbn [take ProcessTrace]. by rewrite E.
  - right. exists 0%nat, st. split; [cbn [length]; lia|].
    split; [by rewrite Nat.add_0_r|]. done.
Qed.

Lemma ProcessTrace_malloc_blocks malloc k evs st :
  (forall i, (i < length evs)%nat -> malloc (k + i)%nat = true) ->
  ProcessTrace_malloc malloc k evs st = ProcessTrace evs st.
Proof.
  intros Hall.
  destruct (ProcessTrace_malloc_cases malloc evs k st)
    as [->|(i & st0 & Hi & Hm & _)]; [done|].
  rewrite (Hall i Hi) in Hm. done.
Qed.

Lemma ProcessTrace_malloc_pass2 malloc k evs st :
  Pass2 st = true ->
  ProcessTrace_malloc malloc k evs st = ProcessTrace evs st.
Proof.
  intros HP.
  destruct (ProcessTrace_malloc_cases malloc evs k st)
    as [->|(i & st0 & _ & _ & HP0 & Ht & _)]; [done|].
  destruct (ProcessTrace_pass2_table _ _ _ Ht HP) as [_ HP'].
  congruence.
Qed.

Lemma ProcessTrace_malloc_Returns malloc k evs st st' :
  ProcessTrace_malloc malloc k evs st = Returns st' ->
  ProcessTrace evs st = Returns st'.
Proof.
  destruct (ProcessTrace_malloc_cases malloc evs k st)
    as [->|(i & st0 & _ & _ & _ & _ & ->)]; done.
Qed.

Lemma ProcessTrace_malloc_Exits malloc k evs st code st' :
  ProcessTrace_malloc malloc k evs st = Exits code st' ->
  code = 1 /\
  exists st0,
    (Pass2 st0 = true /\ st' = printf MsgUnrecognizedIfIndex st0)
    \/ (Pass2 st0 = false /\ st' = printf MsgOutOfMemory st0).
Proof.
  destruct (ProcessTrace_malloc_cases malloc evs k st)
    as [->|(i & st0 & _ & _ & HP0 & _ & ->)].
  - intros H. apply ProcessTrace_Exits in H as (-> & st0 & HP & ->).
    split; [done|]. exists st0. by left.
  - intros [= <- <-]. split; [done|]. exists st0. by right.
Qed.

Lemma convert_malloc_blocks malloc qsort evs :
  (forall k, (k < length evs)%nat -> malloc k = true) ->
  convert_malloc malloc true qsort evs = convert qsort evs.
Proof.
  intros Hall. unfold convert_malloc, convert.
  rewrite ProcessTrace_malloc_blocks by done.
  destruct (ProcessTrace evs initial_state) as [st1| |]; [|done..].
  cbn [WriteInterfaces_malloc negb].
  by apply ProcessTrace_malloc_pass2.
Qed.

(* ------------------------------------------------------------------ *)
(** ** Pass 1, with the answers of [malloc] *)

(** X3. Pass 1 runs to its end when [malloc] gives a block to every
    [AddInterface], and ends in no other way than by returning or by the
    [exit (1)] of an [AddInterface] whose [malloc] answered [NULL], never
    in an undefined access: over a trace of fewer than 2^32 events from
    the initial state, when it returns the registry is well formed and
    has at most as many records as there are events, [Pass2] is still
    unset, nothing was handed to the writer, and the frame counter, the
    fragment buffer and the metadata slot are untouched; when it exits,
    the status is 1 and the last line printed is the out-of-memory
    message. *)
Theorem X3_pass1_total (malloc : nat -> bool) (evs : list EVENT_RECORD) :
  Z.of_nat (length evs) < 2 ^ 32 ->
  ((forall k, (k < length evs)%nat -> malloc k = true) ->
   exists st1, ProcessTrace_malloc malloc 0 evs initial_state = Returns st1)
  /\ match ProcessTrace_malloc malloc 0 evs initial_state with
     | Returns st1 =>
         pass1_untouched initial_state st1 /\ registry_wf st1 /\
         (length (registered st1) <= length evs)%nat
     | Exits code st' =>
         code = 1 /\
         exists k st0,
           (k < length evs)%nat /\ malloc k = false /\
           Pass2 st0 = false /\ st' = printf MsgOutOfMemory st0
     | Undefined _ _ => False
     end.
Proof.
  intros Hn.
  destruct (ProcessTrace_pass1 evs initial_state) as (st1 & H & Hu); [done|].
  assert (pass1_inv 0 initial_state) as Hinv.
  { split; [apply initial_state_wf|]. split; [done|].
    by rewrite registered_initial. }
  destruct (ProcessTrace_pass1_inv evs 0 initial_state st1 Hinv)
    as (Hwf & _ & Hlen); [by rewrite Nat.add_0_l|done|].
  rewrite Nat.add_0_l in Hlen.
  destruct (ProcessTrace_malloc_cases malloc evs 0 initial_state)
    as [->|(i & st0 & Hi & Hm & HP0 & _ & ->)].
  - rewrite H. split; [by eexists|done].
  - rewrite Nat.add_0_l in Hm. split.
    + intros Hall. rewrite (Hall i Hi) in Hm. done.
    + split; [done|]. by exists i, st0.
Qed.

Lemma X3_pass1_total_witness :
  ((forall k, (k < length scenario_events)%nat -> (fun _ => true) k = true) ->
   exists st1,
     ProcessTrace_malloc (fun _ => true) 0 scenario_events initial_state
     = Returns st1)
  /\ match ProcessTrace_malloc (fun _ => true) 0 scenario_events
             initial_state with
     | Returns st1 =>
         pass1_untouched initial_state st1 /\ registry_wf st1 /\
         (length (registered st1) <= length scenario_events)%nat
     | Exits code st' =>
         code = 1 /\
         exists k st0,
           (k < length scenario_events)%nat /\ (fun _ => true) k = false /\
           Pass2 st0 = false /\ st' = printf MsgOutOfMemory st0
     | Undefined _ _ => False
     end.
Proof.
  apply (X3_pass1_total (fun _ => true) scenario_events).
  cbn [length scenario_events]. lia.
Defined.

(* ------------------------------------------------------------------ *)
(** ** The conversion, with the answers of [malloc] *)

Lemma unregistered_interface_exits (qsort : QSORT) (ev : EVENT_RECORD)
    (evs : list EVENT_RECORD) (L : Z) :
  is_capture_event ev = true ->
  prop_LowerIfIndex ev = TdhData L ->
  (forall ev', ev' ∈ ev :: evs -> prop_LowerIfIndex ev' = TdhData L ->
               exists Err, prop_MiniportIfIndex ev' = TdhError Err) ->
  exists st1,
    ProcessTrace (ev :: evs) initial_state = Returns st1 /\
    convert qsort (ev :: evs)
    = Exits 1 (printf MsgUnrecognizedIfIndex
                 (set_Pass2 true (WriteInterfaces qsort st1))).
Proof.
  intros Hcap HL Hno.
  destruct (ProcessTrace_pass1 (ev :: evs) initial_state) as (st1 & H1 & _);
    [done|].
  exists st1. split; [done|].
  unfold convert. rewrite H1.
  assert (GetInterface (InterfaceHashTable st1) L = None) as HG.
  { eapply ProcessTrace_pass1_miss; [exact H1|done| |exact Hno|].
    - apply length_initial_table.
    - apply GetInterface_initial. }
  cbn [ProcessTrace].
  rewrite (EventCallback_unregistered ev _ L); try done.
  cbn [InterfaceHashTable set_Pass2].
  by rewrite WriteInterfaces_GetInterface.
Qed.

(** X7. An interface whose [MiniportIfIndex] cannot be read is never
    registered, and that stops the conversion.  Provided [malloc] gives a
    block to every [AddInterface] and to [WriteInterfaces]: when the
    first event of the trace is a capture event that names the interface
    [L], and the [MiniportIfIndex] of every event that names [L] is
    unreadable, pass 1 runs to its end, and pass 2 terminates the process
    with status 1 at that first event, after the interface descriptions
    and before any packet, having printed that the interface is
    unrecognized. *)
Theorem X7_unregistered_interface_exits (malloc : nat -> bool)
    (qsort : QSORT) (ev : EVENT_RECORD) (evs : list EVENT_RECORD) (L : Z) :
  (forall k, (k < length (ev :: evs))%nat -> malloc k = true) ->
  is_capture_event ev = true ->
  prop_LowerIfIndex ev = TdhData L ->
  (forall ev', ev' ∈ ev :: evs -> prop_LowerIfIndex ev' = TdhData L ->
               exists Err, prop_MiniportIfIndex ev' = TdhError Err) ->
  exists st1,
    ProcessTrace_malloc malloc 0 (ev :: evs) initial_state = Returns st1 /\
    convert_malloc malloc true qsort (ev :: evs)
    = Exits 1 (printf MsgUnrecognizedIfIndex
                 (set_Pass2 true (WriteInterfaces qsort st1))).
Proof.
  intros Hall Hcap HL Hno.
  destruct (unregistered_interface_exits qsort ev evs L Hcap HL Hno)
    as (st1 & H1 & Hc).
  exists st1. rewrite convert_malloc_blocks by done.
  rewrite ProcessTrace_malloc_blocks by done. done.
Qed.

Lemma X7_unregistered_interface_exits_witness :
  exists st1,
    ProcessTrace_malloc (fun _ => true) 0
      (orphan_event 9 1168 :: scenario_events) initial_state
    = Returns st1 /\
    convert_malloc (fun _ => true) true insertion_qsort
      (orphan_event 9 1168 :: scenario_events)
    = Exits 1 (printf MsgUnrecognizedIfIndex
                 (set_Pass2 true (WriteInterfaces insertion_qsort st1))).
Proof.
  apply (X7_unregistered_interface_exits (fun _ => true) insertion_qsort
           (orphan_event 9 1168) scenario_events 9).
  - reflexivity.
  - reflexivity.
  - reflexivity.
  - intros ev' Hin HL. unfold scenario_events in Hin.
    repeat (apply elem_of_cons in Hin as [->|Hin]).
    + by exists 1168.
    + discriminate HL.
    + discriminate HL.
    + discriminate HL.
    + by apply elem_of_nil in Hin.
Defined.

(** X8. Provided [malloc] gives a block to every [AddInterface] and to
    [WriteInterfaces], the conversion runs to its end on every trace of
    fewer than 2^32 events in which each capture event with a readable
    [LowerIfIndex] has a readable [MiniportIfIndex] and each metadata
    record has a phy type from 0 to 10, for every [qsort] that meets its
    contract: both passes return, the output is the interface
    descriptions in the finalized order followed by packets only,
    [NumFramesConverted] is the number of those packets, and the fragment
    buffer is intact. *)
Theorem X8_convert_returns (malloc : nat -> bool) (qsort : QSORT)
    (evs : list EVENT_RECORD) :
  (forall k, (k < length evs)%nat -> malloc k = true) ->
  qsort_contract qsort ->
  Z.of_nat (length evs) < 2 ^ 32 ->
  Forall convertible evs ->
  exists st1 st',
    ProcessTrace_malloc malloc 0 evs initial_state = Returns st1 /\
    convert_malloc malloc true qsort evs = Returns st' /\
    buffer_ok st' /\
    exists packets,
      OutFile st'
      = (interface_desc <$> finalized_order qsort st1) ++ packets /\
      Forall is_packet packets /\
      NumFramesConverted st' = Z.of_nat (length packets).
Proof.
  intros Hall Hq Hn Hconv.
  destruct (convert_returns qsort evs Hq Hn Hconv)
    as (st1 & st' & H1 & Hc & Hrest).
  exists st1, st'. rewrite convert_malloc_blocks by done.
  rewrite ProcessTrace_malloc_blocks by done. done.
Qed.

Lemma X8_convert_returns_witness :
  exists st1 st',
    ProcessTrace_malloc (fun _ => true) 0 scenario_events initial_state
    = Returns st1 /\
    convert_malloc (fun _ => true) true insertion_qsort scenario_events
    = Returns st' /\
    buffer_ok st' /\
    exists packets,
      OutFile st'
      = (interface_desc <$> finalized_order insertion_qsort st1) ++ packets /\
      Forall is_packet packets /\
      NumFramesConverted st' = Z.of_nat (length packets).
Proof.
  apply (X8_convert_returns (fun _ => true) insertion_qsort scenario_events).
  - reflexivity.
  - apply insertion_qsort_contract.
  - cbn [length scenario_events]. lia.
  - unfold scenario_events.
    repeat (apply Forall_cons; split; [apply convertible_fragment_event|]).
    apply Forall_nil_2.
Defined.

Lemma single_event_frames_convert (qsort : QSORT) (evs : list EVENT_RECORD) :
  qsort_contract qsort ->
  Z.of_nat (length evs) < 2 ^ 32 ->
  Forall single_event_frame evs ->
  exists st1 st' packets,
    ProcessTrace evs initial_state = Returns st1 /\
    convert qsort evs = Returns st' /\
    OutFile st'
    = (interface_desc <$> finalized_order qsort st1) ++ packets /\
    Forall2 (packet_of_frame (finalized_order qsort st1)) evs packets /\
    NumFramesConverted st' = Z.of_nat (length evs).
Proof.
  intros Hq Hn Hall.
  destruct (ProcessTrace_pass1 evs initial_state) as (st1 & H1 & Hu);
    [done|].
  destruct Hu as (HP1 & HO1 & HN1 & HB1 & HF1 & HM1 & HA1 & HL1).
  destruct (pass1_registry_wf evs st1 Hn H1) as [Hwf _].
  pose proof (WriteInterfaces_numbered qsort Hq st1 Hwf) as Hnum.
  destruct (nu_frame _ _ _ _ Hnum) as (HN2 & HP2 & HB2 & HF2 & HM2 & HA2 & _).
  set (st2 := set_Pass2 true (WriteInterfaces qsort st1)).
  assert (between_frames qsort st1 st2) as Hb.
  { destruct buffer_ok_initial as [Hl Ho].
    split; [done|]. split; [done|]. split.
    - split; unfold st2; cbn [AuxFragBuf AuxFragBufOffset set_Pass2];
        congruence.
    - unfold st2. cbn [AuxFragBufOffset AddMetadata set_Pass2].
      split; [by rewrite HF2, HF1|by rewrite HA2, HA1]. }
  destruct (single_frames_trace qsort st1 evs st2 Hq Hwf Hb Hall)
    as (st' & packets & H2 & _ & HO & HF).
  { intros ev L Hin HL.
    pose proof (proj1 (Forall_forall _ _) Hall ev Hin)
      as (L' & M & bytes & Hf & HM & _ & _).
    eapply (ProcessTrace_pass1_registers evs initial_state st1 H1 eq_refl
              length_initial_table ev L M Hin); try done.
    by eapply fragment_on_capture. }
  exists st1, st', packets. split; [done|]. split.
  { unfold convert. by rewrite H1. }
  split.
  { rewrite HO. unfold st2. cbn [OutFile set_Pass2].
    rewrite (WriteInterfaces_OutFile qsort Hq st1 Hwf), HO1. done. }
  split; [done|].
  destruct (ProcessTrace_counter evs st2 st' H2)
    as (calls & HO' & _ & _ & HN).
  { unfold st2. cbn [NumFramesConverted set_Pass2]. rewrite HN2, HN1. done. }
  { unfold st2. cbn [NumFramesConverted set_Pass2]. rewrite HN2, HN1.
    change (NumFramesConverted initial_state) with 0. lia. }
  rewrite HO in HO'. apply app_inv_head in HO'. subst calls.
  rewrite HN. unfold st2. cbn [NumFramesConverted set_Pass2].
  rewrite HN2, HN1. change (NumFramesConverted initial_state) with 0.
  by rewrite <- (Forall2_length _ _ _ HF).
Qed.

(** X21. Provided [malloc] gives a block to every [AddInterface] and to
    [WriteInterfaces]: on a trace in which every event is a frame traced
    as a single event (a fragment event of the capture provider with
    [KW_PACKET_END], readable interface indices and at most
    [MAX_PACKET_SIZE] bytes), of fewer than 2^32 events, the conversion
    writes one packet per event, in the order of the events, after the
    interface descriptions: the packet of an event has the event's bytes
    as payload (with the protected flag cleared for an 802.11 event) and
    their number as length, the position of the event's interface in the
    finalized order as interface id, the direction of the event's
    [KW_SEND] keyword and the process id as comment; and
    [NumFramesConverted] ends as the number of events. *)
Theorem X21_single_event_frames (malloc : nat -> bool) (qsort : QSORT)
    (evs : list EVENT_RECORD) :
  (forall k, (k < length evs)%nat -> malloc k = true) ->
  qsort_contract qsort ->
  Z.of_nat (length evs) < 2 ^ 32 ->
  Forall single_event_frame evs ->
  exists st1 st' packets,
    ProcessTrace_malloc malloc 0 evs initial_state = Returns st1 /\
    convert_malloc malloc true qsort evs = Returns st' /\
    OutFile st'
    = (interface_desc <$> finalized_order qsort st1) ++ packets /\
    Forall2 (packet_of_frame (finalized_order qsort st1)) evs packets /\
    NumFramesConverted st' = Z.of_nat (length evs).
Proof.
  intros Hall Hq Hn Hframes.
  destruct (single_event_frames_convert qsort evs Hq Hn Hframes)
    as (st1 & st' & packets & H1 & Hc & Hrest).
  exists st1, st', packets. rewrite convert_malloc_blocks by done.
  rewrite ProcessTrace_malloc_blocks by done. done.
Qed.

Lemma X21_single_event_frames_witness :
  exists st1 st' packets,
    ProcessTrace_malloc (fun _ => true) 0 scenario_events initial_state
    = Returns st1 /\
    convert_malloc (fun _ => true) true insertion_qsort scenario_events
    = Returns st' /\
    OutFile st'
    = (interface_desc <$> finalized_order insertion_qsort st1) ++ packets /\
    Forall2 (packet_of_frame (finalized_order insertion_qsort st1))
      scenario_events packets /\
    NumFramesConverted st' = Z.of_nat (length scenario_events).
Proof.
  apply (X21_single_event_frames (fun _ => true) insertion_qsort
           scenario_events).
  - reflexivity.
  - apply insertion_qsort_contract.
  - cbn [length scenario_events]. lia.
  - unfold scenario_events.
    repeat (apply Forall_cons; split;
            [apply single_event_frame_fragment_event;
             [reflexivity|cbn [length]; unfold MAX_PACKET_SIZE; lia]|]).
    apply Forall_nil_2.
Defined.

(* ------------------------------------------------------------------ *)
(** ** Runs of [wmain] *)

(** X17. A run of [wmain] with an input and an output file name returns 0
    with the output file closed when [CreateFile],
    [PcapNgWriteSectionHeader], [OpenTrace] and both calls of
    [ProcessTrace] succeed, [malloc] gives a block to every
    [AddInterface] and to [WriteInterfaces], both passes deliver the same
    trace, and the trace is one the conversion gets through: the program
    ends in the state of the two-pass conversion, the file holds (after
    the section header) the interface descriptions in the finalized order
    followed by packets only, and the one line [wmain] prints reports the
    number of those packets. *)
Theorem X17_wmain_converts (qsort : QSORT)
    (prog InFileName OutFileName : string) (os : WIN32)
    (evs : list EVENT_RECORD) :
  qsort_contract qsort ->
  CreateFile_LastError os = None ->
  PcapNgWriteSectionHeader_Err os = NO_ERROR ->
  OpenTrace_LastError os = None ->
  Pass1_Events os = evs -> Word.s32 (Pass1_Err os) = NO_ERROR ->
  Pass2_Events os = evs -> Word.s32 (Pass2_Err os) = NO_ERROR ->
  (forall k, (k < length evs)%nat -> malloc_NewIface os k = true) ->
  malloc_InterfaceArray os = true ->
  Z.of_nat (length evs) < 2 ^ 32 ->
  Forall convertible evs ->
  exists st1 st packets,
    wmain qsort [prog; InFileName; OutFileName] os
    = Done NO_ERROR [MsgConvertedFrames (Z.of_nat (length packets))] st true /\
    ProcessTrace_malloc (malloc_NewIface os) 0 evs initial_state
    = Returns st1 /\
    convert_malloc (malloc_NewIface os) true qsort evs = Returns st /\
    OutFile st = (interface_desc <$> finalized_order qsort st1) ++ packets /\
    Forall is_packet packets.
Proof.
  intros Hq HC HS HO HE1 HR1 HE2 HR2 Hall HA Hn Hconv.
  destruct (convert_returns qsort evs Hq Hn Hconv)
    as (st1 & st & H1 & Hc & _ & packets & Hout & Hpk & Hcount).
  assert (ProcessTrace_malloc (malloc_NewIface os) 0 evs initial_state
          = Returns st1) as H1m
    by (by rewrite ProcessTrace_malloc_blocks).
  assert (convert_malloc (malloc_NewIface os) true qsort evs = Returns st)
    as Hcm by (by rewrite convert_malloc_blocks).
  exists st1, st, packets. split; [|done].
  unfold convert_malloc in Hcm. rewrite H1m in Hcm.
  cbn [WriteInterfaces_malloc negb] in Hcm.
  unfold wmain. cbv zeta.
  change (Z.of_nat (length [prog; InFileName; OutFileName]) =? 2)
    with false.
  change (Z.of_nat (length [prog; InFileName; OutFileName]) =? 3)
    with true.
  cbn [andb negb].
  rewrite HC, HS, HO, HE1, H1m, HR1, HA, HE2.
  cbn [WriteInterfaces_malloc negb].
  change (NO_ERROR =? NO_ERROR) with true. cbn [negb].
  rewrite Hcm, HR2, Hcount.
  done.
Qed.

Lemma X17_wmain_converts_witness :
  exists st1 st packets,
    wmain insertion_qsort ["etl2pcapng"; "in.etl"; "out.pcapng"]%string
      (obliging_system scenario_events)
    = Done NO_ERROR [MsgConvertedFrames (Z.of_nat (length packets))] st true /\
    ProcessTrace_malloc (malloc_NewIface (obliging_system scenario_events)) 0
      scenario_events initial_state
    = Returns st1 /\
    convert_malloc (malloc_NewIface (obliging_system scenario_events)) true
      insertion_qsort scenario_events = Returns st /\
    OutFile st
    = (interface_desc <$> finalized_order insertion_qsort st1) ++ packets /\
    Forall is_packet packets.
Proof.
  apply (X17_wmain_converts insertion_qsort).
  - apply insertion_qsort_contract.
  - reflexivity.
  - reflexivity.
  - reflexivity.
  - reflexivity.
  - reflexivity.
  - reflexivity.
  - reflexivity.
  - reflexivity.
  - reflexivity.
  - cbn [length scenario_events]. lia.
  - unfold scenario_events.
    repeat (apply Forall_cons; split; [apply convertible_fragment_event|]).
    apply Forall_nil_2.
Defined.

Lemma ProcessTrace_malloc_pass1_Returns malloc k evs st st' :
  ProcessTrace_malloc malloc k evs st = Returns st' ->
  Pass2 st = false -> Pass2 st' = false.
Proof.
  intros H HP. apply ProcessTrace_malloc_Returns in H.
  destruct (ProcessTrace_pass1 evs st HP) as (st'' & H' & Hu).
  rewrite H in H'. injection H' as <-. apply Hu.
Qed.

(** X18. How a run of [wmain] ends.  [CloseHandle] is called exactly
    when there were three arguments, [CreateFile] gave a handle and
    [wmain] returns.  When the process is ended by [exit], the status is
    1 and it is ended in pass 2 by the callback, after printing that an
    interface is unrecognized, or before pass 2 by [AddInterface] or
    [WriteInterfaces], after printing that memory ran out; then [wmain]
    prints nothing and does not close the file.  The line with the
    number of converted frames is printed only on the way that returns 0
    after both passes, with the value of [NumFramesConverted]. *)
Theorem X18_wmain_endings (qsort : QSORT) (argv : list string) (os : WIN32) :
  (HandleClosed (wmain qsort argv os) = true <->
   length argv = 3%nat /\ CreateFile_LastError os = None /\
   exists Err, Ending (wmain qsort argv os) = MainReturns Err)
  /\ (forall code,
        Ending (wmain qsort argv os) = ProcessExits code ->
        code = 1 /\ Lines (wmain qsort argv os) = [] /\
        HandleClosed (wmain qsort argv os) = false /\
        exists st0,
          (Pass2 st0 = true /\
           Globals (wmain qsort argv os) = printf MsgUnrecognizedIfIndex st0)
          \/ (Pass2 st0 = false /\
              Globals (wmain qsort argv os) = printf MsgOutOfMemory st0))
  /\ (forall n,
        MsgConvertedFrames n ∈ Lines (wmain qsort argv os) ->
        Ending (wmain qsort argv os) = MainReturns NO_ERROR /\
        HandleClosed (wmain qsort argv os) = true /\
        Pass2 (Globals (wmain qsort argv os)) = true /\
        n = NumFramesConverted (Globals (wmain qsort argv os))).
Proof.
  unfold wmain. cbv zeta.
  destruct (Z.eqb_spec (Z.of_nat (length argv)) 2) as [H2|H2]; cbn [andb].
  - destruct (argv !! 1%nat) as [a|].
    + destruct (is_version_flag a).
      * cbn. split; [split; [done|intros (?&_); lia]|].
        split; [done|]. intros k Hk. set_solver.
      * destruct (Z.eqb_spec (Z.of_nat (length argv)) 3); [lia|].
        cbn. split; [split; [done|intros (?&_); lia]|].
        split; [done|]. intros k Hk. set_solver.
    + destruct (Z.eqb_spec (Z.of_nat (length argv)) 3); [lia|].
      cbn. split; [split; [done|intros (?&_); lia]|].
      split; [done|]. intros k Hk. set_solver.
  - destruct (Z.eqb_spec (Z.of_nat (length argv)) 3) as [H3|H3];
      cbn [negb].
    2:{ cbn. split; [split; [done|intros (?&_); lia]|].
        split; [done|]. intros k Hk. set_solver. }
    assert (length argv = 3%nat) as Hlen by lia.
    destruct (CreateFile_LastError os) as [e|].
    { cbn. split; [split; [done|by intros (_&?&_)]|].
      split; [done|]. intros k Hk.
      destruct (_ =? _); set_solver. }
    destruct (Z.eqb_spec (PcapNgWriteSectionHeader_Err os) NO_ERROR)
      as [HS|HS]; cbn [negb].
    2:{ cbn. split; [split; [by eauto|done]|].
        split; [done|]. intros k Hk. set_solver. }
    destruct (OpenTrace_LastError os) as [e|].
    { cbn. split; [split; [by eauto|done]|].
      split; [done|]. intros k Hk. set_solver. }
    destruct (ProcessTrace_malloc (malloc_NewIface os) 0 (Pass1_Events os)
                initial_state) as [st1|code1 st1|why1 st1] eqn:E1.
    + pose proof (ProcessTrace_malloc_pass1_Returns _ _ _ _ _ E1 eq_refl)
        as HP1.
      destruct (Z.eqb_spec (Word.s32 (Pass1_Err os)) NO_ERROR)
        as [HR1|HR1]; cbn [negb].
      2:{ cbn. split; [split; [by eauto|done]|].
          split; [done|]. intros k Hk. set_solver. }
      destruct (malloc_InterfaceArray os); cbn [WriteInterfaces_malloc negb].
      2:{ cbn. split; [split; [done|by intros (_&_&?&?)]|].
          split; [|intros k Hk; set_solver].
          intros code [= <-]. do 3 (split; [done|]).
          exists st1. by right. }
      destruct (ProcessTrace_malloc (malloc_NewIface os)
                  (length (Pass1_Events os)) (Pass2_Events os)
                  (set_Pass2 true (WriteInterfaces qsort st1)))
        as [st3|code3 st3|why3 st3] eqn:E3.
      * pose proof (ProcessTrace_Returns_Pass2 _ _ _
                      (ProcessTrace_malloc_Returns _ _ _ _ _ E3) eq_refl)
          as HP3.
        destruct (Z.eqb_spec (Word.s32 (Pass2_Err os)) NO_ERROR)
          as [HR2|HR2]; cbn [negb].
        -- cbn. split; [split; [by eauto|done]|].
           split; [done|]. intros k Hk.
           apply list_elem_of_singleton in Hk. injection Hk as ->.
           by rewrite HR2.
        -- cbn. split; [split; [by eauto|done]|].
           split; [done|]. intros k Hk. set_solver.
      * apply ProcessTrace_malloc_Exits in E3 as (-> & st0 & Hst0).
        cbn. split; [split; [done|by intros (_&_&?&?)]|].
        split; [|intros k Hk; set_solver].
        intros code [= <-]. do 3 (split; [done|]). by exists st0.
      * cbn. split; [split; [done|by intros (_&_&?&?)]|].
        split; [done|]. intros k Hk. set_solver.
    + apply ProcessTrace_malloc_Exits in E1 as (-> & st0 & Hst0).
      cbn. split; [split; [done|by intros (_&_&?&?)]|].
      split; [|intros k Hk; set_solver].
      intros code [= <-]. do 3 (split; [done|]). by exists st0.
    + cbn. split; [split; [done|by intros (_&_&?&?)]|].
      split; [done|]. intros k Hk. set_solver.
Qed.

(* ------------------------------------------------------------------ *)
(** ** A call that prints *)

Lemma X14_printing_changes_nothing_else_witness :
  Console (printf (MsgTdhGetPropertyFailed "LowerIfIndex" 1168)
             scenario_pass2)
  = Console scenario_pass2
  \/ exists line,
       printf (MsgTdhGetPropertyFailed "LowerIfIndex" 1168) scenario_pass2
       = printf line scenario_pass2.
Proof.
  apply (X14_printing_changes_nothing_else unreadable_event).
  reflexivity.
Defined.

(* ------------------------------------------------------------------ *)
(** ** The protected flag and the media type recorded for the interface *)

Lemma wifi_pass1 :
  ProcessTrace [tagged_frame] initial_state = Returns wifi_registry.
Proof. reflexivity. Qed.

Lemma wifi_pass2_buffer :
  AuxFragBufOffset wifi_pass2 = 0 /\ AddMetadata wifi_pass2 = false.
Proof. by split. Qed.

Lemma wifi_pass2_untagged_frame :
  EventCallback untagged_frame wifi_pass2 =
  Returns (after_packet
             (plain_packet untagged_frame
                (with_fragment [0x08; 0xC0; 0x01; 0x02] wifi_pass2) 4 0)
             untagged_frame
             (with_fragment [0x08; 0xC0; 0x01; 0x02] wifi_pass2)).
Proof.
  destruct wifi_pass2_buffer as (Hoff & Hmeta).
  apply (EventCallback_frame_end_plain _ _ 9 (9%nat, 0%nat)).
  - by split.
  - split; [by left|done..].
  - reflexivity.
  - by rewrite Hoff.
  - rewrite Hoff. unfold MAX_PACKET_SIZE. simpl. lia.
  - reflexivity.
  - exact Hmeta.
Qed.

(** C5 (as stated) fails in both directions, because the flag is cleared
    on the keywords of the frame-end event and not on the media type
    recorded for the interface.  Interface 5 of the scenario is recorded
    as Ethernet in pass 1; its frame [08 C0 01 02], whose event carries
    the native 802.11 keyword, reaches the writer as [08 80 01 02].
    Interface 9 is recorded as 802.11, from a first event with the
    keyword; its frame [08 C0 01 02], whose event does not carry the
    keyword, reaches the writer as it is. *)
Lemma C5_counterexample :
  (ProcessTrace scenario_events initial_state = Returns scenario_registry /\
   GetInterface (InterfaceHashTable scenario_pass2) 5 = Some (5%nat, 0%nat) /\
   Type' (load (InterfaceHashTable scenario_pass2) (5%nat, 0%nat))
   = PCAPNG_LINKTYPE_ETHERNET /\
   fragment_on 5 wifi_frame [0x08; 0xC0; 0x01; 0x02] /\
   exists st1 c1,
     EventCallback wifi_frame scenario_pass2 = Returns st1 /\
     OutFile st1 = OutFile scenario_pass2 ++ [c1] /\
     packet_payload c1 = [0x08; 0x80; 0x01; 0x02])
  /\
  (ProcessTrace [tagged_frame] initial_state = Returns wifi_registry /\
   GetInterface (InterfaceHashTable wifi_pass2) 9 = Some (9%nat, 0%nat) /\
   Type' (load (InterfaceHashTable wifi_pass2) (9%nat, 0%nat))
   = PCAPNG_LINKTYPE_IEEE802_11 /\
   fragment_on 9 untagged_frame [0x08; 0xC0; 0x01; 0x02] /\
   exists st2 c2,
     EventCallback untagged_frame wifi_pass2 = Returns st2 /\
     OutFile st2 = OutFile wifi_pass2 ++ [c2] /\
     packet_payload c2 = [0x08; 0xC0; 0x01; 0x02]).
Proof.
  split.
  - split; [apply scenario_pass1|].
    split; [reflexivity|]. split; [reflexivity|].
    split; [split; [done..|split; [by left|done..]]|].
    do 2 eexists. split; [apply scenario_wifi_frame|].
    split; [apply OutFile_after_packet_with_fragment|].
    vm_compute. reflexivity.
  - split; [apply wifi_pass1|].
    split; [reflexivity|]. split; [reflexivity|].
    split; [split; [done..|split; [by left|done..]]|].
    do 2 eexists. split; [apply wifi_pass2_untagged_frame|].
    split; [apply OutFile_after_packet_with_fragment|].
    vm_compute. reflexivity.
Qed.

(* ------------------------------------------------------------------ *)
(** ** Out of memory *)

Lemma ProcessTrace_malloc_app malloc evs evs' : forall k st st1,
  ProcessTrace_malloc malloc k evs st = Returns st1 ->
  ProcessTrace_malloc malloc k (evs ++ evs') st
  = ProcessTrace_malloc malloc (k + length evs) evs' st1.
Proof.
  induction evs as [|ev evs IH]; intros k st st1 H.
  - injection H as <-. by rewrite Nat.add_0_r.
  - cbn [ProcessTrace_malloc app length] in *.
    destruct (EventCallback_malloc (malloc k) ev st) as [st2| |];
      [|done..].
    rewrite (IH (S k) st2 st1 H). f_equal. lia.
Qed.

Lemma EventCallback_malloc_NULL ev st L M :
  Pass2 st = false -> is_capture_event ev = true ->
  prop_LowerIfIndex ev = TdhData L -> prop_MiniportIfIndex ev = TdhData M ->
  GetInterface (InterfaceHashTable st) L = None ->
  EventCallback_malloc false ev st = Exits 1 (printf MsgOutOfMemory st).
Proof.
  intros HP Hcap HL HM HG.
  unfold EventCallback_malloc, EventCallback_pass1_malloc.
  rewrite capture_guard, Hcap, HL, HP. cbn [negb]. cbv zeta.
  by rewrite HG, HM.
Qed.

(** X22. Running out of memory ends the conversion before anything is
    written.  When pass 1 has returned from the events [evs1] and the
    next event is a capture event with readable indices that names an
    interface not yet registered, an [AddInterface] whose [malloc]
    answers [NULL] ends the process with status 1, the registry being as
    [evs1] left it and the last line printed being the out-of-memory
    message; and when pass 1 has returned from the whole trace, a
    [WriteInterfaces] whose [malloc] answers [NULL] ends the process in
    the same way.  In both cases no interface description and no packet
    has been handed to the writer. *)
Theorem X22_out_of_memory (malloc : nat -> bool) (qsort : QSORT)
    (evs1 : list EVENT_RECORD) (st1 : State) :
  ProcessTrace_malloc malloc 0 evs1 initial_state = Returns st1 ->
  (forall InterfaceArray ev evs2 L M,
     is_capture_event ev = true ->
     prop_LowerIfIndex ev = TdhData L ->
     prop_MiniportIfIndex ev = TdhData M ->
     GetInterface (InterfaceHashTable st1) L = None ->
     malloc (length evs1) = false ->
     convert_malloc malloc InterfaceArray qsort (evs1 ++ ev :: evs2)
     = Exits 1 (printf MsgOutOfMemory st1))
  /\ convert_malloc malloc false qsort evs1
     = Exits 1 (printf MsgOutOfMemory st1)
  /\ OutFile (printf MsgOutOfMemory st1) = []
  /\ Pass2 st1 = false.
Proof.
  intros H1.
  destruct (ProcessTrace_pass1 evs1 initial_state eq_refl)
    as (st1' & H1' & Hu).
  rewrite (ProcessTrace_malloc_Returns _ _ _ _ _ H1) in H1'.
  injection H1' as <-.
  destruct Hu as (HP1 & HO1 & _).
  split; [|split; [|split]].
  - intros InterfaceArray ev evs2 L M Hcap HL HM HG Hnull.
    unfold convert_malloc.
    rewrite (ProcessTrace_malloc_app _ _ _ _ _ _ H1).
    cbn [ProcessTrace_malloc Nat.add]. rewrite Hnull.
    by rewrite (EventCallback_malloc_NULL ev st1 L M).
  - unfold convert_malloc. by rewrite H1.
  - exact HO1.
  - exact HP1.
Qed.

Lemma X22_out_of_memory_witness :
  (forall InterfaceArray ev evs2 L M,
     is_capture_event ev = true ->
     prop_LowerIfIndex ev = TdhData L ->
     prop_MiniportIfIndex ev = TdhData M ->
     GetInterface (InterfaceHashTable wifi_registry) L = None ->
     (fun k => negb (Nat.eqb k 1)) (length [tagged_frame]) = false ->
     convert_malloc (fun k => negb (Nat.eqb k 1)) InterfaceArray
       insertion_qsort ([tagged_frame] ++ ev :: evs2)
     = Exits 1 (printf MsgOutOfMemory wifi_registry))
  /\ convert_malloc (fun k => negb (Nat.eqb k 1)) false insertion_qsort
       [tagged_frame]
     = Exits 1 (printf MsgOutOfMemory wifi_registry)
  /\ OutFile (printf MsgOutOfMemory wifi_registry) = []
  /\ Pass2 wifi_registry = false.
Proof.
  apply (X22_out_of_memory (fun k => negb (Nat.eqb k 1)) insertion_qsort
           [tagged_frame] wifi_registry).
  reflexivity.
Defined.
